(** * LinDB broker query: task manager and task contexts

    A shallow embedding of [query/broker/task_manager.go] and
    [query/broker/task_context.go] (package [brokerquery]), followed by the
    properties of the distributed query task coordinator that are checked
    against it.

    Conventions of the embedding.
    - Go's [int32] and [int64] are [Z] values; every arithmetic operation of
      the source is followed by the wrap-around of its width.
    - A Go [error] is [option error], [None] standing for [nil].
    - A channel is the log of the operations performed on it.  The source
      only ever uses [select { case ch <- v: ... default: ... }] on its
      unbuffered channels, which sends exactly when a receiver is blocked on
      the channel at that instant; that fact is an input of every call
      ([receiver_ready]).
    - The context mutex makes every [WriteResponse] atomic, so a call is a
      function from the context before to the context after.
    - Packages the source imports but which are not part of these two files
      (protobuf decoding, the grouping aggregator, query statistics, JSON
      marshalling) are the fields of the class [Collaborators]. *)

From Stdlib Require Import ZArith Lia List.
From stdpp Require Import base strings gmap list pretty.

Local Open Scope string_scope.
Local Open Scope list_scope.
Local Open Scope Z_scope.

(** ** Machine integers *)

Module Int.

Definition min_int32 : Z := - 2 ^ 31.
Definition max_int32 : Z := 2 ^ 31 - 1.
Definition min_int64 : Z := - 2 ^ 63.
Definition max_int64 : Z := 2 ^ 63 - 1.

Definition in_int32 (z : Z) : Prop := min_int32 <= z <= max_int32.
Definition in_int64 (z : Z) : Prop := min_int64 <= z <= max_int64.

(** Two's complement wrap-around of a mathematical integer. *)
Definition wrap32 (z : Z) : Z := (z + 2 ^ 31) mod 2 ^ 32 - 2 ^ 31.
Definition wrap64 (z : Z) : Z := (z + 2 ^ 63) mod 2 ^ 64 - 2 ^ 63.

(** [x--] on an [int32]. *)
Definition dec32 (z : Z) : Z := wrap32 (z - 1).
(** [atomic.Int64.Inc]: add one, return the new value. *)
Definition inc64 (z : Z) : Z := wrap64 (z + 1).

End Int.

(** ** [strings.Contains] *)

Fixpoint HasPrefix (s prefix : string) : bool :=
  match prefix, s with
  | EmptyString, _ => true
  | String p prefix', String c s' => if Ascii.eqb c p then HasPrefix s' prefix' else false
  | String _ _, EmptyString => false
  end.

Fixpoint Contains (s substr : string) : bool :=
  HasPrefix s substr ||
  match s with
  | EmptyString => false
  | String _ s' => Contains s' substr
  end.

(** ** Errors *)

(** The sentinel errors of packages [brokerquery] and [query]. *)
Inductive sentinel := ErrTimeout | ErrNoSendStream | ErrTaskSend | ErrResponseSend.

Inductive error :=
  | errors_New (msg : string)                            (* errors.New, fmt.Errorf without %w *)
  | Sentinel (e : sentinel)
  | Errorf_w (before : string) (e : sentinel) (after : string)  (* fmt.Errorf with one %w *)
  | DecodeError (payload : list Byte.byte).                (* returned by a proto Unmarshal *)

Global Instance sentinel_eq_dec : EqDecision sentinel.
Proof. solve_decision. Defined.
Global Instance byte_eq_dec : EqDecision Byte.byte := Byte.byte_eq_dec.
Global Instance error_eq_dec : EqDecision error.
Proof. solve_decision. Defined.

(** ** Protocol messages ([proto/gen/v1/common]) *)

Abbreviation bytes := (list Byte.byte).

Inductive TaskType_ := TaskType_Intermediate | TaskType_Leaf.
Inductive RequestType := RequestType_Data | RequestType_Metadata.

Global Instance TaskType__eq_dec : EqDecision TaskType_.
Proof. solve_decision. Defined.
Global Instance RequestType_eq_dec : EqDecision RequestType.
Proof. solve_decision. Defined.

Record TaskRequest := {
  req_RequestID : string;
  req_ParentTaskID : string;
  req_Type : option TaskType_;   (* [None]: the field is left unset *)
  req_RequestType : RequestType;
  req_PhysicalPlan : bytes;
  req_Payload : bytes;
}.

Record TaskResponse := {
  TaskID : string;
  Type_ : TaskType_;
  ErrMsg : string;
  Payload : bytes;
  Stats : bytes;
}.

Record AggregatorSpec := {
  FieldName : string;
  FieldType : Z;
  FuncTypeList : list Z;
}.

Record TimeSeries := {
  Tags : string;
  Fields : gmap string bytes;
}.

Record TimeSeriesList := {
  TimeSeriesList_ : list TimeSeries;
  FieldAggSpecs : list AggregatorSpec;
}.

(** ** Channels *)

Inductive chan_op (T : Type) :=
  | Sent (v : T)      (* the send case of a select was taken *)
  | Dropped (v : T)   (* the default case was taken: nobody was receiving *)
  | Closed.           (* close(ch) *)
Arguments Sent {T} v.
Arguments Dropped {T} v.
Arguments Closed {T}.

Abbreviation chan T := (list (chan_op T)).

(** [select { case ch <- v: default: }] *)
Definition offer {T} (ready : bool) (v : T) : chan_op T :=
  if ready then Sent v else Dropped v.

Definition try_send {T} (ready : bool) (v : T) (ch : chan T) : chan T :=
  ch ++ [offer ready v].

Definition close {T} (ch : chan T) : chan T := ch ++ [Closed].

Definition is_close {T} (op : chan_op T) : bool :=
  match op with Closed => true | _ => false end.

(** How many times the channel has been closed (a second close panics in Go). *)
Definition closes {T} (ch : chan T) : nat := length (filter (λ op, is_close op = true) ch).

(** The values offered on the channel, in order, delivered or not. *)
Definition offered {T} (ch : chan T) : list T :=
  omap (λ op, match op with Sent v | Dropped v => Some v | Closed => None end) ch.

(** ** Collaborators

    What the two source files import from the rest of the repository and
    from generated code.  The coordinator only relies on their signatures. *)

(** Modelled from the spec: [models.PhysicalPlan] is declared outside the two
    source files; these are the attributes the data model of the
    specification lists and the coordinator reads. *)
Record Node := { Indicator : string }.

Record Root := {
  root_Indicator : string;
  NumOfTask : Z;          (* int32 *)
}.

Record PhysicalPlan := {
  plan_Root : Root;
  Intermediates : list Node;
  Leaves : list Node;
}.

Inductive Result (A : Type) :=
  | Ok (a : A)
  | Failed (e : error).
Arguments Ok {A} a.
Arguments Failed {A} e.

Class Collaborators := {
  (* sql/stmt *)
  Query : Type;
  Interval : Type;
  TimeRange : Type;
  Query_Interval : Query → Interval;
  Query_TimeRange : Query → TimeRange;
  Query_MarshalJSON : Query → bytes;
  (* models *)
  PhysicalPlan_JSONMarshal : PhysicalPlan → bytes;
  QueryStats : Type;
  NewQueryStats : QueryStats;
  set_Start : Z → QueryStats → QueryStats;
  set_End : Z → QueryStats → QueryStats;
  set_TotalCost : Z → QueryStats → QueryStats;
  add_NetPayload : Z → QueryStats → QueryStats;
  (* [encoding.JSONUnmarshal] of the raw statistics followed by the merge *)
  MergeBrokerTaskStats : string → bytes → QueryStats → QueryStats;
  MergeLeafTaskStats : string → bytes → Z → QueryStats → QueryStats;
  (* proto: the Unmarshal method of TimeSeriesList *)
  Unmarshal : bytes → Result TimeSeriesList;
  (* aggregation *)
  aggregation_AggregatorSpec : Type;
  NewAggregatorSpec : string → Z → aggregation_AggregatorSpec;
  AddFunctionType : Z → aggregation_AggregatorSpec → aggregation_AggregatorSpec;
  (* series *)
  GroupedIterator : Type;
  GroupedIterators : Type;
  NewGroupedIterator : string → gmap string bytes → GroupedIterator;
  (* the interface [aggregation.GroupingAggregator] and its constructor *)
  GroupingAggregator : Type;
  newGroupingAgg :
    Interval → Z → TimeRange → list aggregation_AggregatorSpec → GroupingAggregator;
  Aggregate : GroupedIterator → GroupingAggregator → GroupingAggregator;
  ResultSet : GroupingAggregator → GroupedIterators;
}.

(** ** Task contexts ([task_context.go]) *)

Inductive TaskType := RootTask | IntermediateTask.

Record baseTaskContext := {
  createTime : Z;
  taskID : string;
  taskType : TaskType;
  parentTaskID : string;
  parentNode : string;
  expectResults : Z;     (* int32 *)
  closed : bool;
}.

Definition with_expectResults (n : Z) (b : baseTaskContext) : baseTaskContext :=
  {| createTime := createTime b; taskID := taskID b; taskType := taskType b;
     parentTaskID := parentTaskID b; parentNode := parentNode b;
     expectResults := n; closed := closed b |}.

Definition with_closed (v : bool) (b : baseTaskContext) : baseTaskContext :=
  {| createTime := createTime b; taskID := taskID b; taskType := taskType b;
     parentTaskID := parentTaskID b; parentNode := parentNode b;
     expectResults := expectResults b; closed := v |}.

(** [Expired]: [fasttime.UnixMilliseconds()-c.createTime > ttl.Milliseconds()];
    the clock reading is an input. *)
Definition base_Expired (now_ms ttl_ms : Z) (b : baseTaskContext) : bool :=
  ttl_ms <? Int.wrap64 (now_ms - createTime b).

(** [Done]: [c.expectResults <= 0]. *)
Definition base_Done (b : baseTaskContext) : bool := expectResults b <=? 0.

(** What a call of [WriteResponse] reads from its surroundings. *)
Record Env := {
  receiver_ready : bool;  (* a receiver is blocked on the channel *)
  now : Z;                (* time.Now().UnixNano() when the event is built *)
  cost : Z;               (* time.Since(start) at the end of handleTaskResponse *)
}.

(** *** intermediateAckTaskContext *)

Record intermediateAckTaskContext := {
  ack_base : baseTaskContext;
  ack_eventCh : chan (option error);
}.

Definition newIntermediateAckTaskContext
    (now_ms : Z) (taskID : string) (taskType : TaskType) (expectResults : Z)
    (eventCh : chan (option error)) : intermediateAckTaskContext :=
  {| ack_base := {| createTime := now_ms; taskID := taskID; taskType := taskType;
                    parentTaskID := ""; parentNode := "";
                    expectResults := expectResults; closed := false |};
     ack_eventCh := eventCh |}.

(** The deferred function of [WriteResponse]: close the channel once no
    more results are expected. *)
Definition ack_deferred (c : intermediateAckTaskContext) : intermediateAckTaskContext :=
  if expectResults (ack_base c) <=? 0
  then {| ack_base := with_closed true (ack_base c); ack_eventCh := close (ack_eventCh c) |}
  else c.

Definition ack_WriteResponse (resp : TaskResponse) (env : Env)
    (c : intermediateAckTaskContext) : intermediateAckTaskContext :=
  let c := {| ack_base := with_expectResults (Int.dec32 (expectResults (ack_base c))) (ack_base c);
              ack_eventCh := ack_eventCh c |} in
  if closed (ack_base c) then c
  else if negb (String.eqb (ErrMsg resp) "") then
    ack_deferred
      {| ack_base := ack_base c;
         ack_eventCh := try_send (receiver_ready env) (Some (errors_New (ErrMsg resp)))
                          (ack_eventCh c) |}
  else if 0 <? expectResults (ack_base c) then ack_deferred c
  else
    ack_deferred
      {| ack_base := ack_base c;
         ack_eventCh := try_send (receiver_ready env) None (ack_eventCh c) |}.

(** *** metaDataTaskContext *)

Record metaDataTaskContext := {
  md_base : baseTaskContext;
  taskResponseCh : chan TaskResponse;
}.

Definition newMetaDataTaskContext
    (now_ms : Z) (taskID : string) (taskType : TaskType)
    (parentTaskID parentNode : string) (expectResults : Z)
    (taskResponseCh : chan TaskResponse) : metaDataTaskContext :=
  {| md_base := {| createTime := now_ms; taskID := taskID; taskType := taskType;
                   parentTaskID := parentTaskID; parentNode := parentNode;
                   expectResults := expectResults; closed := false |};
     taskResponseCh := taskResponseCh |}.

Definition md_WriteResponse (resp : TaskResponse) (env : Env)
    (c : metaDataTaskContext) : metaDataTaskContext :=
  let c := {| md_base := with_expectResults (Int.dec32 (expectResults (md_base c))) (md_base c);
              taskResponseCh := taskResponseCh c |} in
  if closed (md_base c) then c
  else if receiver_ready env then
    (* case c.taskResponseCh <- resp: *)
    let ch := taskResponseCh c ++ [Sent resp] in
    if expectResults (md_base c) <=? 0
    then {| md_base := with_closed true (md_base c); taskResponseCh := close ch |}
    else {| md_base := md_base c; taskResponseCh := ch |}
  else
    (* default: *)
    {| md_base := md_base c; taskResponseCh := taskResponseCh c ++ [Dropped resp] |}.

(** *** metricTaskContext *)

Section MetricTaskContext.
Context `{Collaborators}.

Record TimeSeriesEvent := {
  AggregatorSpecs : option (gmap string AggregatorSpec);  (* [None]: nil map *)
  SeriesList : option GroupedIterators;                   (* [None]: nil *)
  ev_Stats : option QueryStats;
  Err : option error;
}.

Record metricTaskContext := {
  base : baseTaskContext;
  eventCh : chan TimeSeriesEvent;
  stmtQuery : Query;
  groupAgg : option GroupingAggregator;
  stats : option QueryStats;
  aggregatorSpecs : gmap string AggregatorSpec;
  tolerantNotFounds : Z;   (* int32 *)
  startTime : Z;
}.

Definition newMetricTaskContext
    (now_ms now_ns : Z) (taskID : string) (taskType : TaskType)
    (parentTaskID parentNode : string) (stmtQuery : Query) (expectResults : Z)
    (eventCh : chan TimeSeriesEvent) : metricTaskContext :=
  {| base := {| createTime := now_ms; taskID := taskID; taskType := taskType;
                parentTaskID := parentTaskID; parentNode := parentNode;
                expectResults := expectResults; closed := false |};
     eventCh := eventCh;
     stmtQuery := stmtQuery;
     groupAgg := None;
     stats := None;
     aggregatorSpecs := ∅;
     tolerantNotFounds := expectResults;
     startTime := now_ns |}.

Definition with_base (b : baseTaskContext) (c : metricTaskContext) : metricTaskContext :=
  {| base := b; eventCh := eventCh c; stmtQuery := stmtQuery c; groupAgg := groupAgg c;
     stats := stats c; aggregatorSpecs := aggregatorSpecs c;
     tolerantNotFounds := tolerantNotFounds c; startTime := startTime c |}.

Definition with_eventCh (ch : chan TimeSeriesEvent) (c : metricTaskContext) : metricTaskContext :=
  {| base := base c; eventCh := ch; stmtQuery := stmtQuery c; groupAgg := groupAgg c;
     stats := stats c; aggregatorSpecs := aggregatorSpecs c;
     tolerantNotFounds := tolerantNotFounds c; startTime := startTime c |}.

Definition with_groupAgg (g : option GroupingAggregator) (c : metricTaskContext)
    : metricTaskContext :=
  {| base := base c; eventCh := eventCh c; stmtQuery := stmtQuery c; groupAgg := g;
     stats := stats c; aggregatorSpecs := aggregatorSpecs c;
     tolerantNotFounds := tolerantNotFounds c; startTime := startTime c |}.

Definition with_stats (s : option QueryStats) (c : metricTaskContext) : metricTaskContext :=
  {| base := base c; eventCh := eventCh c; stmtQuery := stmtQuery c; groupAgg := groupAgg c;
     stats := s; aggregatorSpecs := aggregatorSpecs c;
     tolerantNotFounds := tolerantNotFounds c; startTime := startTime c |}.

Definition with_aggregatorSpecs (m : gmap string AggregatorSpec) (c : metricTaskContext)
    : metricTaskContext :=
  {| base := base c; eventCh := eventCh c; stmtQuery := stmtQuery c; groupAgg := groupAgg c;
     stats := stats c; aggregatorSpecs := m;
     tolerantNotFounds := tolerantNotFounds c; startTime := startTime c |}.

Definition with_tolerantNotFounds (n : Z) (c : metricTaskContext) : metricTaskContext :=
  {| base := base c; eventCh := eventCh c; stmtQuery := stmtQuery c; groupAgg := groupAgg c;
     stats := stats c; aggregatorSpecs := aggregatorSpecs c;
     tolerantNotFounds := n; startTime := startTime c |}.

(** [checkError]: the context after, [ignoreResponse] and [err]. *)
Definition checkError (errMsg : string) (c : metricTaskContext)
    : metricTaskContext * bool * option error :=
  if String.eqb errMsg "" then (c, false, None)
  else if negb (Contains errMsg "not found") then
    (* real error *)
    (c, true, Some (errors_New errMsg))
  else
    let c := with_tolerantNotFounds (Int.dec32 (tolerantNotFounds c)) c in
    if 0 <? tolerantNotFounds c then (c, true, None)
    else (c, true, Some (errors_New errMsg)).

Definition handleStats (resp : TaskResponse) (fromNode : string) (c : metricTaskContext)
    : metricTaskContext :=
  if Nat.eqb (length (Stats resp)) 0 then c
  else
    let s := match stats c with
             | Some s => s
             | None => set_Start (startTime c) NewQueryStats
             end in
    match Type_ resp with
    | TaskType_Intermediate =>
        with_stats (Some (MergeBrokerTaskStats fromNode (Stats resp) s)) c
    | _ =>
        let NetPayload := Z.of_nat (length (Stats resp) + length (Payload resp)) in
        with_stats
          (Some (add_NetPayload NetPayload
                   (MergeLeafTaskStats fromNode (Stats resp) NetPayload s))) c
    end.

(** The [aggregation.AggregatorSpecs] built from the specs of a response. *)
Definition buildAggregatorSpecs (specs : list AggregatorSpec) : list aggregation_AggregatorSpec :=
  map (λ aggSpec,
         fold_left (λ acc funcType, AddFunctionType funcType acc)
                   (FuncTypeList aggSpec)
                   (NewAggregatorSpec (FieldName aggSpec) (FieldType aggSpec)))
      specs.

(** The loop over [tsList.TimeSeriesList]: it returns at the first series
    without field data, keeping what was aggregated before it. *)
Fixpoint aggregateSeries (tsList : list TimeSeries) (g : GroupingAggregator)
    : GroupingAggregator :=
  match tsList with
  | [] => g
  | ts :: rest =>
      if Nat.eqb (size (Fields ts)) 0 then g
      else aggregateSeries rest (Aggregate (NewGroupedIterator (Tags ts) (Fields ts)) g)
  end.

(** The deferred function registered when [c.stats != nil]. *)
Definition handle_deferred (env : Env) (c : metricTaskContext) : metricTaskContext :=
  match stats c with
  | Some s => with_stats (Some (set_TotalCost (cost env) s)) c
  | None => c
  end.

Definition handleTaskResponse (resp : TaskResponse) (fromNode : string) (env : Env)
    (c : metricTaskContext) : metricTaskContext * option error :=
  let c := handleStats resp fromNode c in
  let '(c, ignoreResponse, err) := checkError (ErrMsg resp) c in
  match err with
  | Some err => (c, Some err)
  | None =>
      if ignoreResponse then (c, None)      (* partial not-found errors *)
      else
        match Unmarshal (Payload resp) with
        | Failed err => (handle_deferred env c, Some err)
        | Ok tsList =>
            if Nat.eqb (length (FieldAggSpecs tsList)) 0 then (handle_deferred env c, None)
            else
              let c := with_aggregatorSpecs
                         (fold_left (λ m spec, <[FieldName spec := spec]> m)
                                    (FieldAggSpecs tsList) (aggregatorSpecs c)) c in
              let g := match groupAgg c with
                       | Some g => g
                       | None =>
                           newGroupingAgg (Query_Interval (stmtQuery c)) 1
                                          (Query_TimeRange (stmtQuery c))
                                          (buildAggregatorSpecs (FieldAggSpecs tsList))
                       end in
              let c := with_groupAgg (Some (aggregateSeries (TimeSeriesList_ tsList) g)) c in
              (handle_deferred env c, None)
        end
  end.

(** The deferred function of [WriteResponse]. *)
Definition metric_deferred (c : metricTaskContext) : metricTaskContext :=
  if expectResults (base c) <=? 0
  then with_base (with_closed true (base c)) (with_eventCh (close (eventCh c)) c)
  else c.

Definition errorEvent (err : error) (c : metricTaskContext) : TimeSeriesEvent :=
  {| AggregatorSpecs := None; SeriesList := None; ev_Stats := stats c; Err := Some err |}.

Definition resultEvent (c : metricTaskContext) : TimeSeriesEvent :=
  {| AggregatorSpecs := Some (aggregatorSpecs c);
     SeriesList := ResultSet <$> groupAgg c;
     ev_Stats := stats c;
     Err := None |}.

Definition metric_WriteResponse (resp : TaskResponse) (fromNode : string) (env : Env)
    (c : metricTaskContext) : metricTaskContext :=
  let c := with_base (with_expectResults (Int.dec32 (expectResults (base c))) (base c)) c in
  if closed (base c) then c
  else
    match handleTaskResponse resp fromNode env c with
    | (c, Some err) =>
        metric_deferred
          (with_eventCh (try_send (receiver_ready env) (errorEvent err c) (eventCh c)) c)
    | (c, None) =>
        if 0 <? expectResults (base c) then metric_deferred c   (* not done yet *)
        else
          let c := with_stats (set_End (now env) <$> stats c) c in
          metric_deferred
            (with_eventCh (try_send (receiver_ready env) (resultEvent c) (eventCh c)) c)
    end.

End MetricTaskContext.

(** ** The task manager ([task_manager.go]) *)

(** [rpc.TaskClientFactory]: the client stream of a node, if there is one,
    and what its [Send] returns. *)
Abbreviation TaskClient := (TaskRequest → option error).
Abbreviation TaskClientFactory := (string → option TaskClient).

(** A context object is referred to by its address in [heap]: the closures
    handed to the worker pool keep the object, not its task id. *)
Abbreviation ptr := nat.

Section TaskManager.
Context `{Collaborators}.

(** The interface [TaskContext] with its three implementations. *)
Inductive TaskContext :=
  | AckCtx (c : intermediateAckTaskContext)
  | MetricCtx (c : metricTaskContext)
  | MetaDataCtx (c : metaDataTaskContext).

Definition ctx_base (c : TaskContext) : baseTaskContext :=
  match c with
  | AckCtx c => ack_base c
  | MetricCtx c => base c
  | MetaDataCtx c => md_base c
  end.

Definition WriteResponse (resp : TaskResponse) (fromNode : string) (env : Env)
    (c : TaskContext) : TaskContext :=
  match c with
  | AckCtx c => AckCtx (ack_WriteResponse resp env c)
  | MetricCtx c => MetricCtx (metric_WriteResponse resp fromNode env c)
  | MetaDataCtx c => MetaDataCtx (md_WriteResponse resp env c)
  end.

Definition Done (c : TaskContext) : bool := base_Done (ctx_base c).

Definition Expired (now_ms ttl_ms : Z) (c : TaskContext) : bool :=
  base_Expired now_ms ttl_ms (ctx_base c).

(** How often the channel owned by the context has been closed. *)
Definition ctx_closes (c : TaskContext) : nat :=
  match c with
  | AckCtx c => closes (ack_eventCh c)
  | MetricCtx c => closes (eventCh c)
  | MetaDataCtx c => closes (taskResponseCh c)
  end.

Record BrokerQueryStatistics := {
  CreatedTasks : Z;
  AliveTask : Z;
  ExpireTasks : Z;
  EmitResponse : Z;
  OmitResponse : Z;
  SentRequest : Z;
  SentRequestFailures : Z;
  SentResponses : Z;
  SentResponseFailures : Z;
}.

Definition NewBrokerQueryStatistics : BrokerQueryStatistics :=
  {| CreatedTasks := 0; AliveTask := 0; ExpireTasks := 0; EmitResponse := 0;
     OmitResponse := 0; SentRequest := 0; SentRequestFailures := 0;
     SentResponses := 0; SentResponseFailures := 0 |}.



(** A closure submitted by [Receive]. *)
Record ReceiveTask := {
  rt_taskCtx : ptr;
  rt_resp : TaskResponse;
  rt_targetNode : string;
}.

(** One call of [SendRequest] and how it ended. *)
Inductive SendOutcome :=
  | NoSendStream   (* no client stream for the node *)
  | SendFailed     (* client.Send returned an error *)
  | SendOk.

Record SendCall := {
  sc_target : string;
  sc_req : TaskRequest;
  sc_outcome : SendOutcome;
}.

Record taskManager := {
  currentNodeID : string;
  seq : Z;                               (* atomic.Int64 *)
  taskClientFactory : TaskClientFactory;
  workerPool : list ReceiveTask;         (* submitted by Receive, not yet run *)
  tasks : gmap string ptr;               (* taskID -> taskCtx *)
  heap : list TaskContext;
  statistics : BrokerQueryStatistics;
  wire : list SendCall;                  (* the calls of SendRequest, oldest first *)
}.

Definition NewTaskManager (currentNode : string) (taskClientFactory : TaskClientFactory)
    : taskManager :=
  {| currentNodeID := currentNode; seq := 0; taskClientFactory := taskClientFactory;
     workerPool := []; tasks := ∅; heap := []; statistics := NewBrokerQueryStatistics;
     wire := [] |}.

Definition with_seq (n : Z) (t : taskManager) : taskManager :=
  {| currentNodeID := currentNodeID t; seq := n; taskClientFactory := taskClientFactory t;
     workerPool := workerPool t; tasks := tasks t; heap := heap t;
     statistics := statistics t; wire := wire t |}.

Definition with_workerPool (q : list ReceiveTask) (t : taskManager) : taskManager :=
  {| currentNodeID := currentNodeID t; seq := seq t; taskClientFactory := taskClientFactory t;
     workerPool := q; tasks := tasks t; heap := heap t;
     statistics := statistics t; wire := wire t |}.

Definition with_tasks (m : gmap string ptr) (t : taskManager) : taskManager :=
  {| currentNodeID := currentNodeID t; seq := seq t; taskClientFactory := taskClientFactory t;
     workerPool := workerPool t; tasks := m; heap := heap t;
     statistics := statistics t; wire := wire t |}.

Definition with_heap (h : list TaskContext) (t : taskManager) : taskManager :=
  {| currentNodeID := currentNodeID t; seq := seq t; taskClientFactory := taskClientFactory t;
     workerPool := workerPool t; tasks := tasks t; heap := h;
     statistics := statistics t; wire := wire t |}.

Definition with_statistics (s : BrokerQueryStatistics) (t : taskManager) : taskManager :=
  {| currentNodeID := currentNodeID t; seq := seq t; taskClientFactory := taskClientFactory t;
     workerPool := workerPool t; tasks := tasks t; heap := heap t;
     statistics := s; wire := wire t |}.

Definition with_wire (w : list SendCall) (t : taskManager) : taskManager :=
  {| currentNodeID := currentNodeID t; seq := seq t; taskClientFactory := taskClientFactory t;
     workerPool := workerPool t; tasks := tasks t; heap := heap t;
     statistics := statistics t; wire := w |}.

(** Counter updates. *)
Definition stat_CreatedTasks (d : Z) (s : BrokerQueryStatistics) :=
  {| CreatedTasks := CreatedTasks s + d; AliveTask := AliveTask s; ExpireTasks := ExpireTasks s;
     EmitResponse := EmitResponse s; OmitResponse := OmitResponse s;
     SentRequest := SentRequest s; SentRequestFailures := SentRequestFailures s;
     SentResponses := SentResponses s; SentResponseFailures := SentResponseFailures s |}.
Definition stat_AliveTask (d : Z) (s : BrokerQueryStatistics) :=
  {| CreatedTasks := CreatedTasks s; AliveTask := AliveTask s + d; ExpireTasks := ExpireTasks s;
     EmitResponse := EmitResponse s; OmitResponse := OmitResponse s;
     SentRequest := SentRequest s; SentRequestFailures := SentRequestFailures s;
     SentResponses := SentResponses s; SentResponseFailures := SentResponseFailures s |}.
Definition stat_EmitResponse (d : Z) (s : BrokerQueryStatistics) :=
  {| CreatedTasks := CreatedTasks s; AliveTask := AliveTask s; ExpireTasks := ExpireTasks s;
     EmitResponse := EmitResponse s + d; OmitResponse := OmitResponse s;
     SentRequest := SentRequest s; SentRequestFailures := SentRequestFailures s;
     SentResponses := SentResponses s; SentResponseFailures := SentResponseFailures s |}.
Definition stat_OmitResponse (d : Z) (s : BrokerQueryStatistics) :=
  {| CreatedTasks := CreatedTasks s; AliveTask := AliveTask s; ExpireTasks := ExpireTasks s;
     EmitResponse := EmitResponse s; OmitResponse := OmitResponse s + d;
     SentRequest := SentRequest s; SentRequestFailures := SentRequestFailures s;
     SentResponses := SentResponses s; SentResponseFailures := SentResponseFailures s |}.
Definition stat_SentRequest (d : Z) (s : BrokerQueryStatistics) :=
  {| CreatedTasks := CreatedTasks s; AliveTask := AliveTask s; ExpireTasks := ExpireTasks s;
     EmitResponse := EmitResponse s; OmitResponse := OmitResponse s;
     SentRequest := SentRequest s + d; SentRequestFailures := SentRequestFailures s;
     SentResponses := SentResponses s; SentResponseFailures := SentResponseFailures s |}.
Definition stat_SentRequestFailures (d : Z) (s : BrokerQueryStatistics) :=
  {| CreatedTasks := CreatedTasks s; AliveTask := AliveTask s; ExpireTasks := ExpireTasks s;
     EmitResponse := EmitResponse s; OmitResponse := OmitResponse s;
     SentRequest := SentRequest s; SentRequestFailures := SentRequestFailures s + d;
     SentResponses := SentResponses s; SentResponseFailures := SentResponseFailures s |}.

(** [evictTask]: [LoadAndDelete], and the gauge follows when the id was there. *)
Definition evictTask (taskID : string) (t : taskManager) : taskManager :=
  match tasks t !! taskID with
  | Some _ =>
      with_statistics (stat_AliveTask (-1) (statistics t))
        (with_tasks (delete taskID (tasks t)) t)
  | None => t
  end.

(** [storeTask]; the context is a new object. *)
Definition storeTask (taskID : string) (taskCtx : TaskContext) (t : taskManager)
    : taskManager :=
  let p := length (heap t) in
  with_statistics (stat_AliveTask 1 (stat_CreatedTasks 1 (statistics t)))
    (with_tasks (<[taskID := p]> (tasks t)) (with_heap (heap t ++ [taskCtx]) t)).

(** [AllocTaskID]: [fmt.Sprintf("%s-%d", t.currentNodeID, t.seq.Inc())]. *)
Definition AllocTaskID (t : taskManager) : taskManager * string :=
  let seq := Int.inc64 (seq t) in
  (with_seq seq t, currentNodeID t +:+ "-" +:+ pretty seq).

(** [Get]: the context registered under the id, [None] for nil. *)
Definition Get (taskID : string) (t : taskManager) : option ptr := tasks t !! taskID.

Definition sendCall (target : string) (req : TaskRequest) (o : SendOutcome) : SendCall :=
  {| sc_target := target; sc_req := req; sc_outcome := o |}.

Definition SendRequest (targetNodeID : string) (req : TaskRequest) (t : taskManager)
    : taskManager * option error :=
  match taskClientFactory t targetNodeID with
  | None =>
      (with_statistics (stat_SentRequestFailures 1 (statistics t))
         (with_wire (wire t ++ [sendCall targetNodeID req NoSendStream]) t),
       Some (Errorf_w "SendRequest: " ErrNoSendStream (", targetNodeID: " +:+ targetNodeID)))
  | Some client =>
      match client req with
      | Some _ =>
          (with_statistics (stat_SentRequestFailures 1 (statistics t))
             (with_wire (wire t ++ [sendCall targetNodeID req SendFailed]) t),
           Some (Errorf_w "" ErrTaskSend (", targetNodeID: " +:+ targetNodeID)))
      | None =>
          (with_statistics (stat_SentRequest 1 (statistics t))
             (with_wire (wire t ++ [sendCall targetNodeID req SendOk]) t),
           None)
      end
  end.

(** The fan-out used by the submit functions: one closure per node is handed
    to the worker pool, each stores its error in the shared [sendError], and
    the caller continues after [wg.Wait()].

    Modelled from the spec: the pool ([internal/concurrent]) is not among the
    sources; as in its description, a pool that has not been stopped runs
    every submitted closure.  The closures run here in the order of the
    list; the wait-group makes every one of them finish before the caller
    goes on. *)
Fixpoint fanout (nodes : list Node) (req : TaskRequest) (sendError : option error)
    (t : taskManager) : taskManager * option error :=
  match nodes with
  | [] => (t, sendError)
  | node :: rest =>
      match SendRequest (Indicator node) req t with
      | (t, Some err) => fanout rest req (Some err) t     (* sendError.Store(err) *)
      | (t, None) => fanout rest req sendError t
      end
  end.

(** What the [select] at the end of [ensureIntermediateAckTasks] observes. *)
Inductive AckWait :=
  | AckEvent (event : option error)   (* a value was received from responseCh *)
  | AckClosed                         (* responseCh was closed with no value *)
  | CtxDone.                          (* ctx.Done() fired *)

Definition ensureIntermediateAckTasks (now_ms : Z) (wait : AckWait)
    (physicalPlan : PhysicalPlan) (taskRequest : TaskRequest) (t : taskManager)
    : taskManager * option error :=
  let taskCtx :=
    newIntermediateAckTaskContext now_ms (req_ParentTaskID taskRequest) RootTask
      (Int.wrap32 (Z.of_nat (length (Intermediates physicalPlan)))) [] in
  let t := storeTask (req_ParentTaskID taskRequest) (AckCtx taskCtx) t in
  let '(t, sendError) := fanout (Intermediates physicalPlan) taskRequest None t in
  let result :=
    match sendError with
    | Some err => Some err
    | None =>
        match wait with
        | AckEvent event => event
        | AckClosed => Some (errors_New "missing acks from intermdiate nodes")
        | CtxDone => Some (Sentinel ErrTimeout)
        end
    end in
  (* defer t.evictTask(taskRequest.ParentTaskID) *)
  (evictTask (req_ParentTaskID taskRequest) t, result).

(** What [SubmitMetricTask] reads from its surroundings. *)
Record SubmitEnv := {
  se_now_ms : Z;            (* fasttime.UnixMilliseconds() *)
  se_now_ns : Z;            (* time.Now() *)
  se_requestID : string;    (* the request id found in the context, or the empty string *)
  se_wait : AckWait;
}.

(** The two requests built by [SubmitMetricTask]. *)
Definition intermediateRequest (rootTaskID : string) (physicalPlan : PhysicalPlan)
    (stmtQuery : Query) : TaskRequest :=
  {| req_RequestID := "";
     req_ParentTaskID := rootTaskID;
     req_Type := Some TaskType_Intermediate;
     req_RequestType := RequestType_Data;
     req_PhysicalPlan := PhysicalPlan_JSONMarshal physicalPlan;
     req_Payload := Query_MarshalJSON stmtQuery |}.

Definition leafRequest (requestID rootTaskID : string) (physicalPlan : PhysicalPlan)
    (stmtQuery : Query) : TaskRequest :=
  {| req_RequestID := requestID;
     req_ParentTaskID := rootTaskID;
     req_Type := Some TaskType_Leaf;
     req_RequestType := RequestType_Data;
     req_PhysicalPlan := PhysicalPlan_JSONMarshal physicalPlan;
     req_Payload := Query_MarshalJSON stmtQuery |}.

(** [SubmitMetricTask]: the manager after, the returned channel (the
    context that owns it, [None] for nil) and the returned error. *)
Definition SubmitMetricTask (env : SubmitEnv) (physicalPlan : PhysicalPlan)
    (stmtQuery : Query) (t : taskManager) : taskManager * option ptr * option error :=
  let '(t, rootTaskID) := AllocTaskID t in
  (* send task to intermediates firstly, then to the leafs *)
  let '(t, ackErr) :=
    if negb (Nat.eqb (length (Intermediates physicalPlan)) 0) then
      ensureIntermediateAckTasks (se_now_ms env) (se_wait env) physicalPlan
        (intermediateRequest rootTaskID physicalPlan stmtQuery) t
    else (t, None) in
  match ackErr with
  | Some err => (t, None, Some err)
  | None =>
      let responseCh := length (heap t) in
      let taskCtx :=
        newMetricTaskContext (se_now_ms env) (se_now_ns env) rootTaskID RootTask "" ""
          stmtQuery (NumOfTask (plan_Root physicalPlan)) [] in
      let t := storeTask rootTaskID (MetricCtx taskCtx) t in
      let req := leafRequest (se_requestID env) rootTaskID physicalPlan stmtQuery in
      let '(t, sendError) := fanout (Leaves physicalPlan) req None t in
      match sendError with
      | Some err => (evictTask rootTaskID t, Some responseCh, Some err)
      | None => (t, Some responseCh, None)
      end
  end.

(** [Receive]: the response is handed to the worker pool. *)
Definition Receive (resp : TaskResponse) (targetNode : string) (t : taskManager)
    : taskManager * option error :=
  match Get (TaskID resp) t with
  | None =>
      (with_statistics (stat_OmitResponse 1 (statistics t)) t,
       Some (errors_New ("TaskID: " +:+ TaskID resp +:+ " may be evicted")))
  | Some taskCtx =>
      (with_workerPool
         (workerPool t ++ [{| rt_taskCtx := taskCtx; rt_resp := resp; rt_targetNode := targetNode |}])
         (with_statistics (stat_EmitResponse 1 (statistics t)) t),
       None)
  end.

(** The closure of [Receive], run by a worker. *)
Definition runReceiveTask (task : ReceiveTask) (env : Env) (t : taskManager) : taskManager :=
  match heap t !! rt_taskCtx task with
  | None => t
  | Some c =>
      let c := WriteResponse (rt_resp task) (rt_targetNode task) env c in
      let t := with_heap (<[rt_taskCtx task := c]> (heap t)) t in
      if Done c then evictTask (TaskID (rt_resp task)) t else t
  end.

End TaskManager.

(** ** Runs *)

Section Runs.
Context `{Collaborators}.

(** A response as it reaches a context: the message, the node it came from
    and what the call observes of its surroundings. *)
Record Arrival := {
  a_resp : TaskResponse;
  a_fromNode : string;
  a_env : Env;
}.

(** The responses of a run, written to a context one after the other. *)
Definition metric_writeAll (rs : list Arrival) (c : metricTaskContext) : metricTaskContext :=
  fold_left (λ c a, metric_WriteResponse (a_resp a) (a_fromNode a) (a_env a) c) rs c.

Definition ack_writeAll (rs : list Arrival) (c : intermediateAckTaskContext)
    : intermediateAckTaskContext :=
  fold_left (λ c a, ack_WriteResponse (a_resp a) (a_env a) c) rs c.

Definition writeAll (rs : list Arrival) (c : TaskContext) : TaskContext :=
  fold_left (λ c a, WriteResponse (a_resp a) (a_fromNode a) (a_env a) c) rs c.

(** [n] calls of [AllocTaskID] on the same manager; the ids in call order. *)
Fixpoint allocTaskIDs (n : nat) (t : taskManager) : taskManager * list string :=
  match n with
  | O => (t, [])
  | S n =>
      let '(t, id) := AllocTaskID t in
      let '(t, ids) := allocTaskIDs n t in
      (t, id :: ids)
  end.

(** [fmt.Sprintf("%s-%d", node, seq)] *)
Definition taskIDFormat (node : string) (seq : Z) : string :=
  node +:+ "-" +:+ pretty seq.

(** The context after [c.expectResults--]. *)
Definition metric_decrement (c : metricTaskContext) : metricTaskContext :=
  with_base (with_expectResults (Int.dec32 (expectResults (base c))) (base c)) c.

(** The context with another value of [expectResults], all else equal. *)
Definition ctx_with_expectResults (n : Z) (c : TaskContext) : TaskContext :=
  match c with
  | AckCtx c =>
      AckCtx {| ack_base := with_expectResults n (ack_base c); ack_eventCh := ack_eventCh c |}
  | MetricCtx c => MetricCtx (with_base (with_expectResults n (base c)) c)
  | MetaDataCtx c =>
      MetaDataCtx {| md_base := with_expectResults n (md_base c);
                     taskResponseCh := taskResponseCh c |}
  end.

(** The [closed] flag tells whether the channel of the context has been
    closed; a context is created with a channel nobody has closed. *)
Definition ctx_wf (c : TaskContext) : Prop :=
  ctx_closes c = if closed (ctx_base c) then 1%nat else 0%nat.

(** A response that reports a missing resource. *)
Definition is_not_found (resp : TaskResponse) : bool :=
  negb (String.eqb (ErrMsg resp) "") && Contains (ErrMsg resp) "not found".

(** A response without error whose payload decodes. *)
Definition is_success (resp : TaskResponse) : bool :=
  String.eqb (ErrMsg resp) "" &&
  match Unmarshal (Payload resp) with Ok _ => true | Failed _ => false end.

(** The responses of the runs considered for the not-found tolerance: a
    not-found error or a result. *)
Definition not_found_or_success (a : Arrival) : Prop :=
  is_not_found (a_resp a) || is_success (a_resp a) = true.

(** The payload, when it decodes, has no aggregator specs. *)
Definition no_FieldAggSpecs (a : Arrival) : Prop :=
  ∀ tsList, Unmarshal (Payload (a_resp a)) = Ok tsList → FieldAggSpecs tsList = [].

Definition count_not_found (rs : list Arrival) : Z :=
  Z.of_nat (length (filter (λ a, is_not_found (a_resp a) = true) rs)).

(** What the sends leave untouched. *)
Definition same_tables (t t' : taskManager) : Prop :=
  currentNodeID t' = currentNodeID t ∧ seq t' = seq t ∧
  taskClientFactory t' = taskClientFactory t ∧ workerPool t' = workerPool t ∧
  tasks t' = tasks t ∧ heap t' = heap t.

(** How a call of [SendRequest] ends, given the client streams. *)
Definition send_outcome (f : TaskClientFactory) (target : string) (req : TaskRequest)
    : SendOutcome :=
  match f target with
  | None => NoSendStream
  | Some client => match client req with Some _ => SendFailed | None => SendOk end
  end.

Definition send_ok (f : TaskClientFactory) (req : TaskRequest) (node : Node) : bool :=
  match send_outcome f (Indicator node) req with SendOk => true | _ => false end.

(** The calls of [SendRequest] made by a fan-out. *)
Definition fanout_calls (f : TaskClientFactory) (nodes : list Node) (req : TaskRequest)
    : list SendCall :=
  map (λ node, sendCall (Indicator node) req (send_outcome f (Indicator node) req)) nodes.

(** The requests of type Leaf among the calls of [SendRequest]. *)
Definition is_leaf_call (c : SendCall) : bool :=
  bool_decide (req_Type (sc_req c) = Some TaskType_Leaf).

Definition is_intermediate_call (c : SendCall) : bool :=
  bool_decide (req_Type (sc_req c) = Some TaskType_Intermediate).

End Runs.

(** ** Test doubles

    Stand-ins for the collaborators, in the manner of the mocks of the Go
    tests, used to run the definitions on concrete inputs. *)

Module Mock.

(** One byte of payload per series: [x00] is a series without field data,
    any other byte [b] a series with the field ["f" -> [b]].  A payload that
    starts with [xff] does not decode; the empty payload carries no
    aggregator specs. *)
Definition series_of (b : Byte.byte) : TimeSeries :=
  {| Tags := "host=a";
     Fields := if decide (b = Byte.x00) then ∅ else {[ "f" := [b] ]} |}.

Definition spec_f : AggregatorSpec :=
  {| FieldName := "f"; FieldType := 1; FuncTypeList := [1] |}.

Definition decode (p : bytes) : Result TimeSeriesList :=
  match p with
  | [] => Ok {| TimeSeriesList_ := []; FieldAggSpecs := [] |}
  | b :: _ =>
      if decide (b = Byte.xff) then Failed (DecodeError p)
      else Ok {| TimeSeriesList_ := map series_of p; FieldAggSpecs := [spec_f] |}
  end.

Definition collaborators : Collaborators :=
  {| Query := unit;
     Interval := unit;
     TimeRange := unit;
     Query_Interval := λ _, tt;
     Query_TimeRange := λ _, tt;
     Query_MarshalJSON := λ _, [];
     PhysicalPlan_JSONMarshal := λ _, [];
     QueryStats := list Z;
     NewQueryStats := [];
     set_Start := λ z s, s;
     set_End := λ z s, s;
     set_TotalCost := λ z s, s;
     add_NetPayload := λ z s, s;
     MergeBrokerTaskStats := λ _ _ s, s;
     MergeLeafTaskStats := λ _ _ z s, z :: s;
     Unmarshal := decode;
     aggregation_AggregatorSpec := string * Z * list Z;
     NewAggregatorSpec := λ n ty, (n, ty, []);
     AddFunctionType := λ f '(n, ty, fs), (n, ty, fs ++ [f]);
     GroupedIterator := string * gmap string bytes;
     GroupedIterators := list (string * gmap string bytes);
     NewGroupedIterator := λ tags fields, (tags, fields);
     GroupingAggregator := list (string * gmap string bytes);
     newGroupingAgg := λ _ _ _ _, [];
     Aggregate := λ it g, g ++ [it];
     ResultSet := λ g, g |}.

Definition response (err : string) (payload : bytes) : TaskResponse :=
  {| TaskID := "broker-1"; Type_ := TaskType_Leaf; ErrMsg := err;
     Payload := payload; Stats := [] |}.

Definition env (ready : bool) : Env := {| receiver_ready := ready; now := 0; cost := 0 |}.

Definition arrival (err : string) (payload : bytes) : @Arrival :=
  {| a_resp := response err payload; a_fromNode := "leaf"; a_env := env true |}.

(** A metric context that expects [k] responses. *)
Definition metricCtx (k : Z) : @metricTaskContext collaborators :=
  @newMetricTaskContext collaborators 0 0 "broker-1" RootTask "" "" tt k [].

(** The client streams: [up] and [up2] accept every request, [down] fails
    every send, any other node has no stream. *)
Definition clients : TaskClientFactory :=
  λ node,
    if String.eqb node "up" then Some (λ _, None)
    else if String.eqb node "up2" then Some (λ _, None)
    else if String.eqb node "down" then Some (λ _, Some (errors_New "broken pipe"))
    else None.

Definition manager : @taskManager collaborators :=
  @NewTaskManager collaborators "broker" clients.

Definition plan (numOfTask : Z) (intermediates leaves : list string) : PhysicalPlan :=
  {| plan_Root := {| root_Indicator := "broker"; NumOfTask := numOfTask |};
     Intermediates := map Build_Node intermediates;
     Leaves := map Build_Node leaves |}.

Definition submitEnv (wait : AckWait) : SubmitEnv :=
  {| se_now_ms := 0; se_now_ns := 0; se_requestID := "req-1"; se_wait := wait |}.

End Mock.

(** ** The rest of the task manager *)

Abbreviation TaskServerStream := (TaskResponse → option error).
Abbreviation TaskServerFactory := (string → option TaskServerStream).

Section TaskManagerRest.
Context `{Collaborators}.

Definition stat_ExpireTasks (d : Z) (s : BrokerQueryStatistics) :=
  {| CreatedTasks := CreatedTasks s; AliveTask := AliveTask s; ExpireTasks := ExpireTasks s + d;
     EmitResponse := EmitResponse s; OmitResponse := OmitResponse s;
     SentRequest := SentRequest s; SentRequestFailures := SentRequestFailures s;
     SentResponses := SentResponses s; SentResponseFailures := SentResponseFailures s |}.
Definition stat_SentResponses (d : Z) (s : BrokerQueryStatistics) :=
  {| CreatedTasks := CreatedTasks s; AliveTask := AliveTask s; ExpireTasks := ExpireTasks s;
     EmitResponse := EmitResponse s; OmitResponse := OmitResponse s;
     SentRequest := SentRequest s; SentRequestFailures := SentRequestFailures s;
     SentResponses := SentResponses s + d; SentResponseFailures := SentResponseFailures s |}.
Definition stat_SentResponseFailures (d : Z) (s : BrokerQueryStatistics) :=
  {| CreatedTasks := CreatedTasks s; AliveTask := AliveTask s; ExpireTasks := ExpireTasks s;
     EmitResponse := EmitResponse s; OmitResponse := OmitResponse s;
     SentRequest := SentRequest s; SentRequestFailures := SentRequestFailures s;
     SentResponses := SentResponses s; SentResponseFailures := SentResponseFailures s + d |}.

(** The callback that [cleaner] hands to [tasks.Range], for one entry of the
    table; [now_ms] is the clock read by [Expired] during that visit. *)
Definition cleaner_visit (now_ms ttl_ms : Z) (key : string) (value : ptr) (t : taskManager)
    : taskManager :=
  match heap t !! value with
  | Some taskCtx =>
      if Expired now_ms ttl_ms taskCtx then
        with_tasks (delete key (tasks t))
          (with_statistics (stat_ExpireTasks 1 (stat_AliveTask (-1) (statistics t))) t)
      else t
  | None => t
  end.

(** One tick of [cleaner]: every entry of the table is visited once; the
    clock may advance from one visit to the next. *)
Definition cleaner_tick (now_ms : string → Z) (ttl_ms : Z) (t : taskManager) : taskManager :=
  foldr (λ entry t, cleaner_visit (now_ms entry.1) ttl_ms entry.1 entry.2 t) t
        (map_to_list (tasks t)).

(** [SubmitIntermediateMetricTask]: the manager after and the returned
    channel (the context that owns it). *)
Definition SubmitIntermediateMetricTask (now_ms now_ns : Z) (physicalPlan : PhysicalPlan)
    (stmtQuery : Query) (parentTaskID : string) (t : taskManager) : taskManager * ptr :=
  let responseCh := length (heap t) in
  let taskCtx :=
    newMetricTaskContext now_ms now_ns parentTaskID IntermediateTask parentTaskID
      (root_Indicator (plan_Root physicalPlan)) stmtQuery
      (Int.wrap32 (Z.of_nat (length (Leaves physicalPlan)))) [] in
  (storeTask parentTaskID (MetricCtx taskCtx) t, responseCh).

(** The request built by [SubmitMetaDataTask]; [suggestMarshalData] is what
    [suggest.MarshalJSON()] returned. *)
Definition metaDataRequest (taskID : string) (physicalPlan : PhysicalPlan)
    (suggestMarshalData : bytes) : TaskRequest :=
  {| req_RequestID := "";
     req_ParentTaskID := taskID;
     req_Type := None;
     req_RequestType := RequestType_Metadata;
     req_PhysicalPlan := PhysicalPlan_JSONMarshal physicalPlan;
     req_Payload := suggestMarshalData |}.

(** [SubmitMetaDataTask]: the manager after, the returned channel and the
    returned error. *)
Definition SubmitMetaDataTask (now_ms : Z) (physicalPlan : PhysicalPlan)
    (suggestMarshalData : bytes) (t : taskManager) : taskManager * ptr * option error :=
  let '(t, taskID) := AllocTaskID t in
  let req := metaDataRequest taskID physicalPlan suggestMarshalData in
  let responseCh := length (heap t) in
  let taskCtx :=
    newMetaDataTaskContext now_ms taskID RootTask "" ""
      (NumOfTask (plan_Root physicalPlan)) [] in
  let t := storeTask taskID (MetaDataCtx taskCtx) t in
  let '(t, sendError) := fanout (Leaves physicalPlan) req None t in
  match sendError with
  | Some err => (evictTask taskID t, responseCh, Some err)
  | None => (t, responseCh, None)
  end.

(** [SendResponse]; the server streams are those of [t.taskServerFactory]. *)
Definition SendResponse (taskServerFactory : TaskServerFactory) (parentNodeID : string)
    (resp : TaskResponse) (t : taskManager) : taskManager * option error :=
  match taskServerFactory parentNodeID with
  | None =>
      (with_statistics (stat_SentResponseFailures 1 (statistics t)) t,
       Some (Errorf_w "SendResponse: " ErrNoSendStream (", parentNodeID: " +:+ parentNodeID)))
  | Some stream =>
      match stream resp with
      | Some _ =>
          (with_statistics (stat_SentResponseFailures 1 (statistics t)) t,
           Some (Errorf_w "SendResponse: " ErrResponseSend (", parentNodeID: " +:+ parentNodeID)))
      | None =>
          (with_statistics (stat_SentResponses 1 (statistics t)) t, None)
      end
  end.

(** A worker takes the oldest closure of the pool and runs it. *)
Definition runNext (env : Env) (t : taskManager) : taskManager :=
  match workerPool t with
  | [] => t
  | task :: rest => runReceiveTask task env (with_workerPool rest t)
  end.

(** A response arrives and the pool runs its closure before the next one
    arrives. *)
Definition deliver (a : Arrival) (t : taskManager) : taskManager :=
  runNext (a_env a) (Receive (a_resp a) (a_fromNode a) t).1.

Definition deliverAll (rs : list Arrival) (t : taskManager) : taskManager :=
  fold_left (λ t a, deliver a t) rs t.

Definition md_writeAll (rs : list Arrival) (c : metaDataTaskContext) : metaDataTaskContext :=
  fold_left (λ c a, md_WriteResponse (a_resp a) (a_env a) c) rs c.

(** The error responses of a run, as the ack context offers them. *)
Definition ack_error_offers (rs : list Arrival) : chan (option error) :=
  omap (λ a, if String.eqb (ErrMsg (a_resp a)) "" then None
             else Some (offer (receiver_ready (a_env a))
                              (Some (errors_New (ErrMsg (a_resp a)))))) rs.

(** The series of the payloads of a run, in arrival order. *)
Definition run_series (rs : list Arrival) : list TimeSeries :=
  concat (map (λ a, match Unmarshal (Payload (a_resp a)) with
                    | Ok tsList => TimeSeriesList_ tsList
                    | Failed _ => []
                    end) rs).

(** The aggregator specs of the first payload of a run. *)
Definition first_specs (rs : list Arrival) : list AggregatorSpec :=
  match rs with
  | a :: _ => match Unmarshal (Payload (a_resp a)) with
              | Ok tsList => FieldAggSpecs tsList
              | Failed _ => []
              end
  | [] => []
  end.

(** A response without error whose payload decodes to a list with
    aggregator specs in which every series has field data. *)
Definition is_data (resp : TaskResponse) : Prop :=
  ErrMsg resp = "" ∧
  ∃ tsList, Unmarshal (Payload resp) = Ok tsList ∧
            FieldAggSpecs tsList ≠ [] ∧
            Forall (λ ts, size (Fields ts) ≠ 0%nat) (TimeSeriesList_ tsList).

End TaskManagerRest.

(** ** Function types ([aggregation/function/type.go]) *)

Module function.

(** [FuncType] is an [int]. *)
Definition Unknown : Z := 0.
Definition Sum : Z := 1.
Definition Min : Z := 2.
Definition Max : Z := 3.
Definition Count : Z := 4.
Definition Avg : Z := 5.
Definition Last : Z := 6.
Definition First : Z := 7.
Definition Quantile : Z := 8.
Definition Stddev : Z := 9.
Definition Rate : Z := 10.

Definition String (t : Z) : string :=
  if t =? Sum then "sum"
  else if t =? Min then "min"
  else if t =? Max then "max"
  else if t =? Count then "count"
  else if t =? Avg then "avg"
  else if t =? Last then "last"
  else if t =? First then "first"
  else if t =? Quantile then "quantile"
  else if t =? Stddev then "stddev"
  else if t =? Rate then "rate"
  else "unknown".

Definition IsSupportOrderBy (t : Z) : bool :=
  (t =? Sum) || (t =? Min) || (t =? Max) || (t =? Count) || (t =? Avg) || (t =? Last)
  || (t =? First) || (t =? Stddev).

End function.

(** ** Field types (package [field]) *)

Module field.

(** [AggType] is a [uint8]; the constants start at one. *)
Definition Sum : Z := 1.
Definition Count : Z := 2.
Definition Min : Z := 3.
Definition Max : Z := 4.
Definition Last : Z := 5.
Definition First : Z := 6.

(** [Type] is a [uint8]. *)
Definition Unknown : Z := 0.
Definition SumField : Z := 1.
Definition MinField : Z := 2.
Definition MaxField : Z := 3.
Definition LastField : Z := 4.
Definition HistogramField : Z := 5.
Definition FirstField : Z := 6.

Definition String (t : Z) : string :=
  if t =? SumField then "sum"
  else if t =? MinField then "min"
  else if t =? MaxField then "max"
  else if t =? LastField then "last"
  else if t =? HistogramField then "histogram"
  else if t =? FirstField then "first"
  else "unknown".

(** [AggType]; [None] stands for the panic of the default case. *)
Definition AggType (t : Z) : option Z :=
  if (t =? SumField) || (t =? HistogramField) then Some Sum
  else if t =? MinField then Some Min
  else if t =? MaxField then Some Max
  else if t =? LastField then Some Last
  else if t =? FirstField then Some First
  else None.

Definition DownSamplingFunc (t : Z) : Z :=
  if t =? SumField then function.Sum
  else if t =? MinField then function.Min
  else if t =? MaxField then function.Max
  else if t =? LastField then function.Last
  else if t =? FirstField then function.First
  else if t =? HistogramField then function.Sum
  else function.Unknown.

Definition IsFuncSupported (t funcType : Z) : bool :=
  if t =? SumField then
    (funcType =? function.Sum) || (funcType =? function.Min) || (funcType =? function.Max)
    || (funcType =? function.Rate)
  else if t =? MinField then funcType =? function.Min
  else if t =? MaxField then funcType =? function.Max
  else if t =? LastField then
    (funcType =? function.Sum) || (funcType =? function.Min) || (funcType =? function.Max)
    || (funcType =? function.Last)
  else if t =? FirstField then
    (funcType =? function.Sum) || (funcType =? function.Min) || (funcType =? function.Max)
    || (funcType =? function.First)
  else if t =? HistogramField then funcType =? function.Sum
  else false.

Definition getFieldParamsForSumField (funcType : Z) : list Z :=
  if funcType =? function.Max then [Max]
  else if funcType =? function.Min then [Min]
  else [Sum].

Definition getFieldParamsForMaxField (funcType : Z) : list Z :=
  if funcType =? function.Min then [Min] else [Max].

Definition getFieldParamsForMinField (funcType : Z) : list Z :=
  if funcType =? function.Max then [Max] else [Min].

Definition getFieldParamsForFirstField (funcType : Z) : list Z :=
  if funcType =? function.Max then [Max]
  else if funcType =? function.Min then [Min]
  else if funcType =? function.Sum then [Sum]
  else [First].

Definition getFieldParamsForLastField (funcType : Z) : list Z :=
  if funcType =? function.Max then [Max]
  else if funcType =? function.Min then [Min]
  else if funcType =? function.Sum then [Sum]
  else [Last].

(** [GetFuncFieldParams]; [None] stands for the nil slice. *)
Definition GetFuncFieldParams (t funcType : Z) : option (list Z) :=
  if t =? SumField then Some (getFieldParamsForSumField funcType)
  else if t =? LastField then Some (getFieldParamsForLastField funcType)
  else if t =? FirstField then Some (getFieldParamsForFirstField funcType)
  else if t =? MinField then Some (getFieldParamsForMinField funcType)
  else if t =? MaxField then Some (getFieldParamsForMaxField funcType)
  else if t =? HistogramField then Some [Sum]
  else None.

Definition GetDefaultFuncFieldParams (t : Z) : option (list Z) :=
  if t =? SumField then Some [Sum]
  else if t =? MinField then Some [Min]
  else if t =? LastField then Some [Last]
  else if t =? FirstField then Some [First]
  else if t =? MaxField then Some [Max]
  else if t =? HistogramField then Some [Sum]
  else None.

Definition GetOrderByFunc (t : Z) : Z :=
  if t =? SumField then function.Sum
  else if t =? MinField then function.Min
  else if t =? MaxField then function.Max
  else if t =? LastField then function.Last
  else if t =? FirstField then function.First
  else if t =? HistogramField then function.Stddev
  else function.Stddev.

(** The field types a user can write. *)
Definition is_known (t : Z) : bool := (1 <=? t) && (t <=? 6).

End field.

Section RunAggregator.
Context `{Collaborators}.

(** One series handed to the grouping aggregator. *)
Definition aggregate_one (g : GroupingAggregator) (ts : TimeSeries) : GroupingAggregator :=
  Aggregate (NewGroupedIterator (Tags ts) (Fields ts)) g.

(** The grouping aggregator of a run of data responses: built from the
    specs of the first payload, fed with the series of all payloads in
    arrival order; nil for the empty run. *)
Definition run_groupAgg (q : Query) (rs : list Arrival) : option GroupingAggregator :=
  match rs with
  | [] => None
  | _ :: _ =>
      Some (fold_left aggregate_one (run_series rs)
              (newGroupingAgg (Query_Interval q) 1 (Query_TimeRange q)
                 (buildAggregatorSpecs (first_specs rs))))
  end.

End RunAggregator.

Section Counting.
Context `{Collaborators}.

(** A sequence of calls of [SendResponse], one after the other. *)
Definition sendResponses (taskServerFactory : TaskServerFactory)
    (calls : list (string * TaskResponse)) (t : taskManager) : taskManager :=
  fold_left (λ t call, (SendResponse taskServerFactory call.1 call.2 t).1) calls t.

(** Whether a call of [SendResponse] goes through. *)
Definition response_ok (taskServerFactory : TaskServerFactory) (call : string * TaskResponse)
    : bool :=
  match taskServerFactory call.1 with
  | Some stream => match stream call.2 with None => true | Some _ => false end
  | None => false
  end.

(** Whether the cleaner removes an entry of the table when it visits it. *)
Definition expired_entry (now_ms : string → Z) (ttl_ms : Z) (t : taskManager)
    (entry : string * ptr) : bool :=
  match heap t !! entry.2 with
  | Some taskCtx => Expired (now_ms entry.1) ttl_ms taskCtx
  | None => false
  end.

End Counting.

(** ** What a run of responses amounts to *)

Section Merged.
Context `{Collaborators}.

(** The series of a payload that reach the grouping aggregator: those
    before the first series without field data. *)
Fixpoint aggregated_series (tsList : list TimeSeries) : list TimeSeries :=
  match tsList with
  | [] => []
  | ts :: rest =>
      if Nat.eqb (size (Fields ts)) 0 then [] else ts :: aggregated_series rest
  end.

(** The payload of a response that carries no error message and decodes. *)
Definition success_payload (resp : TaskResponse) : option TimeSeriesList :=
  if String.eqb (ErrMsg resp) "" then
    match Unmarshal (Payload resp) with
    | Ok tsList => Some tsList
    | Failed _ => None
    end
  else None.

(** The payloads of the successful responses of a run, in arrival order. *)
Definition success_payloads (rs : list Arrival) : list TimeSeriesList :=
  omap (λ a, success_payload (a_resp a)) rs.

(** One payload merged into the grouping aggregator: a payload without
    aggregator specs is skipped; the aggregator is built from the specs of
    the first payload that has some. *)
Definition merge_payload (q : Query) (g : option GroupingAggregator)
    (tsList : TimeSeriesList) : option GroupingAggregator :=
  match FieldAggSpecs tsList with
  | [] => g
  | _ :: _ =>
      Some (fold_left (λ g ts, Aggregate (NewGroupedIterator (Tags ts) (Fields ts)) g)
              (aggregated_series (TimeSeriesList_ tsList))
              (match g with
               | Some g => g
               | None =>
                   newGroupingAgg (Query_Interval q) 1 (Query_TimeRange q)
                     (buildAggregatorSpecs (FieldAggSpecs tsList))
               end))
  end.

(** The aggregation of the successful responses of a run: nothing else of
    the run enters it. *)
Definition merged_groupAgg (q : Query) (rs : list Arrival) : option GroupingAggregator :=
  fold_left (merge_payload q) (success_payloads rs) None.

(** The aggregator specs of the successful responses of a run, by field
    name. *)
Definition merged_specs (rs : list Arrival) : gmap string AggregatorSpec :=
  fold_left (λ m tsList, fold_left (λ m spec, <[FieldName spec := spec]> m)
                                   (FieldAggSpecs tsList) m)
            (success_payloads rs) ∅.

End Merged.

(** ** The wait for the acknowledgements *)

Section AckWaitObserved.
Context `{Collaborators}.

(** The manager when [ensureIntermediateAckTasks] reaches its [select]: the
    ack context is registered and the requests to the intermediates have
    been sent. *)
Definition ackWaitState (now_ms : Z) (physicalPlan : PhysicalPlan)
    (taskRequest : TaskRequest) (t : taskManager) : taskManager :=
  let taskCtx :=
    newIntermediateAckTaskContext now_ms (req_ParentTaskID taskRequest) RootTask
      (Int.wrap32 (Z.of_nat (length (Intermediates physicalPlan)))) [] in
  (fanout (Intermediates physicalPlan) taskRequest None
     (storeTask (req_ParentTaskID taskRequest) (AckCtx taskCtx) t)).1.

(** [responseCh]: the channel of the ack context stored at [p]. *)
Definition responseCh_log (p : ptr) (t : taskManager) : chan (option error) :=
  match heap t !! p with
  | Some (AckCtx c) => ack_eventCh c
  | _ => []
  end.

(** What the receive case of the [select] gets from [responseCh]: the first
    value that was delivered, or the close when the channel was closed
    before any value was delivered.  When neither happened, the [select]
    can only be left through [ctx.Done()]. *)
Fixpoint select_responseCh (ch : chan (option error)) : AckWait :=
  match ch with
  | [] => CtxDone
  | Sent event :: _ => AckEvent event
  | Dropped _ :: rest => select_responseCh rest
  | Closed :: _ => AckClosed
  end.

End AckWaitObserved.

(** * Properties *)

(** ** Machine integers *)

Lemma wrap32_id z : Int.in_int32 z → Int.wrap32 z = z.
Proof.
  unfold Int.in_int32, Int.min_int32, Int.max_int32, Int.wrap32. intros Hz.
  rewrite Z.mod_small; lia.
Qed.

Lemma wrap32_range z : Int.in_int32 (Int.wrap32 z).
Proof.
  unfold Int.in_int32, Int.min_int32, Int.max_int32, Int.wrap32.
  pose proof (Z.mod_pos_bound (z + 2 ^ 31) (2 ^ 32) ltac:(lia)). lia.
Qed.

Lemma dec32_no_underflow z :
  Int.min_int32 < z → z <= Int.max_int32 → Int.dec32 z = z - 1.
Proof.
  intros Hlo Hhi. unfold Int.dec32. apply wrap32_id.
  unfold Int.in_int32, Int.min_int32, Int.max_int32 in *. lia.
Qed.

Lemma dec32_underflow : Int.dec32 Int.min_int32 = Int.max_int32.
Proof. reflexivity. Qed.

Lemma wrap64_spec z : ∃ q, Int.wrap64 z = z - 2 ^ 64 * q.
Proof.
  unfold Int.wrap64. exists ((z + 2 ^ 63) / 2 ^ 64).
  pose proof (Z.div_mod (z + 2 ^ 63) (2 ^ 64) ltac:(lia)). lia.
Qed.

Lemma wrap64_range z : Int.in_int64 (Int.wrap64 z).
Proof.
  unfold Int.in_int64, Int.min_int64, Int.max_int64, Int.wrap64.
  pose proof (Z.mod_pos_bound (z + 2 ^ 63) (2 ^ 64) ltac:(lia)). lia.
Qed.

Lemma wrap64_shift z q : Int.wrap64 (z - 2 ^ 64 * q) = Int.wrap64 z.
Proof.
  unfold Int.wrap64. f_equal.
  replace (z - 2 ^ 64 * q + 2 ^ 63) with (z + 2 ^ 63 + (- q) * 2 ^ 64) by lia.
  apply Z_mod_plus_full.
Qed.

Lemma wrap64_add_l a b : Int.wrap64 (Int.wrap64 a + b) = Int.wrap64 (a + b).
Proof.
  destruct (wrap64_spec a) as [q ->].
  replace (a - 2 ^ 64 * q + b) with (a + b - 2 ^ 64 * q) by lia.
  apply wrap64_shift.
Qed.

(** Two integers less than [2^64] apart stay apart after wrapping. *)
Lemma wrap64_inj_near a b :
  Int.wrap64 a = Int.wrap64 b → Z.abs (a - b) < 2 ^ 64 → a = b.
Proof.
  destruct (wrap64_spec a) as [q1 ->], (wrap64_spec b) as [q2 ->].
  intros Heq Habs.
  assert (Hq : a - b = 2 ^ 64 * (q1 - q2)) by lia.
  destruct (Z.eq_dec q1 q2) as [->|Hne]; [lia|].
  assert (2 ^ 64 <= Z.abs (a - b)); [|lia].
  rewrite Hq, Z.abs_mul. assert (1 <= Z.abs (q1 - q2)) by lia.
  rewrite (Z.abs_eq (2 ^ 64)) by lia. nia.
Qed.

(** ** Strings *)

Lemma string_app_inv_head (p a b : string) : p +:+ a = p +:+ b → a = b.
Proof. induction p as [|c p IH]; simpl; [done|]. intros [= Heq]. auto. Qed.

(** ** The metric task context, one response at a time *)

Section MetricSteps.
Context `{Collaborators}.

Implicit Types (c : metricTaskContext) (resp : TaskResponse) (env : Env).

Lemma checkError_frame errMsg c :
  base (checkError errMsg c).1.1 = base c ∧
  eventCh (checkError errMsg c).1.1 = eventCh c ∧
  groupAgg (checkError errMsg c).1.1 = groupAgg c ∧
  stats (checkError errMsg c).1.1 = stats c ∧
  aggregatorSpecs (checkError errMsg c).1.1 = aggregatorSpecs c.
Proof. unfold checkError. repeat case_match; done. Qed.

Lemma handleStats_frame resp fromNode c :
  base (handleStats resp fromNode c) = base c ∧
  eventCh (handleStats resp fromNode c) = eventCh c ∧
  groupAgg (handleStats resp fromNode c) = groupAgg c ∧
  aggregatorSpecs (handleStats resp fromNode c) = aggregatorSpecs c ∧
  tolerantNotFounds (handleStats resp fromNode c) = tolerantNotFounds c.
Proof. unfold handleStats. repeat case_match; done. Qed.

Lemma handle_deferred_frame env c :
  base (handle_deferred env c) = base c ∧
  eventCh (handle_deferred env c) = eventCh c ∧
  groupAgg (handle_deferred env c) = groupAgg c ∧
  aggregatorSpecs (handle_deferred env c) = aggregatorSpecs c ∧
  tolerantNotFounds (handle_deferred env c) = tolerantNotFounds c.
Proof. unfold handle_deferred. case_match; done. Qed.

(** [handleTaskResponse] touches neither the counters of the base context
    nor the channel. *)
Lemma handleTaskResponse_frame resp fromNode env c :
  base (handleTaskResponse resp fromNode env c).1 = base c ∧
  eventCh (handleTaskResponse resp fromNode env c).1 = eventCh c.
Proof.
  unfold handleTaskResponse.
  destruct (handleStats_frame resp fromNode c) as (Hb & He & _).
  destruct (checkError_frame (ErrMsg resp) (handleStats resp fromNode c)) as (Hb' & He' & _).
  destruct (checkError _ _) as [[c1 ignoreResponse] err]. simpl in Hb', He'.
  destruct err; [simpl; split; congruence|].
  destruct ignoreResponse; [simpl; split; congruence|].
  destruct (Unmarshal _) as [tsList|e].
  - case_match; simpl.
    + destruct (handle_deferred_frame env c1) as (-> & -> & _). split; congruence.
    + match goal with |- context [handle_deferred env ?x] =>
        destruct (handle_deferred_frame env x) as (-> & -> & _) end.
      simpl. split; congruence.
  - simpl. destruct (handle_deferred_frame env c1) as (-> & -> & _). split; congruence.
Qed.

(** [WriteResponse] in terms of the outcome of [handleTaskResponse]. *)
Lemma metric_WriteResponse_open resp fromNode env c :
  closed (base c) = false →
  metric_WriteResponse resp fromNode env c =
    match handleTaskResponse resp fromNode env (metric_decrement c) with
    | (c1, Some err) =>
        metric_deferred
          (with_eventCh (try_send (receiver_ready env) (errorEvent err c1) (eventCh c1)) c1)
    | (c1, None) =>
        if 0 <? expectResults (base c1) then metric_deferred c1
        else
          metric_deferred
            (with_eventCh
               (try_send (receiver_ready env)
                  (resultEvent (with_stats (set_End (now env) <$> stats c1) c1))
                  (eventCh c1))
               (with_stats (set_End (now env) <$> stats c1) c1))
    end.
Proof.
  intros Hc. unfold metric_WriteResponse, metric_decrement. simpl. rewrite Hc. done.
Qed.

Lemma metric_WriteResponse_closed resp fromNode env c :
  closed (base c) = true →
  metric_WriteResponse resp fromNode env c = metric_decrement c.
Proof.
  intros Hc. unfold metric_WriteResponse, metric_decrement. simpl. rewrite Hc. done.
Qed.

(** A response whose error is not tolerated. *)
Lemma handleTaskResponse_not_found resp fromNode env c :
  is_not_found resp = true →
  Int.min_int32 < tolerantNotFounds c <= Int.max_int32 →
  ∃ c1,
    handleTaskResponse resp fromNode env c =
      (c1, if 1 <? tolerantNotFounds c then None else Some (errors_New (ErrMsg resp))) ∧
    tolerantNotFounds c1 = tolerantNotFounds c - 1 ∧
    groupAgg c1 = groupAgg c ∧
    aggregatorSpecs c1 = aggregatorSpecs c.
Proof.
  unfold is_not_found. intros [Hne Hnf]%andb_prop Hrange.
  apply negb_true_iff in Hne.
  destruct (handleStats_frame resp fromNode c) as (_ & _ & Hg & Ha & Ht).
  unfold handleTaskResponse, checkError. rewrite Hne, Hnf. simpl.
  rewrite Ht, dec32_no_underflow by lia.
  destruct (0 <? tolerantNotFounds c - 1) eqn:Hpos.
  - eexists. split.
    { replace (1 <? tolerantNotFounds c) with true by lia. done. }
    simpl. split_and!; done.
  - eexists. split.
    { replace (1 <? tolerantNotFounds c) with false by lia. done. }
    simpl. split_and!; done.
Qed.

(** A response that carries a result. *)
Lemma handleTaskResponse_success resp fromNode env c :
  is_success resp = true →
  ∃ c1,
    handleTaskResponse resp fromNode env c = (c1, None) ∧
    tolerantNotFounds c1 = tolerantNotFounds c.
Proof.
  unfold is_success. intros [Hempty Hdec]%andb_prop.
  destruct (handleStats_frame resp fromNode c) as (_ & _ & _ & _ & Ht).
  unfold handleTaskResponse, checkError. rewrite Hempty.
  destruct (Unmarshal (Payload resp)) as [tsList|]; [|done].
  case_match.
  - eexists. split; [done|]. by destruct (handle_deferred_frame env (handleStats resp fromNode c))
      as (_ & _ & _ & _ & ->).
  - eexists. split; [done|].
    match goal with |- context [handle_deferred env ?x] =>
      destruct (handle_deferred_frame env x) as (_ & _ & _ & _ & ->) end.
    done.
Qed.

End MetricSteps.

Section MetricWriteResponse.
Context `{Collaborators}.

Implicit Types (c : metricTaskContext) (resp : TaskResponse) (env : Env).

(** The response was handled without error and more are expected: nothing
    is sent. *)
Lemma metric_WriteResponse_pending resp fromNode env c c1 :
  closed (base c) = false →
  1 < expectResults (base c) <= Int.max_int32 →
  handleTaskResponse resp fromNode env (metric_decrement c) = (c1, None) →
  metric_WriteResponse resp fromNode env c = c1 ∧
  base c1 = with_expectResults (expectResults (base c) - 1) (base c) ∧
  eventCh c1 = eventCh c.
Proof.
  intros Hc He Hh.
  pose proof (handleTaskResponse_frame resp fromNode env (metric_decrement c)) as [Hb Hch].
  rewrite Hh in Hb, Hch. simpl in Hb, Hch.
  rewrite dec32_no_underflow in Hb by (unfold Int.min_int32; lia).
  rewrite metric_WriteResponse_open, Hh by done.
  rewrite Hb. simpl.
  replace (0 <? expectResults (base c) - 1) with true by lia.
  unfold metric_deferred. rewrite Hb. simpl.
  replace (expectResults (base c) - 1 <=? 0) with false by lia. done.
Qed.

(** The response was handled without error and it was the last one
    expected: the result is offered and the channel closed. *)
Lemma metric_WriteResponse_last resp fromNode env c c1 :
  closed (base c) = false →
  Int.min_int32 < expectResults (base c) <= 1 →
  handleTaskResponse resp fromNode env (metric_decrement c) = (c1, None) →
  let c' := metric_WriteResponse resp fromNode env c in
  eventCh c' =
    eventCh c ++
      [offer (receiver_ready env) (resultEvent (with_stats (set_End (now env) <$> stats c1) c1));
       Closed] ∧
  closed (base c') = true ∧
  groupAgg c' = groupAgg c1 ∧
  aggregatorSpecs c' = aggregatorSpecs c1 ∧
  stats c' = set_End (now env) <$> stats c1.
Proof.
  intros Hc He Hh.
  pose proof (handleTaskResponse_frame resp fromNode env (metric_decrement c)) as [Hb Hch].
  rewrite Hh in Hb, Hch. simpl in Hb, Hch.
  rewrite dec32_no_underflow in Hb by (unfold Int.max_int32; lia).
  simpl. rewrite metric_WriteResponse_open, Hh by done.
  rewrite Hb. simpl.
  replace (0 <? expectResults (base c) - 1) with false by lia.
  unfold metric_deferred. simpl. rewrite Hb. simpl.
  replace (expectResults (base c) - 1 <=? 0) with true by lia. simpl.
  rewrite Hch. unfold try_send, close. rewrite <- app_assoc. done.
Qed.

(** The response was handled with an error: the error is offered, and the
    channel is closed if no more responses are expected. *)
Lemma metric_WriteResponse_error resp fromNode env c c1 err :
  closed (base c) = false →
  handleTaskResponse resp fromNode env (metric_decrement c) = (c1, Some err) →
  let c' := metric_WriteResponse resp fromNode env c in
  let remaining := Int.dec32 (expectResults (base c)) in
  eventCh c' =
    eventCh c ++ offer (receiver_ready env) (errorEvent err c1)
              :: (if remaining <=? 0 then [Closed] else []) ∧
  closed (base c') = (remaining <=? 0) ∧
  expectResults (base c') = remaining ∧
  stats c' = stats c1.
Proof.
  intros Hc Hh.
  pose proof (handleTaskResponse_frame resp fromNode env (metric_decrement c)) as [Hb Hch].
  rewrite Hh in Hb, Hch. simpl in Hb, Hch.
  simpl. rewrite metric_WriteResponse_open, Hh by done.
  unfold metric_deferred. simpl. rewrite Hb. simpl.
  destruct (Int.dec32 (expectResults (base c)) <=? 0) eqn:Hrem; simpl.
  - rewrite Hch. unfold try_send, close. rewrite <- app_assoc. done.
  - rewrite Hch, Hb. simpl. rewrite Hc. done.
Qed.

Lemma checkError_not_found resp c :
  is_not_found resp = true →
  Int.min_int32 < tolerantNotFounds c <= Int.max_int32 →
  checkError (ErrMsg resp) c =
    (with_tolerantNotFounds (tolerantNotFounds c - 1) c, true,
     if 1 <? tolerantNotFounds c then None else Some (errors_New (ErrMsg resp))).
Proof.
  unfold is_not_found. intros [Hne Hnf]%andb_prop Hrange.
  apply negb_true_iff in Hne.
  unfold checkError. rewrite Hne, Hnf. simpl.
  rewrite dec32_no_underflow by lia.
  destruct (0 <? tolerantNotFounds c - 1) eqn:Hpos.
  - replace (1 <? tolerantNotFounds c) with true by lia. done.
  - replace (1 <? tolerantNotFounds c) with false by lia. done.
Qed.

Lemma metric_writeAll_snoc (rs : list Arrival) (a : Arrival) c :
  metric_writeAll (rs ++ [a]) c =
  metric_WriteResponse (a_resp a) (a_fromNode a) (a_env a) (metric_writeAll rs c).
Proof. unfold metric_writeAll. by rewrite fold_left_app. Qed.

Lemma count_not_found_snoc (rs : list Arrival) (a : Arrival) :
  count_not_found (rs ++ [a]) =
  count_not_found rs + (if is_not_found (a_resp a) then 1 else 0).
Proof.
  unfold count_not_found. rewrite filter_app, length_app, Nat2Z.inj_add. f_equal.
  destruct (is_not_found (a_resp a)) eqn:Hnf.
  - rewrite filter_cons_True by done. done.
  - rewrite filter_cons_False by congruence. done.
Qed.

Lemma count_not_found_app (l1 l2 : list Arrival) :
  count_not_found (l1 ++ l2) = count_not_found l1 + count_not_found l2.
Proof. unfold count_not_found. rewrite filter_app, length_app. lia. Qed.

Lemma count_not_found_bounds (rs : list Arrival) :
  0 <= count_not_found rs <= Z.of_nat (length rs).
Proof.
  unfold count_not_found. split; [lia|].
  apply inj_le, length_filter.
Qed.

End MetricWriteResponse.

(** ** Tolerated and exhausted not-found responses *)

Section NotFoundTolerance.
Context `{Collaborators}.

Variables (now_ms now_ns : Z) (id : string) (ty : TaskType) (pid pnode : string) (q : Query).

(** While fewer responses than expected have arrived, and all of them were
    not-found errors or results, nothing has been sent. *)
Lemma metric_writeAll_prefix (k : Z) (pre : list Arrival) :
  k <= Int.max_int32 →
  Z.of_nat (length pre) < k →
  Forall not_found_or_success pre →
  let c := metric_writeAll pre (newMetricTaskContext now_ms now_ns id ty pid pnode q k []) in
  expectResults (base c) = k - Z.of_nat (length pre) ∧
  closed (base c) = false ∧
  eventCh c = [] ∧
  tolerantNotFounds c = k - count_not_found pre.
Proof.
  intros Hk. induction pre as [|a pre IH] using rev_ind; intros Hlen Hall.
  { simpl. unfold count_not_found. simpl. split_and!; try done; lia. }
  rewrite length_app in Hlen. simpl in Hlen.
  apply Forall_app in Hall as [Hall Ha]. rewrite Forall_singleton in Ha.
  destruct IH as (He & Hc & Hch & Ht); [lia|done|].
  cbv zeta. rewrite metric_writeAll_snoc, count_not_found_snoc, length_app.
  set (c := metric_writeAll pre _) in *. simpl length.
  pose proof (count_not_found_bounds pre) as Hnf.
  assert (∃ c1, handleTaskResponse (a_resp a) (a_fromNode a) (a_env a) (metric_decrement c)
                  = (c1, None) ∧
                tolerantNotFounds c1 =
                  tolerantNotFounds c - (if is_not_found (a_resp a) then 1 else 0))
    as (c1 & Hh & Ht1).
  { destruct (is_not_found (a_resp a)) eqn:Hisnf.
    - destruct (handleTaskResponse_not_found (a_resp a) (a_fromNode a) (a_env a)
                  (metric_decrement c) Hisnf) as (c1 & Hh & Ht1 & _).
      { simpl. unfold Int.min_int32. lia. }
      simpl in Hh, Ht1. replace (1 <? tolerantNotFounds c) with true in Hh by lia.
      eauto.
    - unfold not_found_or_success in Ha. rewrite Hisnf in Ha. simpl in Ha.
      destruct (handleTaskResponse_success (a_resp a) (a_fromNode a) (a_env a)
                  (metric_decrement c) Ha) as (c1 & Hh & Ht1).
      simpl in Ht1. exists c1. split; [done|lia]. }
  destruct (metric_WriteResponse_pending _ _ _ _ _ Hc ltac:(lia) Hh) as (-> & Hb & Hch1).
  rewrite Hb, Hch1, Ht1. simpl. split_and!; try done; lia.
Qed.

(** The loop over the series, as a fold over the series that reach the
    aggregator. *)
Lemma aggregateSeries_fold (tsList : list TimeSeries) : ∀ g,
  aggregateSeries tsList g =
  fold_left (λ g ts, Aggregate (NewGroupedIterator (Tags ts) (Fields ts)) g)
            (aggregated_series tsList) g.
Proof.
  induction tsList as [|ts rest IH]; intros g; simpl; [done|].
  destruct (Nat.eqb (size (Fields ts)) 0); simpl; [done|]. apply IH.
Qed.

(** What one response does to the aggregator and to the specs: a response
    with an error message or with a payload that does not decode leaves
    both as they are. *)
Lemma handleTaskResponse_merged resp fromNode env (c : metricTaskContext) :
  let c1 := (handleTaskResponse resp fromNode env c).1 in
  stmtQuery c1 = stmtQuery c ∧
  groupAgg c1 = match success_payload resp with
                | Some tsList => merge_payload (stmtQuery c) (groupAgg c) tsList
                | None => groupAgg c
                end ∧
  aggregatorSpecs c1 = match success_payload resp with
                       | Some tsList =>
                           fold_left (λ m spec, <[FieldName spec := spec]> m)
                                     (FieldAggSpecs tsList) (aggregatorSpecs c)
                       | None => aggregatorSpecs c
                       end.
Proof.
  assert (Hstats : stmtQuery (handleStats resp fromNode c) = stmtQuery c ∧
                   groupAgg (handleStats resp fromNode c) = groupAgg c ∧
                   aggregatorSpecs (handleStats resp fromNode c) = aggregatorSpecs c).
  { unfold handleStats. repeat case_match; done. }
  assert (Hdefer : ∀ c', stmtQuery (handle_deferred env c') = stmtQuery c' ∧
                         groupAgg (handle_deferred env c') = groupAgg c' ∧
                         aggregatorSpecs (handle_deferred env c') = aggregatorSpecs c').
  { intros c'. unfold handle_deferred. case_match; done. }
  destruct Hstats as (Hq & Hg & Ha).
  cbv zeta. unfold handleTaskResponse, checkError, success_payload.
  destruct (String.eqb (ErrMsg resp) "") eqn:Hmsg.
  - destruct (Unmarshal (Payload resp)) as [tsList|e].
    + unfold merge_payload. destruct (FieldAggSpecs tsList) as [|spec specs] eqn:Hspecs.
      * simpl. destruct (Hdefer (handleStats resp fromNode c)) as (-> & -> & ->). done.
      * simpl length. simpl Nat.eqb. cbv iota. cbn [fst].
        match goal with |- context [handle_deferred env ?x] =>
          destruct (Hdefer x) as (-> & -> & ->) end.
        simpl. rewrite aggregateSeries_fold, Hq, Hg, Ha. done.
    + simpl. destruct (Hdefer (handleStats resp fromNode c)) as (-> & -> & ->). done.
  - destruct (negb (Contains (ErrMsg resp) "not found")); [simpl; split_and!; done|].
    destruct (0 <? _); simpl; split_and!; done.
Qed.

Lemma metric_WriteResponse_merged (a : Arrival) (c : metricTaskContext) :
  closed (base c) = false →
  let c' := metric_WriteResponse (a_resp a) (a_fromNode a) (a_env a) c in
  stmtQuery c' = stmtQuery c ∧
  groupAgg c' = match success_payload (a_resp a) with
                | Some tsList => merge_payload (stmtQuery c) (groupAgg c) tsList
                | None => groupAgg c
                end ∧
  aggregatorSpecs c' = match success_payload (a_resp a) with
                       | Some tsList =>
                           fold_left (λ m spec, <[FieldName spec := spec]> m)
                                     (FieldAggSpecs tsList) (aggregatorSpecs c)
                       | None => aggregatorSpecs c
                       end.
Proof.
  intros Hc. cbv zeta. rewrite metric_WriteResponse_open by done.
  pose proof (handleTaskResponse_merged (a_resp a) (a_fromNode a) (a_env a)
                (metric_decrement c)) as (Hq & Hg & Ha).
  destruct (handleTaskResponse _ _ _ _) as [c1 res]. simpl in Hq, Hg, Ha.
  rewrite <- Hg, <- Ha, <- Hq.
  destruct res; unfold metric_deferred; repeat case_match; done.
Qed.

Lemma success_payloads_snoc (pre : list Arrival) (a : Arrival) :
  success_payloads (pre ++ [a]) =
  success_payloads pre ++ match success_payload (a_resp a) with
                          | Some tsList => [tsList]
                          | None => []
                          end.
Proof.
  unfold success_payloads. rewrite omap_app. simpl. by destruct (success_payload _).
Qed.

Lemma merged_groupAgg_snoc (pre : list Arrival) (a : Arrival) :
  merged_groupAgg q (pre ++ [a]) =
  match success_payload (a_resp a) with
  | Some tsList => merge_payload q (merged_groupAgg q pre) tsList
  | None => merged_groupAgg q pre
  end.
Proof.
  unfold merged_groupAgg. rewrite success_payloads_snoc, fold_left_app.
  by destruct (success_payload _).
Qed.

Lemma merged_specs_snoc (pre : list Arrival) (a : Arrival) :
  merged_specs (pre ++ [a]) =
  match success_payload (a_resp a) with
  | Some tsList =>
      fold_left (λ m spec, <[FieldName spec := spec]> m) (FieldAggSpecs tsList)
                (merged_specs pre)
  | None => merged_specs pre
  end.
Proof.
  unfold merged_specs. rewrite success_payloads_snoc, fold_left_app.
  by destruct (success_payload _).
Qed.

(** While fewer responses than expected have arrived, the aggregator and
    the specs of the context are those of the successful responses. *)
Lemma metric_writeAll_merged (k : Z) (pre : list Arrival) :
  k <= Int.max_int32 →
  Z.of_nat (length pre) < k →
  Forall not_found_or_success pre →
  let c := metric_writeAll pre (newMetricTaskContext now_ms now_ns id ty pid pnode q k []) in
  stmtQuery c = q ∧
  groupAgg c = merged_groupAgg q pre ∧
  aggregatorSpecs c = merged_specs pre.
Proof.
  intros Hk. induction pre as [|a pre IH] using rev_ind; intros Hlen Hall.
  { simpl. split_and!; done. }
  rewrite length_app in Hlen. simpl in Hlen.
  apply Forall_app in Hall as [Hall Ha].
  destruct IH as (Hq & Hg & Hs); [lia|done|].
  destruct (metric_writeAll_prefix k pre) as (_ & Hc & _); [lia|lia|done|].
  cbv zeta. rewrite metric_writeAll_snoc, merged_groupAgg_snoc, merged_specs_snoc.
  destruct (metric_WriteResponse_merged a _ Hc) as (-> & -> & ->).
  rewrite Hq, Hg, Hs. done.
Qed.

(** C1. A metric context created for [k] responses ([tolerantNotFounds]
    starts at [k]) receives [k] responses, [m] of them not-found errors and
    the others results.  If [m <= k-1], [checkError] answers every
    not-found response with "ignore, no error", and such a response leaves
    the grouping aggregator and the aggregator specs of the context as they
    were.  The only event of the run is then the result, offered just before
    the channel is closed: it carries no error, and its series are the
    result set of the aggregation of the successful responses alone, in
    arrival order, each series handed to [Aggregate] up to the first series
    of its payload without field data; its specs are those of the
    successful responses.  If [m = k], the last response takes [tolerantNotFounds] to zero,
    [checkError] returns an error whose message is the not-found message of
    that response, and the only event of the run carries that error. *)
Theorem C1_not_found_tolerance (k : Z) (rs : list Arrival)
    (Hk : 1 <= k <= Int.max_int32)
    (Hlen : Z.of_nat (length rs) = k)
    (Hrs : Forall not_found_or_success rs) :
  let c0 := newMetricTaskContext now_ms now_ns id ty pid pnode q k [] in
  let m := count_not_found rs in
  tolerantNotFounds c0 = k ∧
  (m <= k - 1 →
     (∀ pre a post, rs = pre ++ a :: post → is_not_found (a_resp a) = true →
        (∃ c', checkError (ErrMsg (a_resp a)) (metric_writeAll pre c0) = (c', true, None)) ∧
        groupAgg (metric_writeAll (pre ++ [a]) c0) = groupAgg (metric_writeAll pre c0) ∧
        aggregatorSpecs (metric_writeAll (pre ++ [a]) c0)
          = aggregatorSpecs (metric_writeAll pre c0)) ∧
     groupAgg (metric_writeAll rs c0) = merged_groupAgg q rs ∧
     aggregatorSpecs (metric_writeAll rs c0) = merged_specs rs ∧
     ∃ ready ev,
       eventCh (metric_writeAll rs c0) = [offer ready ev; Closed] ∧
       Err ev = None ∧
       SeriesList ev = ResultSet <$> merged_groupAgg q rs ∧
       AggregatorSpecs ev = Some (merged_specs rs)) ∧
  (m = k →
     ∃ pre a,
       rs = pre ++ [a] ∧
       (∀ pre' a' post', pre = pre' ++ a' :: post' →
          ∃ c', checkError (ErrMsg (a_resp a')) (metric_writeAll pre' c0) = (c', true, None)) ∧
       (∃ c', checkError (ErrMsg (a_resp a)) (metric_writeAll pre c0)
                = (c', true, Some (errors_New (ErrMsg (a_resp a)))) ∧
              tolerantNotFounds c' = 0) ∧
       Contains (ErrMsg (a_resp a)) "not found" = true ∧
       ∃ ready ev,
         eventCh (metric_writeAll rs c0) = [offer ready ev; Closed] ∧
         Err ev = Some (errors_New (ErrMsg (a_resp a)))).
Proof.
  intros c0 m. split; [done|].
  (* what checkError answers to a not-found response after a proper prefix *)
  assert (Hcheck : ∀ pre a post, rs = pre ++ a :: post → is_not_found (a_resp a) = true →
            checkError (ErrMsg (a_resp a)) (metric_writeAll pre c0) =
              (with_tolerantNotFounds (k - count_not_found pre - 1) (metric_writeAll pre c0),
               true,
               if count_not_found pre + 1 <? k then None
               else Some (errors_New (ErrMsg (a_resp a))))).
  { intros pre a post -> Hnf.
    rewrite length_app in Hlen. simpl in Hlen.
    apply Forall_app in Hrs as [Hpre _].
    destruct (metric_writeAll_prefix k pre) as (_ & _ & _ & Ht); [lia|lia|done|].
    fold c0 in Ht. pose proof (count_not_found_bounds pre).
    rewrite checkError_not_found by (try done; rewrite Ht; unfold Int.min_int32; lia).
    rewrite Ht. do 2 f_equal.
    destruct (count_not_found pre + 1 <? k) eqn:Hlt.
    - replace (1 <? k - count_not_found pre) with true by lia. done.
    - replace (1 <? k - count_not_found pre) with false by lia. done. }
  (* a response with an error message leaves the aggregator as it was *)
  assert (Hkeep : ∀ pre a post, rs = pre ++ a :: post → is_not_found (a_resp a) = true →
            groupAgg (metric_writeAll (pre ++ [a]) c0) = groupAgg (metric_writeAll pre c0) ∧
            aggregatorSpecs (metric_writeAll (pre ++ [a]) c0)
              = aggregatorSpecs (metric_writeAll pre c0)).
  { intros pre a post -> Hnf.
    rewrite length_app in Hlen. simpl in Hlen.
    apply Forall_app in Hrs as [Hpre _].
    destruct (metric_writeAll_prefix k pre) as (_ & Hc & _); [lia|lia|done|].
    fold c0 in Hc. rewrite metric_writeAll_snoc.
    destruct (metric_WriteResponse_merged a _ Hc) as (_ & -> & ->).
    unfold is_not_found in Hnf. apply andb_prop in Hnf as [Hne _].
    apply negb_true_iff in Hne. unfold success_payload. rewrite Hne. done. }
  (* the last response *)
  destruct rs as [|a0 rs0] using rev_ind; [simpl in Hlen; lia|]. clear IHrs0.
  rename a0 into a, rs0 into pre.
  rewrite length_app in Hlen. simpl in Hlen.
  pose proof Hrs as Hall. apply Forall_app in Hall as [Hpre Ha]. rewrite Forall_singleton in Ha.
  destruct (metric_writeAll_prefix k pre) as (He & Hc & Hch & Ht); [lia|lia|done|].
  fold c0 in He, Hc, Hch, Ht.
  pose proof (count_not_found_bounds pre) as Hbound.
  destruct (metric_writeAll_merged k pre) as (Hq & Hg & Hs); [lia|lia|done|].
  fold c0 in Hq, Hg, Hs.
  assert (Hfinal : groupAgg (metric_writeAll (pre ++ [a]) c0)
                     = merged_groupAgg q (pre ++ [a]) ∧
                   aggregatorSpecs (metric_writeAll (pre ++ [a]) c0)
                     = merged_specs (pre ++ [a])).
  { rewrite metric_writeAll_snoc, merged_groupAgg_snoc, merged_specs_snoc.
    destruct (metric_WriteResponse_merged a _ Hc) as (_ & -> & ->).
    rewrite Hq, Hg, Hs. done. }
  destruct Hfinal as [Hfg Hfs].
  subst m. rewrite count_not_found_snoc.
  split.
  - (* fewer than k not-found responses *)
    intros Hm. split; [|split; [exact Hfg|split; [exact Hfs|]]].
    + intros pre' a' post' Heq Hnf. split; [|by apply (Hkeep pre' a' post')].
      rewrite (Hcheck pre' a' post' Heq Hnf).
      assert (count_not_found pre' + 1 <= k - 1); [|replace (count_not_found pre' + 1 <? k)
        with true by lia; eauto].
      pose proof (count_not_found_snoc pre a) as Hsplit.
      rewrite Heq, (cons_middle a' pre' post'), app_assoc, count_not_found_app,
        count_not_found_snoc, Hnf in Hsplit.
      pose proof (count_not_found_bounds post'). lia.
    + rewrite <- Hfg, <- Hfs. rewrite metric_writeAll_snoc.
      set (c := metric_writeAll pre c0) in *.
      assert (∃ c1, handleTaskResponse (a_resp a) (a_fromNode a) (a_env a) (metric_decrement c)
                      = (c1, None)) as (c1 & Hh).
      { destruct (is_not_found (a_resp a)) eqn:Hisnf.
        - destruct (handleTaskResponse_not_found (a_resp a) (a_fromNode a) (a_env a)
                      (metric_decrement c) Hisnf) as (c1 & Hh & _).
          { simpl. unfold Int.min_int32. lia. }
          simpl in Hh. replace (1 <? tolerantNotFounds c) with true in Hh by lia. eauto.
        - unfold not_found_or_success in Ha. rewrite Hisnf in Ha. simpl in Ha.
          destruct (handleTaskResponse_success (a_resp a) (a_fromNode a) (a_env a)
                      (metric_decrement c) Ha) as (c1 & Hh & _). eauto. }
      destruct (metric_WriteResponse_last _ _ _ _ _ Hc ltac:(unfold Int.min_int32; lia) Hh)
        as (Hev & _ & Hg1 & Hs1 & _).
      rewrite Hch in Hev. do 2 eexists. split; [exact Hev|].
      rewrite Hg1, Hs1. done.
  - (* all k responses are not-found errors *)
    rewrite metric_writeAll_snoc. set (c := metric_writeAll pre c0) in *.
    intros Hm. exists pre, a.
    assert (Hisnf : is_not_found (a_resp a) = true).
    { destruct (is_not_found (a_resp a)); [done|lia]. }
    rewrite Hisnf in Hm.
    split; [done|]. split; [|split; [|split]].
    + intros pre' a' post' Heq.
      assert (Hnf' : is_not_found (a_resp a') = true).
      { destruct (is_not_found (a_resp a')) eqn:Hx; [done|exfalso].
        subst pre. revert Hm.
        rewrite (cons_middle a' pre' post'), app_assoc, count_not_found_app,
          count_not_found_snoc, Hx.
        pose proof (count_not_found_bounds pre').
        pose proof (count_not_found_bounds post').
        rewrite !length_app in Hlen. simpl in Hlen. lia. }
      rewrite (Hcheck pre' a' (post' ++ [a])); [|by rewrite Heq, <- app_assoc|done].
      assert (count_not_found pre' + 1 < k); [|replace (count_not_found pre' + 1 <? k)
        with true by lia; eauto].
      subst pre. rewrite !length_app in Hlen. simpl in Hlen.
      pose proof (count_not_found_bounds pre'). lia.
    + rewrite (Hcheck pre a []); [|done|done].
      replace (count_not_found pre + 1 <? k) with false by lia.
      eexists. split; [done|]. simpl. lia.
    + unfold is_not_found in Hisnf. by apply andb_prop in Hisnf as [_ ?].
    + destruct (handleTaskResponse_not_found (a_resp a) (a_fromNode a) (a_env a)
                  (metric_decrement c) Hisnf) as (c1 & Hh & _).
      { simpl. unfold Int.min_int32. lia. }
      simpl in Hh. replace (1 <? tolerantNotFounds c) with false in Hh by lia.
      destruct (metric_WriteResponse_error _ _ _ _ _ _ Hc Hh) as (Hev & _).
      rewrite Hch, He in Hev.
      rewrite dec32_no_underflow in Hev by (unfold Int.min_int32; lia).
      replace (k - Z.of_nat (length pre) - 1 <=? 0) with true in Hev by lia.
      do 2 eexists. split; [exact Hev|done].
Qed.

End NotFoundTolerance.

(** Three leaves: one shard is missing on one of them; then on all three. *)
Lemma C1_not_found_tolerance_witness :
  let partial := [Mock.arrival "" [Byte.x01]; Mock.arrival "tsdb: shard not found" [];
                  Mock.arrival "" [Byte.x02]] in
  let all := [Mock.arrival "tsdb: shard not found" []; Mock.arrival "db not found" [];
              Mock.arrival "tsdb: shard not found" []] in
  (∃ ready ev, eventCh (metric_writeAll partial (Mock.metricCtx 3)) = [offer ready ev; Closed] ∧
               Err ev = None ∧
               SeriesList ev = Some [("host=a", {[ "f" := [Byte.x01] ]});
                                     ("host=a", {[ "f" := [Byte.x02] ]})] ∧
               AggregatorSpecs ev = Some {[ "f" := Mock.spec_f ]}) ∧
  groupAgg (metric_writeAll [Mock.arrival "" [Byte.x01]; Mock.arrival "tsdb: shard not found" []]
              (Mock.metricCtx 3))
    = groupAgg (metric_writeAll [Mock.arrival "" [Byte.x01]] (Mock.metricCtx 3)) ∧
  (∃ ready ev, eventCh (metric_writeAll all (Mock.metricCtx 3)) = [offer ready ev; Closed] ∧
               Err ev = Some (errors_New "tsdb: shard not found")).
Proof.
  intros partial all.
  assert (Hk : 1 <= 3 <= Int.max_int32) by (unfold Int.max_int32; lia).
  assert (Hpartial : Forall (@not_found_or_success Mock.collaborators) partial)
    by (repeat constructor).
  assert (Hall : Forall (@not_found_or_success Mock.collaborators) all)
    by (repeat constructor).
  destruct (@C1_not_found_tolerance Mock.collaborators 0 0 "broker-1" RootTask "" "" tt
              3 partial Hk eq_refl Hpartial) as (_ & Hsome & _).
  destruct (@C1_not_found_tolerance Mock.collaborators 0 0 "broker-1" RootTask "" "" tt
              3 all Hk eq_refl Hall) as (_ & _ & Hevery).
  destruct Hsome as (Hignored & _ & _ & ready & ev & Hev & Herr & Hseries & Hspecs).
  { vm_compute. discriminate. }
  destruct (Hignored [Mock.arrival "" [Byte.x01]] (Mock.arrival "tsdb: shard not found" [])
              [Mock.arrival "" [Byte.x02]] eq_refl eq_refl) as (_ & Hkeep & _).
  destruct Hevery as (pre & a & Hsplit & _ & _ & _ & ready' & ev' & Hev' & Herr').
  { reflexivity. }
  split; [|split].
  - exists ready, ev. split; [exact Hev|]. split; [exact Herr|].
    split; [etrans; [exact Hseries|reflexivity] | etrans; [exact Hspecs|reflexivity]].
  - exact Hkeep.
  - exists ready', ev'. split; [exact Hev'|].
    rewrite Herr'.
    assert (a = Mock.arrival "tsdb: shard not found" []) as ->; [|reflexivity].
    unfold all in Hsplit.
    destruct pre as [|? [|? [|? [|? ?]]]]; simpl in Hsplit; congruence.
Defined.

(** ** Errors found while handling a response *)

Section ErrorEvent.
Context `{Collaborators}.

(** C4 (as amended). When [handleTaskResponse] returns an error for a
    response written to a context that is not closed, [WriteResponse] offers
    one event carrying that error and the statistics; the channel is closed
    by that call exactly when no more responses are expected, that is when
    the decremented [expectResults] is not positive.  Otherwise the channel
    stays open and the context goes on handling responses. *)
Theorem C4_error_event (resp : TaskResponse) (fromNode : string) (env : Env)
    (c c1 : metricTaskContext) (err : error)
    (Hopen : closed (base c) = false)
    (Hh : handleTaskResponse resp fromNode env (metric_decrement c) = (c1, Some err)) :
  let c' := metric_WriteResponse resp fromNode env c in
  let remaining := Int.dec32 (expectResults (base c)) in
  let ev := {| AggregatorSpecs := None; SeriesList := None;
               ev_Stats := stats c'; Err := Some err |} in
  eventCh c' =
    eventCh c ++ offer (receiver_ready env) ev :: (if remaining <=? 0 then [Closed] else []) ∧
  closed (base c') = (remaining <=? 0) ∧
  expectResults (base c') = remaining.
Proof.
  destruct (metric_WriteResponse_error resp fromNode env c c1 err Hopen Hh)
    as (Hev & Hcl & He & Hst).
  cbv zeta. rewrite Hst. split_and!; done.
Qed.

End ErrorEvent.

(** Two responses are expected and the first reports an error: the error is
    offered and the channel stays open. *)
Lemma C4_error_event_witness :
  let c := Mock.metricCtx 2 in
  let c' := metric_WriteResponse (Mock.response "boom" []) "leaf" (Mock.env true) c in
  offered (eventCh c') =
    [{| AggregatorSpecs := None; SeriesList := None; ev_Stats := None;
        Err := Some (errors_New "boom") |}] ∧
  closed (base c') = false.
Proof.
  intros c c'.
  destruct (@C4_error_event Mock.collaborators (Mock.response "boom" []) "leaf" (Mock.env true)
              c (metric_decrement c) (errors_New "boom")) as (Hev & Hcl & _).
  - reflexivity.
  - reflexivity.
  - fold c' in Hev, Hcl. split; [rewrite Hev; reflexivity | rewrite Hcl; reflexivity].
Defined.

(** The claim fails as stated: with two responses expected, an error in the
    first one leaves the channel open, and the event that carries the error
    is followed by the result event of the second response. *)
Lemma C4_counterexample :
  let c := Mock.metricCtx 2 in
  let boom := Mock.response "boom" [] in
  let c' := metric_WriteResponse boom "leaf" (Mock.env true) c in
  (handleTaskResponse boom "leaf" (Mock.env true) (metric_decrement c)).2
    = Some (errors_New "boom") ∧
  expectResults (base c') = 1 ∧
  closed (base c') = false ∧
  closes (eventCh c') = 0%nat ∧
  Err <$> offered (eventCh (metric_writeAll [Mock.arrival "boom" []; Mock.arrival "" [Byte.x01]] c))
    = [Some (errors_New "boom"); None].
Proof. vm_compute. repeat split. Qed.

(** ** The counter of expected results and the closing of the channel *)

Section Channels.
Context {T : Type}.

Lemma closes_app (ch1 ch2 : chan T) : closes (ch1 ++ ch2) = (closes ch1 + closes ch2)%nat.
Proof. unfold closes. by rewrite filter_app, length_app. Qed.

Lemma closes_offer (ready : bool) (v : T) : closes [offer ready v] = 0%nat.
Proof. by destruct ready. Qed.

Lemma closes_try_send (ready : bool) (v : T) (ch : chan T) :
  closes (try_send ready v ch) = closes ch.
Proof. unfold try_send. rewrite closes_app, closes_offer. lia. Qed.

Lemma closes_close (ch : chan T) : closes (close ch) = S (closes ch).
Proof. unfold close. rewrite closes_app. unfold closes at 2. simpl. lia. Qed.

End Channels.

Section ExpectResults.
Context `{Collaborators}.

(** What one call does to the counter, the flag and the channel, for each
    kind of context. *)
Lemma ack_WriteResponse_shape resp env (c : intermediateAckTaskContext) :
  let c' := ack_WriteResponse resp env c in
  expectResults (ack_base c') = Int.dec32 (expectResults (ack_base c)) ∧
  (closed (ack_base c) = true →
     c' = {| ack_base := with_expectResults (Int.dec32 (expectResults (ack_base c))) (ack_base c);
             ack_eventCh := ack_eventCh c |}) ∧
  (closed (ack_base c) = false →
     closes (ack_eventCh c') =
       (closes (ack_eventCh c) + if closed (ack_base c') then 1 else 0)%nat).
Proof.
  unfold ack_WriteResponse, ack_deferred. simpl.
  destruct (closed (ack_base c)) eqn:Hc; simpl.
  { split_and!; done. }
  repeat case_match; simpl in *; rewrite ?Hc, ?closes_close, ?closes_try_send;
    split_and!; intros; try done; try congruence; lia.
Qed.

Lemma md_WriteResponse_shape resp env (c : metaDataTaskContext) :
  let c' := md_WriteResponse resp env c in
  expectResults (md_base c') = Int.dec32 (expectResults (md_base c)) ∧
  (closed (md_base c) = true →
     c' = {| md_base := with_expectResults (Int.dec32 (expectResults (md_base c))) (md_base c);
             taskResponseCh := taskResponseCh c |}) ∧
  (closed (md_base c) = false →
     closes (taskResponseCh c') =
       (closes (taskResponseCh c) + if closed (md_base c') then 1 else 0)%nat).
Proof.
  unfold md_WriteResponse. simpl.
  destruct (closed (md_base c)) eqn:Hc; simpl.
  { split_and!; done. }
  repeat case_match; simpl in *; rewrite ?Hc, ?closes_close, ?closes_app;
    split_and!; intros; try done; try congruence; unfold closes; simpl; lia.
Qed.

Lemma metric_WriteResponse_shape resp fromNode env (c : metricTaskContext) :
  let c' := metric_WriteResponse resp fromNode env c in
  expectResults (base c') = Int.dec32 (expectResults (base c)) ∧
  (closed (base c) = true → c' = metric_decrement c) ∧
  (closed (base c) = false →
     closes (eventCh c') = (closes (eventCh c) + if closed (base c') then 1 else 0)%nat).
Proof.
  destruct (closed (base c)) eqn:Hc.
  { cbv zeta. rewrite metric_WriteResponse_closed by done. split_and!; done. }
  cbv zeta. rewrite metric_WriteResponse_open by done.
  pose proof (handleTaskResponse_frame resp fromNode env (metric_decrement c)) as [Hb Hch].
  destruct (handleTaskResponse _ _ _ _) as [c1 res]. simpl in Hb, Hch.
  unfold metric_deferred.
  destruct res; repeat case_match; simpl in *;
    rewrite ?Hb, ?Hch, ?closes_close, ?closes_try_send in *; simpl in *; rewrite ?Hc in *;
    split_and!; intros; try done; try congruence; lia.
Qed.

Lemma WriteResponse_shape resp fromNode env (c : TaskContext) :
  let c' := WriteResponse resp fromNode env c in
  expectResults (ctx_base c') = Int.dec32 (expectResults (ctx_base c)) ∧
  (closed (ctx_base c) = true →
     c' = ctx_with_expectResults (Int.dec32 (expectResults (ctx_base c))) c) ∧
  (closed (ctx_base c) = false →
     ctx_closes c' = (ctx_closes c + if closed (ctx_base c') then 1 else 0)%nat).
Proof.
  destruct c as [c|c|c]; simpl.
  - destruct (ack_WriteResponse_shape resp env c) as (? & Hcl & ?).
    split_and!; [done| |done]. intros Hc. by rewrite (Hcl Hc).
  - destruct (metric_WriteResponse_shape resp fromNode env c) as (? & Hcl & ?).
    split_and!; [done| |done]. intros Hc. by rewrite (Hcl Hc).
  - destruct (md_WriteResponse_shape resp env c) as (? & Hcl & ?).
    split_and!; [done| |done]. intros Hc. by rewrite (Hcl Hc).
Qed.

Lemma ctx_with_expectResults_frame n (c : TaskContext) :
  ctx_closes (ctx_with_expectResults n c) = ctx_closes c ∧
  closed (ctx_base (ctx_with_expectResults n c)) = closed (ctx_base c).
Proof. by destruct c. Qed.

Lemma WriteResponse_wf resp fromNode env (c : TaskContext) :
  ctx_wf c → ctx_wf (WriteResponse resp fromNode env c).
Proof.
  unfold ctx_wf. intros Hwf.
  destruct (WriteResponse_shape resp fromNode env c) as (_ & Hclosed & Hopen).
  destruct (closed (ctx_base c)) eqn:Hc.
  - rewrite Hclosed by done.
    destruct (ctx_with_expectResults_frame (Int.dec32 (expectResults (ctx_base c))) c)
      as [-> ->]. by rewrite Hc.
  - rewrite Hopen, Hwf by done. done.
Qed.

Lemma writeAll_wf (rs : list Arrival) (c : TaskContext) : ctx_wf c → ctx_wf (writeAll rs c).
Proof.
  revert c. induction rs as [|a rs IH]; intros c Hwf; [done|].
  simpl. apply IH, WriteResponse_wf, Hwf.
Qed.

Lemma writeAll_cons (a : Arrival) (rs : list Arrival) (c : TaskContext) :
  writeAll (a :: rs) c = writeAll rs (WriteResponse (a_resp a) (a_fromNode a) (a_env a) c).
Proof. done. Qed.

Lemma writeAll_snoc (rs : list Arrival) (a : Arrival) (c : TaskContext) :
  writeAll (rs ++ [a]) c = WriteResponse (a_resp a) (a_fromNode a) (a_env a) (writeAll rs c).
Proof. unfold writeAll. by rewrite fold_left_app. Qed.

(** Without underflow, every response takes one off [expectResults]. *)
Lemma writeAll_expectResults (rs : list Arrival) : ∀ c : TaskContext,
  Int.min_int32 + Z.of_nat (length rs) <= expectResults (ctx_base c) <= Int.max_int32 →
  expectResults (ctx_base (writeAll rs c)) = expectResults (ctx_base c) - Z.of_nat (length rs).
Proof.
  induction rs as [|a rs IH]; intros c Hrange; simpl length in *.
  { simpl. lia. }
  rewrite writeAll_cons.
  destruct (WriteResponse_shape (a_resp a) (a_fromNode a) (a_env a) c) as (He & _).
  rewrite dec32_no_underflow in He by lia.
  rewrite IH; rewrite He; lia.
Qed.

(** C5. A context of any kind is created with a counter that is not
    negative ([int32(len(..))] or [Root.NumOfTask]) and with an open
    channel, and has received fewer than [2^31] responses.  Then a call of
    [WriteResponse] takes exactly one off [expectResults], so that the
    counter never exceeds the value it was created with.  Once the [closed]
    flag is set, a call changes nothing but the counter: no value is sent
    and the channel is not closed again.  So the channel is closed at most
    once, whatever the responses are. *)
Theorem C5_expectResults_and_close (c : TaskContext) (rs : list Arrival) (a : Arrival)
    (Hwf : ctx_wf c)
    (Hk : 0 <= expectResults (ctx_base c) <= Int.max_int32)
    (Hlen : Z.of_nat (length rs) <= Int.max_int32) :
  let c1 := writeAll rs c in
  let c2 := WriteResponse (a_resp a) (a_fromNode a) (a_env a) c1 in
  expectResults (ctx_base c2) = expectResults (ctx_base c1) - 1 ∧
  expectResults (ctx_base c1) = expectResults (ctx_base c) - Z.of_nat (length rs) ∧
  (closed (ctx_base c1) = true →
     c2 = ctx_with_expectResults (expectResults (ctx_base c1) - 1) c1 ∧
     closed (ctx_base c2) = true ∧
     ctx_closes c2 = ctx_closes c1) ∧
  (ctx_closes c2 <= 1)%nat.
Proof.
  intros c1 c2.
  destruct (WriteResponse_shape (a_resp a) (a_fromNode a) (a_env a) c1) as (He & Hcl & _).
  fold c2 in He, Hcl.
  assert (He1 : expectResults (ctx_base c1) = expectResults (ctx_base c) - Z.of_nat (length rs)).
  { apply writeAll_expectResults. unfold Int.min_int32, Int.max_int32 in *. lia. }
  assert (Hdec : Int.dec32 (expectResults (ctx_base c1)) = expectResults (ctx_base c1) - 1).
  { apply dec32_no_underflow; unfold Int.min_int32, Int.max_int32 in *; lia. }
  rewrite Hdec in He, Hcl.
  split_and!; [done|done| |].
  - intros Hc. rewrite (Hcl Hc).
    destruct (ctx_with_expectResults_frame (expectResults (ctx_base c1) - 1) c1) as [-> ->].
    done.
  - assert (Hwf2 : ctx_wf c2) by apply WriteResponse_wf, writeAll_wf, Hwf.
    unfold ctx_wf in Hwf2. rewrite Hwf2. case_match; lia.
Qed.

End ExpectResults.

(** One response is expected and three arrive: the counter goes 1, 0, -1,
    -2; the third response finds the flag set and changes nothing else, and
    the channel is closed once. *)
Lemma C5_expectResults_and_close_witness :
  let c := MetricCtx (Mock.metricCtx 1) in
  let rs := [Mock.arrival "" [Byte.x01]; Mock.arrival "" [Byte.x02]] in
  let c2 := WriteResponse (Mock.response "" [Byte.x03]) "leaf" (Mock.env true) (writeAll rs c) in
  ctx_wf c ∧
  expectResults (ctx_base c2) = -2 ∧
  c2 = ctx_with_expectResults (-2) (writeAll rs c) ∧
  ctx_closes c2 = 1%nat.
Proof.
  intros c rs c2.
  assert (Hwf : ctx_wf c) by reflexivity.
  destruct (@C5_expectResults_and_close Mock.collaborators c rs (Mock.arrival "" [Byte.x03]) Hwf)
    as (He & He1 & Hcl & _).
  - vm_compute. split; discriminate.
  - vm_compute. discriminate.
  - destruct (Hcl eq_refl) as (Heq & _ & Hcloses).
    split; [exact Hwf|].
    split; [etrans; [exact He|]; rewrite He1; reflexivity|].
    split; [etrans; [exact Heq|]; rewrite He1; reflexivity|].
    etrans; [exact Hcloses|reflexivity].
Defined.

(** ** A series without field data *)

Section EmptyFields.
Context `{Collaborators}.

(** The loop stops at the first series without field data and keeps what
    it has aggregated so far. *)
Lemma aggregateSeries_stops (before : list TimeSeries) (ts : TimeSeries)
    (rest : list TimeSeries) (g : GroupingAggregator) :
  Forall (λ ts, size (Fields ts) ≠ 0%nat) before →
  size (Fields ts) = 0%nat →
  aggregateSeries (before ++ ts :: rest) g =
  fold_left (λ g ts, Aggregate (NewGroupedIterator (Tags ts) (Fields ts)) g) before g.
Proof.
  intros Hbefore Hts. revert g.
  induction Hbefore as [|ts1 before Hts1 _ IH]; intros g; simpl.
  - by rewrite Hts.
  - apply Nat.eqb_neq in Hts1. rewrite Hts1. apply IH.
Qed.

End EmptyFields.

(** C7, at a response whose second series has no field data: the first
    series has already been aggregated when [handleTaskResponse] returns,
    and the aggregator specs of the response have been registered. *)
Theorem C7_partial_aggregation :
  let resp := Mock.response "" [Byte.x01; Byte.x00; Byte.x03] in
  let c := Mock.metricCtx 2 in
  let r := handleTaskResponse resp "leaf" (Mock.env true) (metric_decrement c) in
  (∃ tsList, @Unmarshal Mock.collaborators (Payload resp) = Ok tsList ∧
             size <$> (Fields <$> TimeSeriesList_ tsList) = [1; 0; 1]%nat) ∧
  r.2 = None ∧
  groupAgg c = None ∧
  groupAgg r.1 = Some [("host=a", {[ "f" := [Byte.x01] ]})] ∧
  aggregatorSpecs r.1 = {[ "f" := Mock.spec_f ]} ∧
  SeriesList <$> offered (eventCh (metric_writeAll
     [Mock.arrival "" [Byte.x01; Byte.x00; Byte.x03]; Mock.arrival "" []] c))
    = [Some [("host=a", {[ "f" := [Byte.x01] ]})]].
Proof.
  intros resp c r. split; [eexists; split; reflexivity|].
  vm_compute. repeat split.
Qed.

(** ** The metadata task context *)

Section MetaData.

(** One call of [WriteResponse] on a context that is not closed: the
    response is offered, and the channel is closed only if the response was
    taken and no more are expected. *)
Lemma md_WriteResponse_open (resp : TaskResponse) (env : Env) (c : metaDataTaskContext) :
  closed (md_base c) = false →
  let c' := md_WriteResponse resp env c in
  let done := receiver_ready env && (Int.dec32 (expectResults (md_base c)) <=? 0) in
  taskResponseCh c' =
    taskResponseCh c ++ offer (receiver_ready env) resp :: (if done then [Closed] else []) ∧
  closed (md_base c') = done.
Proof.
  intros Hc. unfold md_WriteResponse. simpl. rewrite Hc.
  destruct (receiver_ready env); simpl; [|done].
  case_match; simpl; [|done].
  unfold close. by rewrite <- app_assoc.
Qed.

End MetaData.

(** C8, at the last expected response arriving while nobody receives: the
    response is dropped, the context is done, and the channel is left
    open. *)
Theorem C8_last_response_dropped :
  let resp := Mock.response "" [] in
  let c := newMetaDataTaskContext 0 "broker-1" RootTask "" "" 1 [] in
  let c' := md_WriteResponse resp (Mock.env false) c in
  expectResults (md_base c') = 0 ∧
  base_Done (md_base c') = true ∧
  taskResponseCh c' = [Dropped resp] ∧
  closes (taskResponseCh c') = 0%nat ∧
  closed (md_base c') = false ∧
  (* the other two kinds of context close their channel in the same situation *)
  ack_eventCh (ack_WriteResponse resp (Mock.env false)
                 (newIntermediateAckTaskContext 0 "broker-1" RootTask 1 []))
    = [Dropped None; Closed] ∧
  closes (eventCh (metric_WriteResponse resp "leaf" (Mock.env false) (Mock.metricCtx 1)))
    = 1%nat.
Proof. vm_compute. repeat split. Qed.

(** ** A run in which no response carries data *)

Section EmptyRun.
Context `{Collaborators}.

Variables (now_ms now_ns : Z) (id : string) (ty : TaskType) (pid pnode : string) (q : Query).

Lemma handleTaskResponse_no_specs (a : Arrival) (c : metricTaskContext) :
  no_FieldAggSpecs a →
  groupAgg (handleTaskResponse (a_resp a) (a_fromNode a) (a_env a) c).1 = groupAgg c ∧
  aggregatorSpecs (handleTaskResponse (a_resp a) (a_fromNode a) (a_env a) c).1
    = aggregatorSpecs c.
Proof.
  intros Hno. unfold handleTaskResponse.
  destruct (handleStats_frame (a_resp a) (a_fromNode a) c) as (_ & _ & Hg & Ha & _).
  destruct (checkError_frame (ErrMsg (a_resp a)) (handleStats (a_resp a) (a_fromNode a) c))
    as (_ & _ & Hg' & _ & Ha').
  destruct (checkError _ _) as [[c1 ignoreResponse] err]. simpl in Hg', Ha'.
  destruct err; [simpl; split; congruence|].
  destruct ignoreResponse; [simpl; split; congruence|].
  destruct (Unmarshal _) as [tsList|e] eqn:Hdec.
  - rewrite (Hno tsList Hdec). simpl.
    destruct (handle_deferred_frame (a_env a) c1) as (_ & _ & -> & -> & _). split; congruence.
  - simpl. destruct (handle_deferred_frame (a_env a) c1) as (_ & _ & -> & -> & _).
    split; congruence.
Qed.

(** The state of such a run while responses are still expected. *)
Lemma empty_run_prefix (k : Z) (rs : list Arrival) :
  k <= Int.max_int32 →
  (∀ i a, rs !! i = Some a →
     (handleTaskResponse (a_resp a) (a_fromNode a) (a_env a)
        (metric_decrement
           (metric_writeAll (take i rs)
              (newMetricTaskContext now_ms now_ns id ty pid pnode q k [])))).2 = None) →
  Forall no_FieldAggSpecs rs →
  ∀ i, (i <= length rs)%nat → Z.of_nat i < k →
    let c := metric_writeAll (take i rs)
               (newMetricTaskContext now_ms now_ns id ty pid pnode q k []) in
    expectResults (base c) = k - Z.of_nat i ∧
    closed (base c) = false ∧
    eventCh c = [] ∧
    groupAgg c = None ∧
    aggregatorSpecs c = ∅.
Proof.
  intros Hk Hnil Hno. induction i as [|i IH]; intros Hi Hik.
  { rewrite take_0. simpl. split_and!; try done; lia. }
  destruct (lookup_lt_is_Some_2 rs i ltac:(lia)) as [a Ha].
  destruct IH as (He & Hc & Hch & Hg & Hs); [lia|lia|].
  cbv zeta. rewrite (take_S_r _ _ _ Ha), metric_writeAll_snoc.
  specialize (Hnil i a Ha).
  set (c := metric_writeAll (take i rs) _) in *.
  destruct (handleTaskResponse (a_resp a) (a_fromNode a) (a_env a) (metric_decrement c))
    as [c1 res] eqn:Hh.
  simpl in Hnil. subst res.
  assert (Hnoa : no_FieldAggSpecs a).
  { rewrite Forall_forall in Hno. apply Hno. eapply list_elem_of_lookup_2, Ha. }
  destruct (handleTaskResponse_no_specs a (metric_decrement c) Hnoa) as [Hg1 Hs1].
  rewrite Hh in Hg1, Hs1. simpl in Hg1, Hs1.
  destruct (metric_WriteResponse_pending _ _ _ _ _ Hc ltac:(lia) Hh) as (-> & Hb & Hch1).
  rewrite Hb, Hch1, Hg1, Hs1. simpl. split_and!; try done; lia.
Qed.

(** C10. A metric context receives all the responses it expects,
    [handleTaskResponse] returns no error for any of them, and none of them
    carries aggregator specs.  Then the grouping aggregator is never built,
    and the only event of the run, offered just before the channel is
    closed, is a result event without series list and without error. *)
Theorem C10_empty_run_succeeds (k : Z) (rs : list Arrival)
    (Hk : 1 <= k <= Int.max_int32)
    (Hlen : Z.of_nat (length rs) = k)
    (Hnil : ∀ i a, rs !! i = Some a →
       (handleTaskResponse (a_resp a) (a_fromNode a) (a_env a)
          (metric_decrement
             (metric_writeAll (take i rs)
                (newMetricTaskContext now_ms now_ns id ty pid pnode q k [])))).2 = None)
    (Hno : Forall no_FieldAggSpecs rs) :
  let c' := metric_writeAll rs (newMetricTaskContext now_ms now_ns id ty pid pnode q k []) in
  groupAgg c' = None ∧
  closed (base c') = true ∧
  ∃ ready,
    eventCh c' =
      [offer ready {| AggregatorSpecs := Some ∅; SeriesList := None;
                      ev_Stats := stats c'; Err := None |};
       Closed].
Proof.
  destruct rs as [|a0 rs0] using rev_ind; [simpl in Hlen; lia|]. clear IHrs0.
  rename a0 into a, rs0 into pre.
  rewrite length_app in Hlen. simpl in Hlen.
  assert (Ha : (pre ++ [a]) !! length pre = Some a) by apply list_lookup_middle, eq_refl.
  destruct (empty_run_prefix k (pre ++ [a]) ltac:(lia) Hnil Hno (length pre))
    as (He & Hc & Hch & Hg & Hs); [rewrite length_app; lia|lia|].
  specialize (Hnil (length pre) a Ha).
  rewrite take_app_length in He, Hc, Hch, Hg, Hs, Hnil.
  cbv zeta. rewrite metric_writeAll_snoc.
  set (c := metric_writeAll pre _) in *.
  destruct (handleTaskResponse (a_resp a) (a_fromNode a) (a_env a) (metric_decrement c))
    as [c1 res] eqn:Hh.
  simpl in Hnil. subst res.
  assert (Hnoa : no_FieldAggSpecs a).
  { rewrite Forall_forall in Hno. apply Hno. eapply list_elem_of_lookup_2, Ha. }
  destruct (handleTaskResponse_no_specs a (metric_decrement c) Hnoa) as [Hg1 Hs1].
  rewrite Hh in Hg1, Hs1. simpl in Hg1, Hs1.
  destruct (metric_WriteResponse_last _ _ _ _ _ Hc ltac:(unfold Int.min_int32; lia) Hh)
    as (Hev & Hcl & Hg' & Hs' & Hst).
  split; [congruence|]. split; [done|].
  exists (receiver_ready (a_env a)). rewrite Hev, Hch, Hst. simpl.
  unfold resultEvent. simpl. rewrite Hg1, Hs1, Hg, Hs. done.
Qed.

End EmptyRun.

(** Two leaves, one without the shard and one with an empty result. *)
Lemma C10_empty_run_succeeds_witness :
  let rs := [Mock.arrival "tsdb: shard not found" []; Mock.arrival "" []] in
  ∃ ready,
    eventCh (metric_writeAll rs (Mock.metricCtx 2)) =
      [offer ready {| AggregatorSpecs := Some ∅; SeriesList := None;
                      ev_Stats := None; Err := None |};
       Closed].
Proof.
  intros rs.
  destruct (@C10_empty_run_succeeds Mock.collaborators 0 0 "broker-1" RootTask "" "" tt 2 rs)
    as (_ & _ & ready & Hev).
  - unfold Int.max_int32. lia.
  - reflexivity.
  - intros [|[|i]] a; simpl; intros [= <-]; reflexivity.
  - repeat constructor; intros tsList; vm_compute; intros [= <-]; reflexivity.
  - exists ready. exact Hev.
Defined.

(** ** The task manager *)

Section ManagerSteps.
Context `{Collaborators}.

Implicit Types (t : taskManager) (req : TaskRequest).

Lemma SendRequest_spec target req t :
  let f := taskClientFactory t in
  wire (SendRequest target req t).1 = wire t ++ [sendCall target req (send_outcome f target req)] ∧
  same_tables t (SendRequest target req t).1 ∧
  ((SendRequest target req t).2 = None ↔ send_outcome f target req = SendOk).
Proof.
  unfold SendRequest, send_outcome, same_tables. simpl.
  destruct (taskClientFactory t target) as [client|]; [destruct (client req)|];
    simpl; split_and!; done.
Qed.

Lemma fanout_spec nodes req : ∀ sendError t,
  let f := taskClientFactory t in
  let r := fanout nodes req sendError t in
  wire r.1 = wire t ++ fanout_calls f nodes req ∧
  same_tables t r.1 ∧
  (forallb (send_ok f req) nodes = true → r.2 = sendError) ∧
  (forallb (send_ok f req) nodes = false → is_Some r.2).
Proof.
  induction nodes as [|node rest IH]; intros sendError t; simpl.
  { rewrite app_nil_r. unfold same_tables. split_and!; done. }
  destruct (SendRequest_spec (Indicator node) req t) as (Hw & Hs & Hok).
  destruct (SendRequest (Indicator node) req t) as [t1 err]. simpl in Hw, Hs, Hok.
  destruct Hs as (Hn & Hq & Hf & Hp & Ht & Hh).
  assert (Hcons : ∀ e,
    wire (fanout rest req e t1).1 =
      wire t ++ sendCall (Indicator node) req
                  (send_outcome (taskClientFactory t) (Indicator node) req)
             :: fanout_calls (taskClientFactory t) rest req ∧
    same_tables t (fanout rest req e t1).1).
  { intros e. destruct (IH e t1) as (Hw' & Hs' & _). simpl in Hw', Hs'.
    rewrite Hw', Hw, Hf, <- app_assoc. split; [done|].
    unfold same_tables in *. destruct Hs' as (? & ? & ? & ? & ? & ?).
    split_and!; congruence. }
  unfold send_ok at 1 3.
  destruct err as [e|].
  - destruct (Hcons (Some e)) as [Hw' Hs']. split_and!; [done|done| |].
    + destruct (send_outcome _ _ _); simpl; try done.
      intros _. exfalso. by destruct Hok as [_ Hok]; specialize (Hok eq_refl).
    + intros _. destruct (forallb (send_ok (taskClientFactory t) req) rest) eqn:Hrest.
      * destruct (IH (Some e) t1) as (_ & _ & Hall & _). simpl in Hall.
        rewrite Hf in Hall. rewrite (Hall Hrest). done.
      * destruct (IH (Some e) t1) as (_ & _ & _ & Hsome). simpl in Hsome.
        rewrite Hf in Hsome. by apply Hsome.
  - destruct (Hcons sendError) as [Hw' Hs']. split_and!; [done|done| |].
    + destruct Hok as [Hok _]. rewrite (Hok eq_refl). simpl.
      destruct (IH sendError t1) as (_ & _ & Hall & _). simpl in Hall.
      by rewrite Hf in Hall.
    + destruct Hok as [Hok _]. rewrite (Hok eq_refl). simpl.
      destruct (IH sendError t1) as (_ & _ & _ & Hsome). simpl in Hsome.
      by rewrite Hf in Hsome.
Qed.

Lemma fanout_calls_type f nodes req :
  Forall (λ c, req_Type (sc_req c) = req_Type req) (fanout_calls f nodes req).
Proof. unfold fanout_calls. apply Forall_fmap, Forall_true. done. Qed.

(** [ensureIntermediateAckTasks]: the requests on the wire, the table
    without its task id, and the result. *)
Lemma ensureIntermediateAckTasks_spec now_ms wait plan req t :
  let f := taskClientFactory t in
  let r := ensureIntermediateAckTasks now_ms wait plan req t in
  wire r.1 = wire t ++ fanout_calls f (Intermediates plan) req ∧
  tasks r.1 = delete (req_ParentTaskID req) (tasks t) ∧
  taskClientFactory r.1 = f ∧
  (forallb (send_ok f req) (Intermediates plan) = false → is_Some r.2) ∧
  (forallb (send_ok f req) (Intermediates plan) = true →
     r.2 = match wait with
           | AckEvent event => event
           | AckClosed => Some (errors_New "missing acks from intermdiate nodes")
           | CtxDone => Some (Sentinel ErrTimeout)
           end).
Proof.
  unfold ensureIntermediateAckTasks.
  set (t0 := storeTask _ _ t).
  destruct (fanout_spec (Intermediates plan) req None t0) as (Hw & Hs & Hall & Hsome).
  destruct (fanout (Intermediates plan) req None t0) as [t1 sendError].
  simpl in Hw, Hs, Hall, Hsome. destruct Hs as (Hn & Hq & Hf & Hp & Ht & Hh).
  assert (Htl : tasks t1 !! req_ParentTaskID req = Some (length (heap t))).
  { rewrite Ht. subst t0. simpl. apply lookup_insert_eq. }
  simpl. unfold evictTask. rewrite Htl. simpl.
  split_and!.
  - rewrite Hw. done.
  - rewrite Ht. subst t0. simpl. apply delete_insert_eq.
  - rewrite Hf. done.
  - intros Hbad. destruct (Hsome Hbad) as [e ->]. done.
  - intros Hok. rewrite (Hall Hok). done.
Qed.

End ManagerSteps.

(** ** Task identifiers *)

Section AllocTaskID.
Context `{Collaborators}.

Lemma taskIDFormat_inj node a b : taskIDFormat node a = taskIDFormat node b → a = b.
Proof.
  unfold taskIDFormat. intros Heq.
  apply string_app_inv_head in Heq. apply (string_app_inv_head "-") in Heq.
  by apply (inj pretty) in Heq.
Qed.

Lemma allocTaskIDs_lookup n : ∀ (t : taskManager) (i : nat) (id : string),
  (allocTaskIDs n t).2 !! i = Some id →
  id = taskIDFormat (currentNodeID t) (Int.wrap64 (seq t + Z.of_nat (S i))) ∧ (i < n)%nat.
Proof.
  induction n as [|n IH]; intros t i id; simpl; [done|].
  destruct (allocTaskIDs n (with_seq (Int.inc64 (seq t)) t)) as [t' ids] eqn:Hrec.
  simpl. destruct i as [|i]; simpl.
  - intros [= <-]. split; [|lia]. unfold taskIDFormat, Int.inc64. done.
  - intros Hi. specialize (IH (with_seq (Int.inc64 (seq t)) t) i id).
    rewrite Hrec in IH. destruct (IH Hi) as [-> Hlt]. split; [|lia].
    simpl. unfold Int.inc64. rewrite wrap64_add_l. do 2 f_equal. lia.
Qed.

(** C9. Every call of [AllocTaskID] replaces the sequence counter by its
    successor (an [int64] increment) and returns the node id, a dash and the
    new counter in decimal; the ids returned by successive calls on one
    manager are pairwise different, for as many as [2^64] calls, which is
    every run a process can make before the counter has gone round. *)
Theorem C9_AllocTaskID_unique (t : taskManager) (n : nat) (Hn : Z.of_nat n <= 2 ^ 64) :
  seq (AllocTaskID t).1 = Int.inc64 (seq t) ∧
  (seq t < Int.max_int64 → Int.min_int64 <= seq t → seq (AllocTaskID t).1 = seq t + 1) ∧
  (AllocTaskID t).2 = currentNodeID t +:+ "-" +:+ pretty (seq (AllocTaskID t).1) ∧
  NoDup (allocTaskIDs n t).2.
Proof.
  split; [done|]. split; [|split; [done|]].
  - intros Hhi Hlo. simpl. unfold Int.inc64, Int.wrap64, Int.max_int64, Int.min_int64 in *.
    rewrite Z.mod_small; lia.
  - apply NoDup_alt. intros i j id Hi Hj.
    apply allocTaskIDs_lookup in Hi as [Hi Hin], Hj as [Hj Hjn].
    rewrite Hi in Hj. apply taskIDFormat_inj in Hj.
    apply wrap64_inj_near in Hj; lia.
Qed.

End AllocTaskID.

Lemma C9_AllocTaskID_unique_witness :
  Z.of_nat 3 <= 2 ^ 64 ∧
  (@allocTaskIDs Mock.collaborators 3 Mock.manager).2 = ["broker-1"; "broker-2"; "broker-3"] ∧
  NoDup (@allocTaskIDs Mock.collaborators 3 Mock.manager).2.
Proof.
  split; [lia|]. split; [reflexivity|].
  apply (@C9_AllocTaskID_unique Mock.collaborators Mock.manager 3). lia.
Defined.

(** ** Routing of incoming responses *)

Section ReceiveProps.
Context `{Collaborators}.

(** C6. [Receive] for a task id that is not in the task table counts the
    response as omitted, returns an error and leaves the table, the context
    objects and the worker pool as they were.  For a task id that is in the
    table it counts the response as emitted, returns no error and hands the
    response, with the context found, to the worker pool; the context is
    not written by [Receive] but later, when a worker runs the closure. *)
Theorem C6_Receive (resp : TaskResponse) (targetNode : string) (t : taskManager) :
  let t' := (Receive resp targetNode t).1 in
  let err := (Receive resp targetNode t).2 in
  tasks t' = tasks t ∧ heap t' = heap t ∧
  match tasks t !! TaskID resp with
  | None =>
      OmitResponse (statistics t') = OmitResponse (statistics t) + 1 ∧
      EmitResponse (statistics t') = EmitResponse (statistics t) ∧
      err = Some (errors_New ("TaskID: " +:+ TaskID resp +:+ " may be evicted")) ∧
      workerPool t' = workerPool t
  | Some taskCtx =>
      EmitResponse (statistics t') = EmitResponse (statistics t) + 1 ∧
      OmitResponse (statistics t') = OmitResponse (statistics t) ∧
      err = None ∧
      let task := {| rt_taskCtx := taskCtx; rt_resp := resp; rt_targetNode := targetNode |} in
      workerPool t' = workerPool t ++ [task] ∧
      ∀ env c, heap t !! taskCtx = Some c →
        heap (runReceiveTask task env t') !! taskCtx = Some (WriteResponse resp targetNode env c)
  end.
Proof.
  unfold Receive, Get. destruct (tasks t !! TaskID resp) as [p|]; simpl; split_and!; try done.
  intros env c Hc. unfold runReceiveTask. simpl. rewrite Hc.
  assert (Hheap : ∀ t0, heap (evictTask (TaskID resp) t0) = heap t0).
  { intros t0. unfold evictTask. by destruct (tasks t0 !! TaskID resp). }
  destruct (Done _); rewrite ?Hheap; simpl;
    apply list_lookup_insert_eq, (lookup_lt_Some _ _ _ Hc).
Qed.

End ReceiveProps.

(** ** The leaf fan-out of [SubmitMetricTask] *)

Section LeafFanout.
Context `{Collaborators}.

(** C3 (as amended). In a submit that gets as far as the leaf fan-out (no
    intermediates, or every intermediate acknowledged), the channel of the
    new metric context is returned in every case.  The root task is evicted
    and a send error returned as soon as one leaf send fails, whether or not
    other sends succeed; the task stays in the table, and no error is
    returned, only when every leaf send succeeds. *)
Theorem C3_leaf_fanout (env : SubmitEnv) (plan : PhysicalPlan) (q : Query) (t : taskManager)
    (Hack : if negb (Nat.eqb (length (Intermediates plan)) 0)
            then (ensureIntermediateAckTasks (se_now_ms env) (se_wait env) plan
                    (intermediateRequest (AllocTaskID t).2 plan q) (AllocTaskID t).1).2 = None
            else True) :
  let rootTaskID := (AllocTaskID t).2 in
  let req := leafRequest (se_requestID env) rootTaskID plan q in
  let all_ok := forallb (send_ok (taskClientFactory t) req) (Leaves plan) in
  let r := SubmitMetricTask env plan q t in
  ∃ responseCh,
    r.1.2 = Some responseCh ∧
    heap r.1.1 !! responseCh =
      Some (MetricCtx (newMetricTaskContext (se_now_ms env) (se_now_ns env) rootTaskID
                         RootTask "" "" q (NumOfTask (plan_Root plan)) [])) ∧
    (all_ok = true → r.2 = None ∧ tasks r.1.1 !! rootTaskID = Some responseCh) ∧
    (all_ok = false → is_Some r.2 ∧ tasks r.1.1 !! rootTaskID = None).
Proof.
  unfold SubmitMetricTask.
  destruct (AllocTaskID t) as [t1 rootTaskID] eqn:Halloc. simpl in Hack. simpl.
  assert (Hf1 : taskClientFactory t1 = taskClientFactory t) by (by injection Halloc as <- _).
  set (ack := if negb (Nat.eqb (length (Intermediates plan)) 0)
              then ensureIntermediateAckTasks (se_now_ms env) (se_wait env) plan
                     (intermediateRequest rootTaskID plan q) t1
              else (t1, None)).
  assert (Hackres : ack.2 = None ∧ taskClientFactory ack.1 = taskClientFactory t).
  { subst ack. destruct (negb _).
    - split; [done|].
      destruct (ensureIntermediateAckTasks_spec (se_now_ms env) (se_wait env) plan
                  (intermediateRequest rootTaskID plan q) t1) as (_ & _ & -> & _). done.
    - done. }
  clearbody ack.
  destruct ack as [t2 ackErr]. simpl in Hackres. destruct Hackres as [-> Hf2].
  set (req := leafRequest _ _ _ _).
  set (taskCtx := MetricCtx _).
  destruct (fanout_spec (Leaves plan) req None (storeTask rootTaskID taskCtx t2))
    as (_ & Hs & Hall & Hsome).
  destruct (fanout (Leaves plan) req None (storeTask rootTaskID taskCtx t2))
    as [t3 sendError].
  simpl in Hs, Hall, Hsome. rewrite Hf2 in Hall, Hsome.
  destruct Hs as (_ & _ & _ & _ & Ht & Hh).
  assert (Hlookup : tasks t3 !! rootTaskID = Some (length (heap t2))).
  { rewrite Ht. simpl. apply lookup_insert_eq. }
  assert (Hheap : heap t3 !! length (heap t2) = Some taskCtx).
  { rewrite Hh. simpl. apply list_lookup_middle. done. }
  exists (length (heap t2)).
  destruct sendError as [e|]; simpl.
  - unfold evictTask. rewrite Hlookup. simpl. split_and!; [done|done| |].
    + intros Hok. by specialize (Hall Hok).
    + intros _. split; [done|]. apply lookup_delete_eq.
  - split_and!; [done|done|done|].
    intros Hbad. by destruct (Hsome Hbad).
Qed.

End LeafFanout.

(** Two leaves that both take the request: the task stays in the table. *)
Lemma C3_leaf_fanout_witness :
  let r := @SubmitMetricTask Mock.collaborators (Mock.submitEnv (AckEvent None))
             (Mock.plan 2 [] ["up"; "up2"]) tt Mock.manager in
  ∃ responseCh, r.1.2 = Some responseCh ∧ r.2 = None ∧
                tasks r.1.1 !! "broker-1" = Some responseCh.
Proof.
  intros r.
  destruct (@C3_leaf_fanout Mock.collaborators (Mock.submitEnv (AckEvent None))
              (Mock.plan 2 [] ["up"; "up2"]) tt Mock.manager I)
    as (responseCh & Hch & _ & Hok & _).
  destruct (Hok eq_refl) as [Herr Htask].
  exists responseCh. split; [exact Hch|]. split; [exact Herr|exact Htask].
Defined.

(** The claim fails as stated: of two leaves one takes the request and the
    other's stream fails; the root task is evicted and the send error is
    returned, together with the channel. *)
Lemma C3_counterexample :
  let r := @SubmitMetricTask Mock.collaborators (Mock.submitEnv (AckEvent None))
             (Mock.plan 2 [] ["up"; "down"]) tt Mock.manager in
  sc_outcome <$> wire r.1.1 = [SendOk; SendFailed] ∧
  r.2 = Some (Errorf_w "" ErrTaskSend ", targetNodeID: down") ∧
  r.1.2 = Some 0%nat ∧
  tasks r.1.1 !! "broker-1" = None ∧
  AliveTask (statistics r.1.1) = 0.
Proof. vm_compute. repeat split. Qed.

(** ** Intermediates acknowledge before leaves are asked *)

Section AckBeforeLeaves.
Context `{Collaborators}.

(** While the ack context still expects responses it has offered errors
    only: neither a nil value nor a close. *)
Lemma ack_writeAll_pending now_ms id ty (n : Z) (rs : list Arrival) :
  n <= Int.max_int32 →
  Z.of_nat (length rs) < n →
  let c := ack_writeAll rs (newIntermediateAckTaskContext now_ms id ty n []) in
  expectResults (ack_base c) = n - Z.of_nat (length rs) ∧
  closed (ack_base c) = false ∧
  Forall (λ op, ∃ ready err, op = offer ready (Some err)) (ack_eventCh c).
Proof.
  intros Hn. induction rs as [|a rs IH] using rev_ind; intros Hlen.
  { simpl. split_and!; [lia|done|constructor]. }
  rewrite length_app in Hlen. simpl in Hlen.
  destruct IH as (He & Hc & Hch); [lia|].
  cbv zeta. unfold ack_writeAll. rewrite fold_left_app. simpl.
  fold (ack_writeAll rs (newIntermediateAckTaskContext now_ms id ty n [])).
  set (c := ack_writeAll rs _) in *.
  unfold ack_WriteResponse, ack_deferred. simpl. rewrite Hc, He.
  rewrite dec32_no_underflow by (unfold Int.min_int32; lia).
  rewrite length_app. simpl length.
  replace (n - Z.of_nat (length rs) - 1 <=? 0) with false by lia.
  replace (0 <? n - Z.of_nat (length rs) - 1) with true by lia.
  destruct (negb (ErrMsg (a_resp a) =? "")%string); simpl.
  - split_and!; [lia|done|]. unfold try_send. apply Forall_app. split; [done|].
    apply Forall_singleton. eauto.
  - split_and!; [lia|done|done].
Qed.

(** The nil value is offered by the ack context only when as many
    responses have been written as it expected. *)
Lemma ack_nil_after_all now_ms id ty (n : nat) (rs : list Arrival) ready :
  Z.of_nat n <= Int.max_int32 →
  offer ready None ∈
    ack_eventCh
      (ack_writeAll rs
         (newIntermediateAckTaskContext now_ms id ty (Int.wrap32 (Z.of_nat n)) [])) →
  (n <= length rs)%nat.
Proof.
  intros Hmax Hin.
  destruct (decide (n <= length rs)%nat) as [|Hlt]; [done|].
  exfalso. rewrite wrap32_id in Hin by (unfold Int.in_int32, Int.min_int32; lia).
  destruct (ack_writeAll_pending now_ms id ty (Z.of_nat n) rs Hmax ltac:(lia))
    as (_ & _ & Hch).
  rewrite Forall_forall in Hch. destruct (Hch _ Hin) as (ready' & err & Heq).
  destruct ready, ready'; discriminate.
Qed.

(** The receive case of the [select] gets a value only if that value was
    delivered on the channel. *)
Lemma select_responseCh_event (ch : chan (option error)) (event : option error) :
  select_responseCh ch = AckEvent event → Sent event ∈ ch.
Proof.
  induction ch as [|op ch IH]; simpl; [done|].
  destruct op as [v|v|]; intros Heq.
  - injection Heq as ->. left.
  - right. by apply IH.
  - done.
Qed.

Lemma evictTask_keeps (id : string) (t : taskManager) :
  heap (evictTask id t) = heap t ∧
  workerPool (evictTask id t) = workerPool t ∧
  ∀ id' p, tasks (evictTask id t) !! id' = Some p → tasks t !! id' = Some p.
Proof.
  unfold evictTask. destruct (tasks t !! id) eqn:Hid; simpl; split_and!; try done.
  intros id' p Hlook. apply lookup_delete_Some in Hlook as [_ Hlook]. done.
Qed.

(** One response received while the ack context is stored at [p] and
    registered under [id] only: it is written to that context if it carries
    the id and the id is still registered, and leaves the context alone
    otherwise. *)
Lemma deliver_written (id : string) (p : ptr) (a : Arrival) (t : taskManager)
    (c : intermediateAckTaskContext) :
  workerPool t = [] →
  heap t !! p = Some (AckCtx c) →
  (∀ id', tasks t !! id' = Some p → id' = id) →
  let t' := deliver a t in
  workerPool t' = [] ∧
  (∀ id', tasks t' !! id' = Some p → id' = id) ∧
  (heap t' !! p = Some (AckCtx c) ∨
   TaskID (a_resp a) = id ∧
   heap t' !! p = Some (AckCtx (ack_WriteResponse (a_resp a) (a_env a) c))).
Proof.
  intros Hpool Hp Hinj. cbv zeta. unfold deliver, Receive, Get.
  destruct (tasks t !! TaskID (a_resp a)) as [p'|] eqn:Hid; simpl.
  - rewrite Hpool. unfold runNext. simpl. unfold runReceiveTask. simpl.
    destruct (heap t !! p') as [c0|] eqn:Hp'; simpl.
    + set (t1 := with_heap _ _).
      assert (Ht1 : workerPool t1 = [] ∧ tasks t1 = tasks t ∧
                    heap t1 = <[p' := WriteResponse (a_resp a) (a_fromNode a) (a_env a) c0]>
                                (heap t)) by done.
      destruct Ht1 as (Hpool1 & Htasks1 & Hheap1).
      assert (Hafter : ∀ t2, (t2 = t1 ∨ t2 = evictTask (TaskID (a_resp a)) t1) →
                workerPool t2 = [] ∧
                (∀ id', tasks t2 !! id' = Some p → id' = id) ∧
                heap t2 = heap t1).
      { intros t2 [->| ->].
        - split_and!; [done| |done]. intros id'. rewrite Htasks1. apply Hinj.
        - destruct (evictTask_keeps (TaskID (a_resp a)) t1) as (-> & -> & Hsub).
          split_and!; [done| |done]. intros id' Hlook. apply Hinj.
          rewrite <- Htasks1. by apply Hsub. }
      assert (Hres : workerPool (if Done (WriteResponse (a_resp a) (a_fromNode a) (a_env a) c0)
                                 then evictTask (TaskID (a_resp a)) t1 else t1) = [] ∧
                     (∀ id', tasks (if Done (WriteResponse (a_resp a) (a_fromNode a)
                                               (a_env a) c0)
                                    then evictTask (TaskID (a_resp a)) t1 else t1) !! id'
                               = Some p → id' = id) ∧
                     heap (if Done (WriteResponse (a_resp a) (a_fromNode a) (a_env a) c0)
                           then evictTask (TaskID (a_resp a)) t1 else t1) = heap t1).
      { destruct (Done _); apply Hafter; auto. }
      destruct Hres as (Hpool2 & Hinj2 & Hheap2).
      split_and!; [done|done|]. rewrite Hheap2, Hheap1.
      destruct (decide (p' = p)) as [->|Hne].
      * right. split; [by apply Hinj|].
        rewrite Hp in Hp'. injection Hp' as <-. simpl.
        apply list_lookup_insert_eq. by eapply lookup_lt_Some.
      * left. by rewrite list_lookup_insert_ne.
    + split_and!; [done|done|by left].
  - unfold runNext. simpl. rewrite Hpool. split_and!; [done|done|by left].
Qed.

(** The responses received during the wait: those written to the ack
    context carry its task id, and nothing else is written to it. *)
Lemma deliverAll_written (id : string) (p : ptr) (acks : list Arrival) :
  ∀ (t : taskManager) (c : intermediateAckTaskContext),
  workerPool t = [] →
  heap t !! p = Some (AckCtx c) →
  (∀ id', tasks t !! id' = Some p → id' = id) →
  ∃ written,
    written `sublist_of` acks ∧
    Forall (λ a, TaskID (a_resp a) = id) written ∧
    heap (deliverAll acks t) !! p = Some (AckCtx (ack_writeAll written c)).
Proof.
  induction acks as [|a acks IH]; intros t c Hpool Hp Hinj.
  { exists []. split_and!; [done|constructor|done]. }
  destruct (deliver_written id p a t c Hpool Hp Hinj) as (Hpool1 & Hinj1 & [Hsame|[Hid Hnew]]).
  - destruct (IH (deliver a t) c Hpool1 Hsame Hinj1) as (written & Hsub & Hids & Hlook).
    exists written. split_and!; [by apply sublist_cons|done|done].
  - destruct (IH (deliver a t) _ Hpool1 Hnew Hinj1) as (written & Hsub & Hids & Hlook).
    exists (a :: written). split_and!; [by apply sublist_skip|by constructor|done].
Qed.

(** The manager at the [select] of [ensureIntermediateAckTasks]. *)
Lemma ackWaitState_spec (now_ms : Z) (wait : AckWait) (plan : PhysicalPlan)
    (req : TaskRequest) (t : taskManager) :
  let taskCtx :=
    newIntermediateAckTaskContext now_ms (req_ParentTaskID req) RootTask
      (Int.wrap32 (Z.of_nat (length (Intermediates plan)))) [] in
  let waiting := ackWaitState now_ms plan req t in
  heap waiting = heap t ++ [AckCtx taskCtx] ∧
  tasks waiting = <[req_ParentTaskID req := length (heap t)]> (tasks t) ∧
  workerPool waiting = workerPool t ∧
  (ensureIntermediateAckTasks now_ms wait plan req t).1
    = evictTask (req_ParentTaskID req) waiting.
Proof.
  cbv zeta. unfold ackWaitState, ensureIntermediateAckTasks.
  set (t0 := storeTask _ _ t).
  destruct (fanout_spec (Intermediates plan) req None t0) as (_ & Hs & _).
  destruct (fanout (Intermediates plan) req None t0) as [t1 sendError].
  simpl in Hs. destruct Hs as (_ & _ & _ & Hp & Ht & Hh).
  simpl. rewrite Hh, Ht, Hp. done.
Qed.

(** The calls of [SendRequest] made by a submit with intermediates, and
    its results when the acknowledgements did not all come. *)
Lemma SubmitMetricTask_with_intermediates (env : SubmitEnv) (plan : PhysicalPlan) (q : Query)
    (t : taskManager) (Hint : Intermediates plan ≠ []) :
  let f := taskClientFactory t in
  let rootTaskID := (AllocTaskID t).2 in
  let ireq := intermediateRequest rootTaskID plan q in
  let lreq := leafRequest (se_requestID env) rootTaskID plan q in
  let ack := (ensureIntermediateAckTasks (se_now_ms env) (se_wait env) plan ireq
                (AllocTaskID t).1).2 in
  let r := SubmitMetricTask env plan q t in
  wire r.1.1 = wire t ++ fanout_calls f (Intermediates plan) ireq ++
                         (if ack is None then fanout_calls f (Leaves plan) lreq else []) ∧
  (ack ≠ None → r.2 = ack ∧ r.1.2 = None ∧ tasks r.1.1 !! rootTaskID = None).
Proof.
  intros f rootTaskID ireq lreq ack r.
  assert (Hlen : negb (Nat.eqb (length (Intermediates plan)) 0) = true).
  { destruct (Intermediates plan); [done|reflexivity]. }
  subst r ack rootTaskID ireq lreq f.
  unfold SubmitMetricTask.
  destruct (AllocTaskID t) as [t1 rootTaskID] eqn:Halloc. simpl.
  assert (Hf1 : taskClientFactory t1 = taskClientFactory t) by (by injection Halloc as <- _).
  assert (Hw1 : wire t1 = wire t) by (by injection Halloc as <- _).
  rewrite Hlen.
  destruct (ensureIntermediateAckTasks_spec (se_now_ms env) (se_wait env) plan
              (intermediateRequest rootTaskID plan q) t1) as (Hw & Ht & Hf & _).
  rewrite Hf1 in Hw, Hf. rewrite Hw1 in Hw.
  destruct (ensureIntermediateAckTasks _ _ _ _ t1) as [t2 ackErr].
  simpl in Hw, Ht, Hf.
  destruct ackErr as [e|]; simpl.
  - (* the acknowledgements did not all come: nothing more is sent *)
    rewrite app_nil_r. split; [done|]. intros _. split_and!; [done|done|].
    rewrite Ht. apply lookup_delete_eq.
  - (* every intermediate acknowledged: the leaf fan-out follows *)
    set (lreq := leafRequest _ _ _ _).
    set (taskCtx := MetricCtx _).
    destruct (fanout_spec (Leaves plan) lreq None (storeTask rootTaskID taskCtx t2))
      as (Hw' & _).
    destruct (fanout (Leaves plan) lreq None (storeTask rootTaskID taskCtx t2))
      as [t3 sendError].
    simpl in Hw'. rewrite Hw, Hf, <- app_assoc in Hw'.
    assert (Hwire : wire (match sendError with
                          | Some err => (evictTask rootTaskID t3, Some (length (heap t2)), Some err)
                          | None => (t3, Some (length (heap t2)), None)
                          end).1.1 = wire t3).
    { destruct sendError; simpl; [|done]. unfold evictTask.
      destruct (tasks t3 !! rootTaskID); reflexivity. }
    rewrite Hwire. split; done.
Qed.

(** C2. A submit whose plan has intermediates, on a manager whose table
    points at stored contexts and whose pool is idle; [acks] are the
    responses that the manager receives and runs while the submit waits,
    and the outcome of the [select], which the submit takes as an input, is
    what the receive case gets from the channel of the ack context that the
    submit registered, or [ctx.Done()].

    The calls of [SendRequest] come in two rounds: first one request of
    type Intermediate per intermediate, then the requests of type Leaf; the
    calls of a round are handed to the worker pool and are stated up to
    their order.  [ensureIntermediateAckTasks] returns an error when a send
    to an intermediate failed, when the value received is an error, when the
    channel was closed before a value was received, and [ErrTimeout] when
    the context is done; it returns nil only when every send went through
    and the value received is nil.  When it returns an error, the submit
    returns that error with a nil channel, the ack context is no longer in
    the task table, and the second round is empty.

    So, if a request of type Leaf is sent at all, every request to an
    intermediate went out and the nil value was delivered on the channel of
    the registered ack context; that context had then been written as many
    responses as there are intermediates, at least, all of them received
    during the wait and carrying the task id of the submit.  The ack context
    counts responses and does not look at their sender: when the responses
    written to it come from intermediates of the plan, no two of them from
    the same node, every intermediate of the plan has answered. *)
Theorem C2_ack_before_leaves (env : SubmitEnv) (plan : PhysicalPlan) (q : Query)
    (t : taskManager) (acks : list Arrival)
    (Hint : Intermediates plan ≠ [])
    (Hmax : Z.of_nat (length (Intermediates plan)) <= Int.max_int32)
    (Hpool : workerPool t = [])
    (Hheap : ∀ id p, tasks t !! id = Some p → (p < length (heap t))%nat)
    (Hsel : se_wait env = CtxDone ∨
            se_wait env =
              select_responseCh
                (responseCh_log (length (heap t))
                   (deliverAll acks
                      (ackWaitState (se_now_ms env) plan
                         (intermediateRequest (AllocTaskID t).2 plan q) (AllocTaskID t).1)))) :
  let f := taskClientFactory t in
  let rootTaskID := (AllocTaskID t).2 in
  let ireq := intermediateRequest rootTaskID plan q in
  let lreq := leafRequest (se_requestID env) rootTaskID plan q in
  let taskCtx :=
    newIntermediateAckTaskContext (se_now_ms env) rootTaskID RootTask
      (Int.wrap32 (Z.of_nat (length (Intermediates plan)))) [] in
  let waiting := ackWaitState (se_now_ms env) plan ireq (AllocTaskID t).1 in
  let all_sent := forallb (send_ok f ireq) (Intermediates plan) in
  let ack := ensureIntermediateAckTasks (se_now_ms env) (se_wait env) plan ireq
               (AllocTaskID t).1 in
  let r := SubmitMetricTask env plan q t in
  (* the ack context that is registered during the wait *)
  tasks waiting !! rootTaskID = Some (length (heap t)) ∧
  heap waiting !! length (heap t) = Some (AckCtx taskCtx) ∧
  ack.1 = evictTask rootTaskID waiting ∧
  (* what [ensureIntermediateAckTasks] returns *)
  (all_sent = false → is_Some ack.2) ∧
  (all_sent = true →
     ack.2 = match se_wait env with
             | AckEvent event => event
             | AckClosed => Some (errors_New "missing acks from intermdiate nodes")
             | CtxDone => Some (Sentinel ErrTimeout)
             end) ∧
  (* the two rounds of requests *)
  ∃ icalls lcalls,
    wire r.1.1 = wire t ++ icalls ++ lcalls ∧
    icalls ≡ₚ fanout_calls f (Intermediates plan) ireq ∧
    Forall (λ c, is_intermediate_call c = true ∧ is_leaf_call c = false) icalls ∧
    (ack.2 = None → lcalls ≡ₚ fanout_calls f (Leaves plan) lreq) ∧
    (ack.2 ≠ None →
       lcalls = [] ∧ r.2 = ack.2 ∧ r.1.2 = None ∧ tasks r.1.1 !! rootTaskID = None) ∧
    (all_sent = true → se_wait env = CtxDone →
       r.2 = Some (Sentinel ErrTimeout) ∧ r.1.2 = None ∧
       tasks r.1.1 !! rootTaskID = None ∧
       Forall (λ c, is_leaf_call c = false) (icalls ++ lcalls)) ∧
    (∀ c, c ∈ icalls ++ lcalls → is_leaf_call c = true →
       all_sent = true ∧ se_wait env = AckEvent None ∧ ack.2 = None ∧
       ∃ written,
         written `sublist_of` acks ∧
         Forall (λ a, TaskID (a_resp a) = rootTaskID) written ∧
         heap (deliverAll acks waiting) !! length (heap t)
           = Some (AckCtx (ack_writeAll written taskCtx)) ∧
         Sent None ∈ ack_eventCh (ack_writeAll written taskCtx) ∧
         (length (Intermediates plan) <= length written)%nat ∧
         (NoDup (a_fromNode <$> written) →
          Forall (λ a, a_fromNode a ∈ Indicator <$> Intermediates plan) written →
          ∀ node, node ∈ Intermediates plan → Indicator node ∈ a_fromNode <$> written)).
Proof.
  intros f rootTaskID ireq lreq taskCtx waiting all_sent ack r.
  (* the manager after the id was allocated *)
  assert (Halloc : heap (AllocTaskID t).1 = heap t ∧ tasks (AllocTaskID t).1 = tasks t ∧
                   workerPool (AllocTaskID t).1 = workerPool t ∧
                   taskClientFactory (AllocTaskID t).1 = f) by done.
  destruct Halloc as (Hh1 & Ht1 & Hp1 & Hf1).
  destruct (ackWaitState_spec (se_now_ms env) (se_wait env) plan ireq (AllocTaskID t).1)
    as (Hwh & Hwt & Hwp & Hens).
  fold waiting in Hwh, Hwt, Hwp, Hens. fold ack in Hens.
  change (req_ParentTaskID ireq) with rootTaskID in Hwh, Hwt, Hens.
  fold taskCtx in Hwh. rewrite Hh1 in Hwh, Hwt. rewrite Ht1 in Hwt. rewrite Hp1, Hpool in Hwp.
  assert (Hreg : tasks waiting !! rootTaskID = Some (length (heap t))).
  { rewrite Hwt. apply lookup_insert_eq. }
  assert (Hctx : heap waiting !! length (heap t) = Some (AckCtx taskCtx)).
  { rewrite Hwh. by apply list_lookup_middle. }
  assert (Hinj : ∀ id', tasks waiting !! id' = Some (length (heap t)) → id' = rootTaskID).
  { intros id' Hlook. destruct (decide (id' = rootTaskID)) as [|Hne]; [done|exfalso].
    rewrite Hwt, lookup_insert_ne in Hlook by done.
    apply Hheap in Hlook. lia. }
  (* the result of the wait *)
  destruct (ensureIntermediateAckTasks_spec (se_now_ms env) (se_wait env) plan ireq
              (AllocTaskID t).1) as (_ & _ & _ & Hbad & Hok).
  rewrite Hf1 in Hbad, Hok. fold ack in Hbad, Hok. fold all_sent in Hbad, Hok.
  (* the submit *)
  destruct (SubmitMetricTask_with_intermediates env plan q t Hint) as (Hwire & Herr).
  fold f rootTaskID ireq lreq ack r in Hwire, Herr.
  assert (Hitype : Forall (λ c, is_intermediate_call c = true ∧ is_leaf_call c = false)
                     (fanout_calls f (Intermediates plan) ireq)).
  { eapply Forall_impl; [apply fanout_calls_type|]. intros c Hc.
    unfold is_intermediate_call, is_leaf_call. rewrite Hc. done. }
  split_and!; [done|done|done|done|done|].
  exists (fanout_calls f (Intermediates plan) ireq),
         (if ack.2 is None then fanout_calls f (Leaves plan) lreq else []).
  assert (Hnoleaf : ack.2 ≠ None →
            Forall (λ c, is_leaf_call c = false)
              (fanout_calls f (Intermediates plan) ireq ++
               (if ack.2 is None then fanout_calls f (Leaves plan) lreq else []))).
  { intros Hsome. destruct ack.2; [|done]. rewrite app_nil_r.
    eapply Forall_impl; [exact Hitype|]. by intros c [_ ?]. }
  split_and!; [done|done|done| | | |].
  - intros ->. done.
  - intros Hsome. destruct (Herr Hsome) as (? & ? & ?).
    split_and!; [|done|done|done]. by destruct ack.2.
  - intros Hall Hwait. specialize (Hok Hall). rewrite Hwait in Hok.
    assert (Hsome : ack.2 ≠ None) by (rewrite Hok; done).
    destruct (Herr Hsome) as (Hr & ? & ?). rewrite Hok in Hr.
    split_and!; [done|done|done|by apply Hnoleaf].
  - intros c Hin Hleaf.
    assert (Hnone : ack.2 = None).
    { destruct ack.2 as [e|] eqn:Hack; [exfalso|done].
      assert (Hsome : Some e ≠ None) by done.
      pose proof (Hnoleaf Hsome) as Hall. rewrite Forall_forall in Hall.
      rewrite (Hall c Hin) in Hleaf. done. }
    assert (Hall : all_sent = true).
    { destruct all_sent; [done|]. destruct (Hbad eq_refl) as [e He]. congruence. }
    assert (Hwait : se_wait env = AckEvent None).
    { specialize (Hok Hall). rewrite Hnone in Hok.
      destruct (se_wait env) as [event| |]; [by subst event|done|done]. }
    split_and!; [done|done|done|].
    destruct Hsel as [Hsel|Hsel]; [congruence|].
    rewrite Hwait in Hsel. symmetry in Hsel. apply select_responseCh_event in Hsel.
    fold rootTaskID ireq waiting in Hsel.
    destruct (deliverAll_written rootTaskID (length (heap t)) acks waiting taskCtx
                Hwp Hctx Hinj) as (written & Hsub & Hids & Hlook).
    unfold responseCh_log in Hsel. rewrite Hlook in Hsel.
    assert (Hcount : (length (Intermediates plan) <= length written)%nat).
    { apply (ack_nil_after_all (se_now_ms env) rootTaskID RootTask _ written true Hmax).
      exact Hsel. }
    exists written. split_and!; [done|done|done|done|done|].
    intros Hdistinct Hfrom node Hnode.
    assert (Hperm : a_fromNode <$> written ≡ₚ Indicator <$> Intermediates plan).
    { apply submseteq_length_Permutation.
      - apply NoDup_submseteq; [done|].
        intros x (a & -> & Ha)%list_elem_of_fmap.
        rewrite Forall_forall in Hfrom. by apply Hfrom.
      - rewrite !length_fmap. done. }
    rewrite Hperm. apply list_elem_of_fmap. eauto.
Qed.

End AckBeforeLeaves.

(** One intermediate and two leaves.  In the first run the intermediate
    takes the request and answers without error while the submit waits: the
    leaves are asked.  In the second it never answers and the context is
    cancelled during the wait. *)
Lemma C2_ack_before_leaves_witness :
  let plan := Mock.plan 1 ["up"] ["up"; "up2"] in
  let acked := @SubmitMetricTask Mock.collaborators (Mock.submitEnv (AckEvent None))
                 plan tt Mock.manager in
  let cancelled := @SubmitMetricTask Mock.collaborators (Mock.submitEnv CtxDone)
                     plan tt Mock.manager in
  (∃ icalls lcalls,
     wire acked.1.1 = icalls ++ lcalls ∧
     (req_Type ∘ sc_req) <$> icalls ≡ₚ [Some TaskType_Intermediate] ∧
     (req_Type ∘ sc_req) <$> lcalls ≡ₚ [Some TaskType_Leaf; Some TaskType_Leaf]) ∧
  (∃ written, written `sublist_of` [Mock.arrival "" []] ∧ (1 <= length written)%nat) ∧
  cancelled.2 = Some (Sentinel ErrTimeout) ∧
  cancelled.1.2 = None ∧
  tasks cancelled.1.1 !! "broker-1" = None ∧
  Forall (λ c, is_leaf_call c = false) (wire cancelled.1.1).
Proof.
  intros plan acked cancelled.
  assert (Hint : Intermediates plan ≠ []) by discriminate.
  assert (Hmax : Z.of_nat (length (Intermediates plan)) <= Int.max_int32)
    by (vm_compute; discriminate).
  assert (Hheap : ∀ (id : string) (p : ptr),
            tasks Mock.manager !! id = Some p → (p < length (heap Mock.manager))%nat)
    by (intros id p Hlook; discriminate Hlook).
  destruct (@C2_ack_before_leaves Mock.collaborators (Mock.submitEnv (AckEvent None))
              plan tt Mock.manager [Mock.arrival "" []] Hint Hmax eq_refl Hheap
              (or_intror eq_refl))
    as (_ & _ & _ & _ & Hack & icalls & lcalls & Hwire & Hi & _ & Hl & _ & _ & Hleaf).
  destruct (@C2_ack_before_leaves Mock.collaborators (Mock.submitEnv CtxDone)
              plan tt Mock.manager [] Hint Hmax eq_refl Hheap (or_introl eq_refl))
    as (_ & _ & _ & _ & _ & icalls' & lcalls' & Hwire' & _ & _ & _ & _ & Hcancel & _).
  destruct (Hcancel eq_refl eq_refl) as (Herr & Hch & Htask & Hnoleaf).
  split; [|split; [|split; [exact Herr|split; [exact Hch|split; [exact Htask|]]]]].
  - exists icalls, lcalls. split; [exact Hwire|].
    split; [rewrite Hi; reflexivity|].
    rewrite (Hl (Hack eq_refl)). reflexivity.
  - pose proof (Hl (Hack eq_refl)) as Hperm.
    destruct (Hleaf (sendCall "up" (@leafRequest Mock.collaborators "req-1" "broker-1" plan tt)
                           SendOk))
      as (_ & _ & _ & written & Hsub & _ & _ & _ & Hcount & _).
    + apply elem_of_app. right. rewrite Hperm. left.
    + reflexivity.
    + exists written. split; [exact Hsub|exact Hcount].
  - fold cancelled in Hwire'. rewrite Hwire'. exact Hnoleaf.
Defined.

(** * Further properties of the code *)

(** ** Counting down to [Done] *)

Section DoneAfterExpected.
Context `{Collaborators}.

(** A context of any kind that expects [k >= 1] responses is not done
    while fewer than [k] have been written and is done from the [k]-th on,
    whatever the responses contain: errors, results that do not decode and
    responses dropped because the channel is closed all count. *)
Theorem Done_after_expected (c : TaskContext) (rs : list Arrival)
    (Hk : 1 <= expectResults (ctx_base c) <= Int.max_int32)
    (Hlen : Z.of_nat (length rs) <= Int.max_int32) :
  Done (writeAll rs c) = (expectResults (ctx_base c) <=? Z.of_nat (length rs)).
Proof.
  unfold Done, base_Done. rewrite writeAll_expectResults.
  - destruct (expectResults (ctx_base c) <=? Z.of_nat (length rs)) eqn:Hcmp; lia.
  - unfold Int.min_int32, Int.max_int32 in *. lia.
Qed.

End DoneAfterExpected.

Lemma Done_after_expected_witness :
  let c := MetricCtx (Mock.metricCtx 2) in
  Done (writeAll [Mock.arrival "boom" []] c) = false ∧
  Done (writeAll [Mock.arrival "boom" []; Mock.arrival "" [Byte.xff]] c) = true.
Proof.
  intros c. split.
  - rewrite (@Done_after_expected Mock.collaborators c [Mock.arrival "boom" []]);
      [reflexivity | vm_compute; split; discriminate | vm_compute; discriminate].
  - rewrite (@Done_after_expected Mock.collaborators c
               [Mock.arrival "boom" []; Mock.arrival "" [Byte.xff]]);
      [reflexivity | vm_compute; split; discriminate | vm_compute; discriminate].
Defined.

(** ** Expiry *)

Section Expiry.
Context `{Collaborators}.

(** For clock readings at or after the creation of the context, in
    milliseconds since the epoch: the context is expired exactly when it is
    older than the ttl; it is not expired at the instant of its creation
    for a ttl that is not negative; and once expired it stays expired as
    the clock advances. *)
Theorem Expired_by_age (c : TaskContext) (ttl_ms now_ms later_ms : Z)
    (Hcreate : 0 <= createTime (ctx_base c))
    (Hnow : createTime (ctx_base c) <= now_ms)
    (Hlater : now_ms <= later_ms <= Int.max_int64) :
  (Expired now_ms ttl_ms c = true ↔ ttl_ms < now_ms - createTime (ctx_base c)) ∧
  (0 <= ttl_ms → Expired (createTime (ctx_base c)) ttl_ms c = false) ∧
  (Expired now_ms ttl_ms c = true → Expired later_ms ttl_ms c = true).
Proof.
  unfold Expired, base_Expired.
  assert (Hwrap : ∀ z, 0 <= z <= Int.max_int64 → Int.wrap64 z = z).
  { intros z Hz. unfold Int.wrap64, Int.max_int64 in *. rewrite Z.mod_small; lia. }
  rewrite !Hwrap by (unfold Int.max_int64 in *; lia).
  split_and!.
  - apply Z.ltb_lt.
  - intros Httl. apply Z.ltb_ge. lia.
  - rewrite !Z.ltb_lt. lia.
Qed.

End Expiry.

Lemma Expired_by_age_witness :
  let c := MetricCtx (@newMetricTaskContext Mock.collaborators 1000 0 "broker-1" RootTask "" ""
                        tt 1 []) in
  Expired 1050 50 c = false ∧ Expired 1051 50 c = true ∧ Expired 2000 50 c = true.
Proof.
  intros c.
  destruct (@Expired_by_age Mock.collaborators c 50 1051 2000) as (Hiff & _ & Hmono).
  - vm_compute. discriminate.
  - vm_compute. discriminate.
  - vm_compute. split; discriminate.
  - split; [reflexivity|]. split; [apply Hiff; reflexivity | apply Hmono, Hiff; reflexivity].
Defined.

(** ** A whole run of the ack context and of the metadata context *)

Section AckRun.
Context `{Collaborators}.

Lemma ack_writeAll_snoc (rs : list Arrival) (a : Arrival) (c : intermediateAckTaskContext) :
  ack_writeAll (rs ++ [a]) c = ack_WriteResponse (a_resp a) (a_env a) (ack_writeAll rs c).
Proof. unfold ack_writeAll. by rewrite fold_left_app. Qed.

Lemma ack_error_offers_snoc (rs : list Arrival) (a : Arrival) :
  ack_error_offers (rs ++ [a]) =
  ack_error_offers rs ++
    (if String.eqb (ErrMsg (a_resp a)) "" then []
     else [offer (receiver_ready (a_env a)) (Some (errors_New (ErrMsg (a_resp a))))]).
Proof.
  unfold ack_error_offers. rewrite omap_app. f_equal. simpl.
  by destruct (String.eqb (ErrMsg (a_resp a)) "").
Qed.

(** While responses are still expected, the channel holds the errors
    reported so far and nothing else. *)
Lemma ack_writeAll_prefix now_ms id ty (k : Z) (pre : list Arrival) :
  k <= Int.max_int32 →
  Z.of_nat (length pre) < k →
  let c := ack_writeAll pre (newIntermediateAckTaskContext now_ms id ty k []) in
  expectResults (ack_base c) = k - Z.of_nat (length pre) ∧
  closed (ack_base c) = false ∧
  ack_eventCh c = ack_error_offers pre.
Proof.
  intros Hk. induction pre as [|a pre IH] using rev_ind; intros Hlen.
  { simpl. split_and!; [lia|done|done]. }
  rewrite length_app in Hlen. simpl in Hlen.
  destruct IH as (He & Hc & Hch); [lia|].
  cbv zeta. rewrite ack_writeAll_snoc, ack_error_offers_snoc, length_app. simpl length.
  set (c := ack_writeAll pre _) in *.
  unfold ack_WriteResponse, ack_deferred. simpl. rewrite Hc, He.
  rewrite dec32_no_underflow by (unfold Int.min_int32; lia).
  replace (k - Z.of_nat (length pre) - 1 <=? 0) with false by lia.
  replace (0 <? k - Z.of_nat (length pre) - 1) with true by lia.
  destruct (String.eqb (ErrMsg (a_resp a)) ""); simpl.
  - rewrite app_nil_r. split_and!; [lia|done|done].
  - unfold try_send. rewrite Hch. split_and!; [lia|done|done].
Qed.

(** The ack context of [k >= 1] intermediates, over the [k] responses it
    expects: every response that reports an error has that error offered
    when it arrives; the last response has its error offered, or nil if it
    reports none; then the channel is closed.  No nil is offered before the
    last response, and nothing is offered for an earlier response without
    error. *)
Theorem ack_run now_ms id ty (k : Z) (pre : list Arrival) (last : Arrival)
    (Hk : 1 <= k <= Int.max_int32)
    (Hlen : Z.of_nat (length (pre ++ [last])) = k) :
  let c := ack_writeAll (pre ++ [last]) (newIntermediateAckTaskContext now_ms id ty k []) in
  ack_eventCh c =
    ack_error_offers pre ++
    [offer (receiver_ready (a_env last))
       (if String.eqb (ErrMsg (a_resp last)) "" then None
        else Some (errors_New (ErrMsg (a_resp last))));
     Closed] ∧
  closed (ack_base c) = true ∧
  expectResults (ack_base c) = 0.
Proof.
  rewrite length_app in Hlen. simpl in Hlen.
  destruct (ack_writeAll_prefix now_ms id ty k pre) as (He & Hc & Hch); [lia|lia|].
  cbv zeta. rewrite ack_writeAll_snoc.
  set (c := ack_writeAll pre _) in *.
  unfold ack_WriteResponse, ack_deferred. simpl. rewrite Hc, He.
  rewrite dec32_no_underflow by (unfold Int.min_int32; lia).
  replace (k - Z.of_nat (length pre) - 1 <=? 0) with true by lia.
  replace (0 <? k - Z.of_nat (length pre) - 1) with false by lia.
  destruct (String.eqb (ErrMsg (a_resp last)) ""); simpl;
    unfold try_send, close; rewrite Hch, <- app_assoc; simpl; split_and!; try done; lia.
Qed.

End AckRun.

Lemma ack_run_witness :
  let c := @ack_writeAll
             [Mock.arrival "no such database" []; Mock.arrival "" []; Mock.arrival "" []]
             (newIntermediateAckTaskContext 0 "broker-1" RootTask 3 []) in
  ack_eventCh c = [Sent (Some (errors_New "no such database")); Sent None; Closed].
Proof.
  intros c.
  destruct (@ack_run 0 "broker-1" RootTask 3
              [Mock.arrival "no such database" []; Mock.arrival "" []] (Mock.arrival "" []))
    as (Hch & _).
  - unfold Int.max_int32. lia.
  - reflexivity.
  - exact Hch.
Defined.

Section MetaDataRun.
Context `{Collaborators}.

Lemma md_writeAll_snoc (rs : list Arrival) (a : Arrival) (c : metaDataTaskContext) :
  md_writeAll (rs ++ [a]) c = md_WriteResponse (a_resp a) (a_env a) (md_writeAll rs c).
Proof. unfold md_writeAll. by rewrite fold_left_app. Qed.

(** While responses are still expected, each response that arrived has
    been offered once, in arrival order, and the channel is open. *)
Lemma md_writeAll_prefix now_ms id ty pid pnode (k : Z) (pre : list Arrival) :
  k <= Int.max_int32 →
  Z.of_nat (length pre) < k →
  let c := md_writeAll pre (newMetaDataTaskContext now_ms id ty pid pnode k []) in
  expectResults (md_base c) = k - Z.of_nat (length pre) ∧
  closed (md_base c) = false ∧
  taskResponseCh c = map (λ a, offer (receiver_ready (a_env a)) (a_resp a)) pre.
Proof.
  intros Hk. induction pre as [|a pre IH] using rev_ind; intros Hlen.
  { simpl. split_and!; [lia|done|done]. }
  rewrite length_app in Hlen. simpl in Hlen.
  destruct IH as (He & Hc & Hch); [lia|].
  cbv zeta. rewrite md_writeAll_snoc, map_app, length_app. simpl length. simpl map.
  set (c := md_writeAll pre _) in *.
  destruct (md_WriteResponse_open (a_resp a) (a_env a) c Hc) as (Hch' & Hc').
  rewrite Hch', Hc', Hch, He.
  rewrite dec32_no_underflow by (unfold Int.min_int32; lia).
  replace (k - Z.of_nat (length pre) - 1 <=? 0) with false by lia.
  rewrite andb_false_r.
  destruct (md_WriteResponse_shape (a_resp a) (a_env a) c) as (He' & _).
  rewrite He', He, dec32_no_underflow by (unfold Int.min_int32; lia).
  split_and!; [lia|done|done].
Qed.

(** The metadata context of [k >= 1] expected responses, over the [k]
    responses it expects: each response is offered once, in arrival order,
    taken or dropped as a receiver is waiting or not; the channel is closed
    after the last one if that one was taken, and left open if it was
    dropped. *)
Theorem md_run now_ms id ty pid pnode (k : Z) (pre : list Arrival) (last : Arrival)
    (Hk : 1 <= k <= Int.max_int32)
    (Hlen : Z.of_nat (length (pre ++ [last])) = k) :
  let c := md_writeAll (pre ++ [last]) (newMetaDataTaskContext now_ms id ty pid pnode k []) in
  taskResponseCh c =
    map (λ a, offer (receiver_ready (a_env a)) (a_resp a)) (pre ++ [last]) ++
    (if receiver_ready (a_env last) then [Closed] else []) ∧
  closed (md_base c) = receiver_ready (a_env last) ∧
  base_Done (md_base c) = true.
Proof.
  rewrite length_app in Hlen. simpl in Hlen.
  destruct (md_writeAll_prefix now_ms id ty pid pnode k pre) as (He & Hc & Hch); [lia|lia|].
  cbv zeta. rewrite md_writeAll_snoc, map_app. simpl map.
  set (c := md_writeAll pre _) in *.
  destruct (md_WriteResponse_open (a_resp last) (a_env last) c Hc) as (Hch' & Hc').
  destruct (md_WriteResponse_shape (a_resp last) (a_env last) c) as (He' & _).
  unfold base_Done. rewrite Hch', Hc', Hch, He', He.
  rewrite dec32_no_underflow by (unfold Int.min_int32; lia).
  replace (k - Z.of_nat (length pre) - 1 <=? 0) with true by lia.
  rewrite andb_true_r, <- app_assoc. simpl. split_and!; done.
Qed.

End MetaDataRun.

Lemma md_run_witness :
  let r1 := Mock.response "" [Byte.x01] in
  let r2 := Mock.response "" [Byte.x02] in
  taskResponseCh
    (@md_writeAll [Mock.arrival "" [Byte.x01]; Mock.arrival "" [Byte.x02]]
       (newMetaDataTaskContext 0 "broker-1" RootTask "" "" 2 []))
  = [Sent r1; Sent r2; Closed].
Proof.
  intros r1 r2.
  destruct (@md_run 0 "broker-1" RootTask "" "" 2 [Mock.arrival "" [Byte.x01]]
              (Mock.arrival "" [Byte.x02])) as (Hch & _).
  - unfold Int.max_int32. lia.
  - reflexivity.
  - exact Hch.
Defined.

(** ** The metric context: specs, aggregation, statistics, errors *)

Section MetricData.
Context `{Collaborators}.

Implicit Types (c : metricTaskContext) (resp : TaskResponse) (env : Env).

(** What [handleTaskResponse] does with a response without error whose
    payload decodes to a list with aggregator specs. *)
Lemma handleTaskResponse_decoded resp fromNode env c tsList :
  ErrMsg resp = "" →
  Unmarshal (Payload resp) = Ok tsList →
  FieldAggSpecs tsList ≠ [] →
  let c1 := (handleTaskResponse resp fromNode env c).1 in
  (handleTaskResponse resp fromNode env c).2 = None ∧
  aggregatorSpecs c1 =
    fold_left (λ m spec, <[FieldName spec := spec]> m) (FieldAggSpecs tsList)
              (aggregatorSpecs c) ∧
  groupAgg c1 =
    Some (aggregateSeries (TimeSeriesList_ tsList)
            (match groupAgg c with
             | Some g => g
             | None => newGroupingAgg (Query_Interval (stmtQuery c)) 1
                         (Query_TimeRange (stmtQuery c))
                         (buildAggregatorSpecs (FieldAggSpecs tsList))
             end)) ∧
  stmtQuery c1 = stmtQuery c ∧
  tolerantNotFounds c1 = tolerantNotFounds c.
Proof.
  intros Herr Hdec Hspecs.
  assert (Hstats : groupAgg (handleStats resp fromNode c) = groupAgg c ∧
                   aggregatorSpecs (handleStats resp fromNode c) = aggregatorSpecs c ∧
                   stmtQuery (handleStats resp fromNode c) = stmtQuery c ∧
                   tolerantNotFounds (handleStats resp fromNode c) = tolerantNotFounds c).
  { unfold handleStats. repeat case_match; done. }
  destruct Hstats as (Hg & Ha & Hq & Ht).
  cbv zeta. unfold handleTaskResponse, checkError. rewrite Herr. simpl. rewrite Hdec.
  destruct (FieldAggSpecs tsList) as [|spec specs] eqn:Hs; [done|].
  simpl length. simpl Nat.eqb. cbv iota.
  set (c2 := with_groupAgg _ _).
  assert (Hd : groupAgg (handle_deferred env c2) = groupAgg c2 ∧
               aggregatorSpecs (handle_deferred env c2) = aggregatorSpecs c2 ∧
               stmtQuery (handle_deferred env c2) = stmtQuery c2 ∧
               tolerantNotFounds (handle_deferred env c2) = tolerantNotFounds c2).
  { unfold handle_deferred. case_match; done. }
  cbn [fst snd]. destruct Hd as (-> & -> & -> & ->). subst c2. simpl.
  rewrite Hg, Ha, Hq, Ht. done.
Qed.

Lemma fold_insert_specs_snoc (specs : list AggregatorSpec) (spec : AggregatorSpec)
    (m : gmap string AggregatorSpec) :
  fold_left (λ m spec, <[FieldName spec := spec]> m) (specs ++ [spec]) m =
  <[FieldName spec := spec]> (fold_left (λ m spec, <[FieldName spec := spec]> m) specs m).
Proof. by rewrite fold_left_app. Qed.

Lemma fold_insert_specs_lookup (specs : list AggregatorSpec) (m : gmap string AggregatorSpec)
    (name : string) :
  fold_left (λ m spec, <[FieldName spec := spec]> m) specs m !! name =
  match last (filter (λ spec, FieldName spec = name) specs) with
  | Some spec => Some spec
  | None => m !! name
  end.
Proof.
  induction specs as [|spec specs IH] using rev_ind; [done|].
  rewrite fold_insert_specs_snoc, filter_app.
  destruct (decide (FieldName spec = name)) as [Heq|Hne].
  - rewrite filter_cons_True, filter_nil by done. rewrite last_snoc.
    subst name. apply lookup_insert_eq.
  - rewrite filter_cons_False, filter_nil, app_nil_r by done.
    rewrite lookup_insert_ne by done. apply IH.
Qed.

(** The aggregator specs registered by a response: for every field name,
    the last spec of the response with that name, and the spec the context
    had before when the response has none for it.  Specs are never
    removed. *)
Theorem aggregatorSpecs_last_writer_wins resp fromNode env c tsList (name : string)
    (Herr : ErrMsg resp = "")
    (Hdec : Unmarshal (Payload resp) = Ok tsList)
    (Hspecs : FieldAggSpecs tsList ≠ []) :
  aggregatorSpecs (handleTaskResponse resp fromNode env c).1 !! name =
  match last (filter (λ spec, FieldName spec = name) (FieldAggSpecs tsList)) with
  | Some spec => Some spec
  | None => aggregatorSpecs c !! name
  end.
Proof.
  destruct (handleTaskResponse_decoded resp fromNode env c tsList Herr Hdec Hspecs)
    as (_ & -> & _).
  apply fold_insert_specs_lookup.
Qed.

(** Without a series that lacks field data, the loop aggregates every
    series, in order. *)
Lemma aggregateSeries_all (tsList : list TimeSeries) : ∀ g : GroupingAggregator,
  Forall (λ ts, size (Fields ts) ≠ 0%nat) tsList →
  aggregateSeries tsList g =
  fold_left (λ g ts, Aggregate (NewGroupedIterator (Tags ts) (Fields ts)) g) tsList g.
Proof.
  induction tsList as [|ts rest IH]; intros g Hall; [done|].
  apply Forall_cons in Hall as [Hts Hrest]. simpl.
  apply Nat.eqb_neq in Hts. rewrite Hts. by apply IH.
Qed.

End MetricData.

Lemma aggregatorSpecs_last_writer_wins_witness :
  let c := Mock.metricCtx 2 in
  let resp := Mock.response "" [Byte.x01] in
  aggregatorSpecs (handleTaskResponse resp "leaf" (Mock.env true) c).1 !! "f"
    = Some Mock.spec_f ∧
  aggregatorSpecs (handleTaskResponse resp "leaf" (Mock.env true) c).1 !! "g" = None.
Proof.
  intros c resp. split.
  - rewrite (@aggregatorSpecs_last_writer_wins Mock.collaborators resp "leaf" (Mock.env true) c
               {| TimeSeriesList_ := [Mock.series_of Byte.x01]; FieldAggSpecs := [Mock.spec_f] |}
               "f"); [reflexivity|reflexivity|reflexivity|discriminate].
  - rewrite (@aggregatorSpecs_last_writer_wins Mock.collaborators resp "leaf" (Mock.env true) c
               {| TimeSeriesList_ := [Mock.series_of Byte.x01]; FieldAggSpecs := [Mock.spec_f] |}
               "g"); [reflexivity|reflexivity|reflexivity|discriminate].
Defined.

Section DataRun.
Context `{Collaborators}.

Variables (now_ms now_ns : Z) (id : string) (ty : TaskType) (pid pnode : string) (q : Query).

Lemma run_series_snoc (pre : list Arrival) (a : Arrival) (tsList : TimeSeriesList) :
  Unmarshal (Payload (a_resp a)) = Ok tsList →
  run_series (pre ++ [a]) = run_series pre ++ TimeSeriesList_ tsList.
Proof.
  intros Hdec. unfold run_series. rewrite map_app, concat_app. simpl.
  by rewrite Hdec, app_nil_r.
Qed.

Lemma run_groupAgg_snoc (pre : list Arrival) (a : Arrival) (tsList : TimeSeriesList) :
  Unmarshal (Payload (a_resp a)) = Ok tsList →
  Forall (λ ts, size (Fields ts) ≠ 0%nat) (TimeSeriesList_ tsList) →
  run_groupAgg q (pre ++ [a]) =
  Some (aggregateSeries (TimeSeriesList_ tsList)
          (match run_groupAgg q pre with
           | Some g => g
           | None => newGroupingAgg (Query_Interval q) 1 (Query_TimeRange q)
                       (buildAggregatorSpecs (FieldAggSpecs tsList))
           end)).
Proof.
  intros Hdec Hall. rewrite aggregateSeries_all by done.
  destruct pre as [|a0 pre]; simpl.
  - unfold run_series. simpl. by rewrite Hdec, app_nil_r.
  - f_equal. change (a0 :: pre ++ [a]) with ((a0 :: pre) ++ [a]).
    rewrite (run_series_snoc _ _ _ Hdec), fold_left_app. done.
Qed.

(** The state of a run of data responses while more are expected. *)
Lemma data_run_prefix (k : Z) (pre : list Arrival) :
  k <= Int.max_int32 →
  Z.of_nat (length pre) < k →
  Forall (λ a, is_data (a_resp a)) pre →
  let c := metric_writeAll pre (newMetricTaskContext now_ms now_ns id ty pid pnode q k []) in
  expectResults (base c) = k - Z.of_nat (length pre) ∧
  closed (base c) = false ∧
  eventCh c = [] ∧
  stmtQuery c = q ∧
  groupAgg c = run_groupAgg q pre.
Proof.
  intros Hk. induction pre as [|a pre IH] using rev_ind; intros Hlen Hall.
  { simpl. split_and!; try done; lia. }
  rewrite length_app in Hlen. simpl in Hlen.
  apply Forall_app in Hall as [Hall Ha]. rewrite Forall_singleton in Ha.
  destruct Ha as (Herr & tsList & Hdec & Hspecs & Hfields).
  destruct IH as (He & Hc & Hch & Hq & Hg); [lia|done|].
  cbv zeta. rewrite metric_writeAll_snoc, length_app. simpl length.
  set (c := metric_writeAll pre _) in *.
  destruct (handleTaskResponse_decoded (a_resp a) (a_fromNode a) (a_env a) (metric_decrement c)
              tsList Herr Hdec Hspecs) as (Hres & _ & Hg1 & Hq1 & _).
  destruct (handleTaskResponse (a_resp a) (a_fromNode a) (a_env a) (metric_decrement c))
    as [c1 res] eqn:Hh.
  simpl in Hres, Hg1, Hq1. subst res.
  destruct (metric_WriteResponse_pending _ _ _ _ _ Hc ltac:(lia) Hh) as (-> & Hb & Hch1).
  rewrite Hb, Hch1, Hg1, Hq1, Hq, Hg, (run_groupAgg_snoc pre a tsList Hdec Hfields).
  simpl. split_and!; try done; lia.
Qed.

(** A metric context receives the [k >= 1] responses it expects, each one
    without error, with aggregator specs and with field data in every
    series.  Then one grouping aggregator is built, from the specs of the
    first response, with interval ratio 1 and the interval and time range of
    the query; the series of all responses are aggregated into it in arrival
    order; and the only event of the run, offered just before the channel is
    closed, carries its result set and no error. *)
Theorem data_run_aggregates_in_order (k : Z) (rs : list Arrival)
    (Hk : 1 <= k <= Int.max_int32)
    (Hlen : Z.of_nat (length rs) = k)
    (Hdata : Forall (λ a, is_data (a_resp a)) rs) :
  let c' := metric_writeAll rs (newMetricTaskContext now_ms now_ns id ty pid pnode q k []) in
  let g := fold_left aggregate_one (run_series rs)
             (newGroupingAgg (Query_Interval q) 1 (Query_TimeRange q)
                (buildAggregatorSpecs (first_specs rs))) in
  groupAgg c' = Some g ∧
  ∃ ready ev,
    eventCh c' = [offer ready ev; Closed] ∧
    Err ev = None ∧
    SeriesList ev = Some (ResultSet g) ∧
    AggregatorSpecs ev = Some (aggregatorSpecs c').
Proof.
  destruct rs as [|a0 rs0] using rev_ind; [simpl in Hlen; lia|]. clear IHrs0.
  rename a0 into a, rs0 into pre.
  rewrite length_app in Hlen. simpl in Hlen.
  pose proof Hdata as Hall. apply Forall_app in Hall as [Hpre Ha].
  rewrite Forall_singleton in Ha.
  destruct Ha as (Herr & tsList & Hdec & Hspecs & Hfields).
  destruct (data_run_prefix k pre) as (He & Hc & Hch & Hq & Hg); [lia|lia|done|].
  assert (Hrun : run_groupAgg q (pre ++ [a]) =
                 Some (fold_left aggregate_one (run_series (pre ++ [a]))
                         (newGroupingAgg (Query_Interval q) 1 (Query_TimeRange q)
                            (buildAggregatorSpecs (first_specs (pre ++ [a])))))).
  { by destruct pre. }
  cbv zeta. rewrite metric_writeAll_snoc.
  set (c := metric_writeAll pre _) in *.
  destruct (handleTaskResponse_decoded (a_resp a) (a_fromNode a) (a_env a) (metric_decrement c)
              tsList Herr Hdec Hspecs) as (Hres & _ & Hg1 & Hq1 & _).
  destruct (handleTaskResponse (a_resp a) (a_fromNode a) (a_env a) (metric_decrement c))
    as [c1 res] eqn:Hh.
  simpl in Hres, Hg1, Hq1. subst res.
  rewrite Hq, Hg, <- (run_groupAgg_snoc pre a tsList Hdec Hfields), Hrun in Hg1.
  destruct (metric_WriteResponse_last _ _ _ _ _ Hc ltac:(unfold Int.min_int32; lia) Hh)
    as (Hev & _ & Hg' & Hs' & _).
  split; [congruence|].
  rewrite Hch in Hev. do 2 eexists. split; [exact Hev|].
  simpl. rewrite Hg1, Hs'. done.
Qed.

End DataRun.

(** Two leaves with one series each: both series are merged, in arrival
    order. *)
Lemma data_run_aggregates_in_order_witness :
  let rs := [Mock.arrival "" [Byte.x01]; Mock.arrival "" [Byte.x02]] in
  groupAgg (metric_writeAll rs (Mock.metricCtx 2)) =
    Some [("host=a", {[ "f" := [Byte.x01] ]}); ("host=a", {[ "f" := [Byte.x02] ]})].
Proof.
  intros rs.
  destruct (@data_run_aggregates_in_order Mock.collaborators 0 0 "broker-1" RootTask "" "" tt
              2 rs) as (Hg & _).
  - unfold Int.max_int32. lia.
  - reflexivity.
  - repeat constructor; (eexists; split; [reflexivity|]); split; try discriminate;
      repeat constructor; vm_compute; discriminate.
  - etrans; [exact Hg|]. reflexivity.
Defined.

Section StatsAndErrors.
Context `{Collaborators}.

Implicit Types (c : metricTaskContext) (resp : TaskResponse) (env : Env).

Lemma handleStats_stats resp fromNode c :
  is_Some (stats (handleStats resp fromNode c)) ↔
  is_Some (stats c) ∨ Stats resp ≠ [].
Proof.
  unfold handleStats. destruct (Stats resp) as [|b bs]; simpl.
  - split; [by left|]. intros [?|?]; done.
  - destruct (Type_ resp); simpl; split; intros; (by eexists) || (by right).
Qed.

Lemma handleTaskResponse_stats resp fromNode env c :
  is_Some (stats (handleTaskResponse resp fromNode env c).1) ↔
  is_Some (stats c) ∨ Stats resp ≠ [].
Proof.
  rewrite <- handleStats_stats. unfold handleTaskResponse.
  destruct (checkError_frame (ErrMsg resp) (handleStats resp fromNode c)) as (_ & _ & _ & Hs & _).
  destruct (checkError _ _) as [[c1 ignoreResponse] err]. simpl in Hs. rewrite <- Hs.
  assert (Hd : ∀ c2, is_Some (stats (handle_deferred env c2)) ↔ is_Some (stats c2)).
  { intros c2. unfold handle_deferred. destruct (stats c2) eqn:Hst; simpl; rewrite ?Hst;
      split; intros; done || by eexists. }
  destruct err; [done|]. destruct ignoreResponse; [done|].
  destruct (Unmarshal _); [|cbn [fst]; apply Hd]. case_match; cbn [fst]; rewrite Hd; done.
Qed.

(** The statistics of a metric context are created by the first response
    that carries statistics and reaches a context that is not closed, and
    are never dropped afterwards: after a call of [WriteResponse] the
    context has statistics exactly if it had them before, or the context
    was open and the response carries some. *)
Theorem stats_created_lazily_and_kept resp fromNode env c :
  is_Some (stats (metric_WriteResponse resp fromNode env c)) ↔
  is_Some (stats c) ∨ (closed (base c) = false ∧ Stats resp ≠ []).
Proof.
  destruct (closed (base c)) eqn:Hc.
  { rewrite metric_WriteResponse_closed by done. simpl. split; [by left|].
    intros [?|[? _]]; done. }
  rewrite metric_WriteResponse_open by done.
  pose proof (handleTaskResponse_stats resp fromNode env (metric_decrement c)) as Hs.
  simpl in Hs.
  destruct (handleTaskResponse resp fromNode env (metric_decrement c)) as [c1 res].
  simpl in Hs.
  assert (Hgoal : is_Some (stats c1) ↔ is_Some (stats c) ∨ false = false ∧ Stats resp ≠ []).
  { rewrite Hs. split; intros [?|?]; eauto. right. by destruct H0. }
  rewrite <- Hgoal. unfold metric_deferred.
  destruct res; repeat case_match; simpl; try done;
    destruct (stats c1); simpl; split; intros; done || by eexists.
Qed.

(** A response whose error message is not empty and does not mention "not
    found", written to a metric context that is not closed: the error is
    offered at once as an event with that message, whatever tolerance is
    left; the tolerance is not used up; and the payload of the response is
    neither decoded into aggregator specs nor aggregated. *)
Theorem other_error_surfaces_at_once resp fromNode env c
    (Hopen : closed (base c) = false)
    (Hmsg : ErrMsg resp ≠ "")
    (Hother : Contains (ErrMsg resp) "not found" = false) :
  let c' := metric_WriteResponse resp fromNode env c in
  let remaining := Int.dec32 (expectResults (base c)) in
  eventCh c' =
    eventCh c ++
      offer (receiver_ready env)
        {| AggregatorSpecs := None; SeriesList := None; ev_Stats := stats c';
           Err := Some (errors_New (ErrMsg resp)) |}
      :: (if remaining <=? 0 then [Closed] else []) ∧
  tolerantNotFounds c' = tolerantNotFounds c ∧
  groupAgg c' = groupAgg c ∧
  aggregatorSpecs c' = aggregatorSpecs c.
Proof.
  assert (Hh : handleTaskResponse resp fromNode env (metric_decrement c) =
               (handleStats resp fromNode (metric_decrement c),
                Some (errors_New (ErrMsg resp)))).
  { unfold handleTaskResponse, checkError.
    apply String.eqb_neq in Hmsg. rewrite Hmsg, Hother. done. }
  destruct (metric_WriteResponse_error resp fromNode env c _ _ Hopen Hh)
    as (Hev & _ & _ & Hst).
  destruct (handleStats_frame resp fromNode (metric_decrement c)) as (_ & _ & Hg & Ha & Ht).
  cbv zeta. rewrite Hev, Hst. split; [done|].
  rewrite metric_WriteResponse_open, Hh by done.
  unfold metric_deferred.
  destruct (expectResults (base _) <=? 0); simpl; rewrite Hg, Ha, Ht; done.
Qed.

End StatsAndErrors.

Lemma stats_created_lazily_and_kept_witness :
  let with_stats := {| TaskID := "broker-1"; Type_ := TaskType_Leaf; ErrMsg := "";
                       Payload := []; Stats := [Byte.x7b; Byte.x7d] |} in
  let c1 := metric_WriteResponse with_stats "leaf" (Mock.env true) (Mock.metricCtx 3) in
  stats (Mock.metricCtx 3) = None ∧
  is_Some (stats c1) ∧
  is_Some (stats (metric_WriteResponse (Mock.response "boom" []) "leaf" (Mock.env true) c1)).
Proof.
  intros with_stats c1. split; [reflexivity|].
  assert (H1 : is_Some (stats c1)).
  { apply (@stats_created_lazily_and_kept Mock.collaborators). right.
    split; [reflexivity|discriminate]. }
  split; [exact H1|].
  apply (@stats_created_lazily_and_kept Mock.collaborators). left. exact H1.
Defined.

Lemma other_error_surfaces_at_once_witness :
  let c' := metric_WriteResponse (Mock.response "disk full" [Byte.x01]) "leaf" (Mock.env true)
              (Mock.metricCtx 3) in
  Err <$> offered (eventCh c') = [Some (errors_New "disk full")] ∧
  tolerantNotFounds c' = 3 ∧ groupAgg c' = None.
Proof.
  intros c'.
  destruct (@other_error_surfaces_at_once Mock.collaborators
              (Mock.response "disk full" [Byte.x01]) "leaf" (Mock.env true) (Mock.metricCtx 3))
    as (Hev & Ht & Hg & _).
  - reflexivity.
  - discriminate.
  - reflexivity.
  - fold c' in Hev, Ht, Hg. rewrite Hev, Ht, Hg. repeat split.
Defined.

(** ** Counters of the task manager *)

Section Counters.
Context `{Collaborators}.

Implicit Types (t : taskManager) (req : TaskRequest).

Lemma SendRequest_statistics target req t :
  statistics (SendRequest target req t).1 =
  if send_ok (taskClientFactory t) req {| Indicator := target |}
  then stat_SentRequest 1 (statistics t)
  else stat_SentRequestFailures 1 (statistics t).
Proof.
  unfold SendRequest, send_ok, send_outcome. simpl.
  destruct (taskClientFactory t target) as [client|]; [destruct (client req)|]; done.
Qed.

(** The counters after a fan-out. *)
Lemma fanout_statistics (nodes : list Node) req : ∀ sendError t,
  let f := taskClientFactory t in
  let r := fanout nodes req sendError t in
  let sent := Z.of_nat (length (filter (λ node, send_ok f req node = true) nodes)) in
  SentRequest (statistics r.1) = SentRequest (statistics t) + sent ∧
  SentRequestFailures (statistics r.1) =
    SentRequestFailures (statistics t) + (Z.of_nat (length nodes) - sent) ∧
  CreatedTasks (statistics r.1) = CreatedTasks (statistics t) ∧
  AliveTask (statistics r.1) = AliveTask (statistics t) ∧
  EmitResponse (statistics r.1) = EmitResponse (statistics t) ∧
  OmitResponse (statistics r.1) = OmitResponse (statistics t) ∧
  ExpireTasks (statistics r.1) = ExpireTasks (statistics t) ∧
  SentResponses (statistics r.1) = SentResponses (statistics t) ∧
  SentResponseFailures (statistics r.1) = SentResponseFailures (statistics t).
Proof.
  induction nodes as [|node rest IH]; intros sendError t; simpl.
  { split_and!; lia. }
  pose proof (SendRequest_statistics (Indicator node) req t) as Hst.
  destruct (SendRequest_spec (Indicator node) req t) as (_ & (_ & _ & Hf & _) & _).
  destruct (SendRequest (Indicator node) req t) as [t1 err]. simpl in Hst, Hf.
  assert (Hnode : {| Indicator := Indicator node |} = node) by (by destruct node).
  rewrite Hnode in Hst.
  assert (Hrest : ∀ e, let r := fanout rest req e t1 in
            SentRequest (statistics r.1) =
            SentRequest (statistics t1) +
              Z.of_nat (length (filter (λ node, send_ok (taskClientFactory t) req node = true)
                                       rest)) ∧
            SentRequestFailures (statistics r.1) =
              SentRequestFailures (statistics t1) +
                (Z.of_nat (length rest) -
                 Z.of_nat (length (filter (λ node, send_ok (taskClientFactory t) req node
                                                   = true) rest))) ∧
            CreatedTasks (statistics r.1) = CreatedTasks (statistics t1) ∧
            AliveTask (statistics r.1) = AliveTask (statistics t1) ∧
            EmitResponse (statistics r.1) = EmitResponse (statistics t1) ∧
            OmitResponse (statistics r.1) = OmitResponse (statistics t1) ∧
            ExpireTasks (statistics r.1) = ExpireTasks (statistics t1) ∧
            SentResponses (statistics r.1) = SentResponses (statistics t1) ∧
            SentResponseFailures (statistics r.1) = SentResponseFailures (statistics t1)).
  { intros e. destruct (IH e t1) as (H1 & H2 & H3 & H4 & H5 & H6 & H7 & H8 & H9).
    simpl in *. rewrite Hf in *. split_and!; done. }
  destruct (send_ok (taskClientFactory t) req node) eqn:Hok.
  - rewrite filter_cons_True by done. simpl length.
    destruct err; destruct (Hrest (Some e)) || destruct (Hrest sendError);
      rewrite Hst in *; simpl in *; split_and!; lia.
  - rewrite filter_cons_False by congruence.
    destruct err; destruct (Hrest (Some e)) || destruct (Hrest sendError);
      rewrite Hst in *; simpl in *; split_and!; lia.
Qed.

(** A fan-out over the nodes of a plan counts every node once: as a sent
    request when its stream took the request, as a failure when the node has
    no stream or the send failed.  None of the seven other counters moves
    (created, alive and expired tasks, emitted and omitted responses, sent
    responses and their failures), and an error is reported exactly when
    some node was counted as a failure. *)
Theorem fanout_counts_every_node (nodes : list Node) req t :
  let f := taskClientFactory t in
  let r := fanout nodes req None t in
  let sent := Z.of_nat (length (filter (λ node, send_ok f req node = true) nodes)) in
  SentRequest (statistics r.1) = SentRequest (statistics t) + sent ∧
  SentRequestFailures (statistics r.1) =
    SentRequestFailures (statistics t) + (Z.of_nat (length nodes) - sent) ∧
  CreatedTasks (statistics r.1) = CreatedTasks (statistics t) ∧
  AliveTask (statistics r.1) = AliveTask (statistics t) ∧
  EmitResponse (statistics r.1) = EmitResponse (statistics t) ∧
  OmitResponse (statistics r.1) = OmitResponse (statistics t) ∧
  ExpireTasks (statistics r.1) = ExpireTasks (statistics t) ∧
  SentResponses (statistics r.1) = SentResponses (statistics t) ∧
  SentResponseFailures (statistics r.1) = SentResponseFailures (statistics t) ∧
  (r.2 = None ↔ sent = Z.of_nat (length nodes)).
Proof.
  cbv zeta.
  destruct (fanout_statistics nodes req None t)
    as (H1 & H2 & H3 & H4 & H5 & H6 & H7 & H8 & H9).
  split_and!; try done.
  destruct (fanout_spec nodes req None t) as (_ & _ & Hall & Hsome).
  set (f := taskClientFactory t) in *.
  assert (Hforall : forallb (send_ok f req) nodes = true ↔
                    Z.of_nat (length (filter (λ node, send_ok f req node = true) nodes))
                      = Z.of_nat (length nodes)).
  { clear. induction nodes as [|node rest IH]; simpl; [done|].
    pose proof (length_filter (λ node, send_ok f req node = true) rest) as Hle.
    destruct (send_ok f req node) eqn:Hok; simpl.
    - rewrite filter_cons_True by done. simpl. rewrite IH. lia.
    - rewrite filter_cons_False by congruence. split; [done|]. lia. }
  rewrite <- Hforall. split.
  - intros Hnone. destruct (forallb (send_ok f req) nodes) eqn:Hb; [done|].
    destruct (Hsome eq_refl) as [e He]. congruence.
  - intros Hb. by apply Hall.
Qed.

Lemma SendResponse_frame factory node resp t :
  tasks (SendResponse factory node resp t).1 = tasks t ∧
  heap (SendResponse factory node resp t).1 = heap t ∧
  wire (SendResponse factory node resp t).1 = wire t ∧
  workerPool (SendResponse factory node resp t).1 = workerPool t ∧
  statistics (SendResponse factory node resp t).1 =
    (if response_ok factory (node, resp) then stat_SentResponses 1 (statistics t)
     else stat_SentResponseFailures 1 (statistics t)) ∧
  ((SendResponse factory node resp t).2 = None ↔ response_ok factory (node, resp) = true).
Proof.
  unfold SendResponse, response_ok. simpl.
  destruct (factory node) as [stream|]; [destruct (stream resp)|]; simpl; split_and!; done.
Qed.

(** Over any sequence of calls of [SendResponse], each call adds one to
    exactly one of the two response counters: to [SentResponses] when the
    parent node has a stream and the stream took the response, to
    [SentResponseFailures] otherwise; the task table, the contexts and the
    request counters are not touched.  A call returns nil exactly when it
    was counted as sent. *)
Theorem SendResponse_counts (factory : TaskServerFactory)
    (calls : list (string * TaskResponse)) t :
  let t' := sendResponses factory calls t in
  let sent := Z.of_nat (length (filter (λ call, response_ok factory call = true) calls)) in
  SentResponses (statistics t') = SentResponses (statistics t) + sent ∧
  SentResponseFailures (statistics t') =
    SentResponseFailures (statistics t) + (Z.of_nat (length calls) - sent) ∧
  SentRequest (statistics t') = SentRequest (statistics t) ∧
  SentRequestFailures (statistics t') = SentRequestFailures (statistics t) ∧
  tasks t' = tasks t ∧ heap t' = heap t ∧
  ∀ node resp, (SendResponse factory node resp t').2 = None ↔
               response_ok factory (node, resp) = true.
Proof.
  cbv zeta. split_and!; [..|intros node resp; apply SendResponse_frame].
  all: revert t; induction calls as [|[node resp] rest IH]; intros t;
    [simpl; done || lia|].
  all: change (sendResponses factory ((node, resp) :: rest) t)
         with (sendResponses factory rest (SendResponse factory node resp t).1).
  all: rewrite IH.
  all: destruct (SendResponse_frame factory node resp t) as (Ht & Hh & _ & _ & Hst & _).
  all: rewrite ?Ht, ?Hh, ?Hst; try done.
  all: destruct (response_ok factory (node, resp)) eqn:Hok;
    [rewrite ?filter_cons_True by done | rewrite ?filter_cons_False by congruence];
    simpl; lia.
Qed.

(** [AliveTask] follows the size of the task table: [evictTask] keeps the
    difference between the gauge and the number of registered tasks, whether
    the id is registered or not, and so does [storeTask] for an id that is
    not registered.  Storing under an id that is already registered
    replaces the context without changing the size of the table, and the
    gauge then runs one ahead. *)
Theorem AliveTask_follows_table (id : string) (c : TaskContext) t :
  let gap t := AliveTask (statistics t) - Z.of_nat (size (tasks t)) in
  gap (evictTask id t) = gap t ∧
  (tasks t !! id = None → gap (storeTask id c t) = gap t) ∧
  (is_Some (tasks t !! id) → gap (storeTask id c t) = gap t + 1) ∧
  CreatedTasks (statistics (storeTask id c t)) = CreatedTasks (statistics t) + 1 ∧
  evictTask id (evictTask id t) = evictTask id t.
Proof.
  cbv zeta. split_and!.
  - unfold evictTask. destruct (tasks t !! id) as [p|] eqn:Hid; [|done]. simpl.
    pose proof (map_size_delete_Some id (tasks t) (ex_intro _ p Hid)).
    assert (size (tasks t) ≠ 0%nat).
    { intros Hz. apply map_size_empty_inv in Hz. rewrite Hz in Hid. done. }
    lia.
  - intros Hnone. unfold storeTask. simpl. rewrite map_size_insert_None by done. lia.
  - intros Hsome. unfold storeTask. simpl.
    rewrite map_size_insert_Some by done. lia.
  - done.
  - unfold evictTask at 2. destruct (tasks t !! id) as [p|] eqn:Hid.
    + unfold evictTask. simpl. rewrite lookup_delete_eq, Hid. done.
    + unfold evictTask. rewrite Hid. done.
Qed.

End Counters.

Lemma AliveTask_follows_table_witness :
  let c := MetricCtx (Mock.metricCtx 1) in
  let t1 := storeTask "broker-1" c Mock.manager in
  let t2 := storeTask "broker-1" c t1 in
  AliveTask (statistics t1) = 1 ∧ size (tasks t1) = 1%nat ∧
  AliveTask (statistics t2) = 2 ∧ size (tasks t2) = 1%nat ∧
  AliveTask (statistics (evictTask "broker-1" (evictTask "broker-1" t1))) = 0.
Proof.
  intros c t1 t2.
  destruct (@AliveTask_follows_table Mock.collaborators "broker-1" c Mock.manager)
    as (_ & Hfresh & _).
  destruct (@AliveTask_follows_table Mock.collaborators "broker-1" c t1)
    as (Hevict & _ & Hagain & _ & Hidem).
  specialize (Hfresh eq_refl). specialize (Hagain (ex_intro _ 0%nat eq_refl)).
  fold t1 in Hfresh. fold t2 in Hagain.
  assert (Hs1 : size (tasks t1) = 1%nat) by reflexivity.
  assert (Hs2 : size (tasks t2) = 1%nat) by reflexivity.
  rewrite Hs1 in Hfresh, Hagain, Hevict. rewrite Hs2 in Hagain.
  change (AliveTask (statistics Mock.manager) - Z.of_nat (size (tasks Mock.manager)))
    with 0 in Hfresh.
  rewrite Hidem.
  assert (Hs3 : size (tasks (evictTask "broker-1" t1)) = 0%nat) by reflexivity.
  rewrite Hs3 in Hevict.
  split_and!; try done; lia.
Defined.

(** ** The cleaner *)

Section Cleaner.
Context `{Collaborators}.

Implicit Types (t : taskManager).

Lemma cleaner_visit_spec now_ms ttl_ms key value t0 t :
  heap t = heap t0 →
  let t' := cleaner_visit (now_ms key) ttl_ms key value t in
  let gone := expired_entry now_ms ttl_ms t0 (key, value) in
  heap t' = heap t0 ∧
  tasks t' = (if gone then delete key (tasks t) else tasks t) ∧
  AliveTask (statistics t') = AliveTask (statistics t) - (if gone then 1 else 0) ∧
  ExpireTasks (statistics t') = ExpireTasks (statistics t) + (if gone then 1 else 0) ∧
  CreatedTasks (statistics t') = CreatedTasks (statistics t) ∧
  wire t' = wire t ∧ workerPool t' = workerPool t.
Proof.
  intros Hheap. unfold cleaner_visit, expired_entry. simpl. rewrite Hheap.
  destruct (heap t0 !! value) as [c|]; [destruct (Expired _ _ c)|];
    simpl; split_and!; try done; lia.
Qed.

(** The visits of a list of entries with distinct keys. *)
Lemma cleaner_fold_spec now_ms ttl_ms t0 (l : list (string * ptr)) :
  NoDup l.*1 →
  let t' := foldr (λ entry t, cleaner_visit (now_ms entry.1) ttl_ms entry.1 entry.2 t) t0 l in
  let gone := Z.of_nat (length (filter (λ e, expired_entry now_ms ttl_ms t0 e = true) l)) in
  heap t' = heap t0 ∧
  (∀ id, (∃ p, (id, p) ∈ l ∧ expired_entry now_ms ttl_ms t0 (id, p) = true) →
         tasks t' !! id = None) ∧
  (∀ id, ¬ (∃ p, (id, p) ∈ l ∧ expired_entry now_ms ttl_ms t0 (id, p) = true) →
         tasks t' !! id = tasks t0 !! id) ∧
  AliveTask (statistics t') = AliveTask (statistics t0) - gone ∧
  ExpireTasks (statistics t') = ExpireTasks (statistics t0) + gone ∧
  CreatedTasks (statistics t') = CreatedTasks (statistics t0) ∧
  wire t' = wire t0 ∧ workerPool t' = workerPool t0.
Proof.
  induction l as [|[key value] l IH]; intros Hnd; simpl.
  { split_and!; try done; try lia. intros id (p & Hin & _). by apply elem_of_nil in Hin. }
  apply NoDup_cons in Hnd as [Hkey Hnd]. simpl in Hkey.
  destruct (IH Hnd) as (Hh & Hyes & Hno & Ha & He & Hc & Hw & Hp).
  set (t1 := foldr _ t0 l) in *.
  destruct (cleaner_visit_spec now_ms ttl_ms key value t0 t1 Hh)
    as (Hh' & Ht' & Ha' & He' & Hc' & Hw' & Hp').
  split_and!; try congruence.
  - intros id (p & Hin & Hexp). rewrite Ht'.
    apply elem_of_cons in Hin as [[= -> ->]|Hin].
    + rewrite Hexp. apply lookup_delete_eq.
    + assert (tasks t1 !! id = None) as Hnone by (apply Hyes; eauto).
      destruct (expired_entry now_ms ttl_ms t0 (key, value)); [|done].
      destruct (decide (id = key)) as [->|Hne]; [apply lookup_delete_eq|].
      by rewrite lookup_delete_ne.
  - intros id Hnot. rewrite Ht'.
    assert (Hnot' : ¬ (∃ p, (id, p) ∈ l ∧ expired_entry now_ms ttl_ms t0 (id, p) = true)).
    { intros (p & Hin & Hexp). apply Hnot. exists p. split; [by right|done]. }
    destruct (expired_entry now_ms ttl_ms t0 (key, value)) eqn:Hgone; [|by apply Hno].
    destruct (decide (id = key)) as [->|Hne].
    + exfalso. apply Hnot. exists value. split; [left|done].
    + rewrite lookup_delete_ne by done. by apply Hno.
  - rewrite Ha', Ha.
    destruct (expired_entry now_ms ttl_ms t0 (key, value)) eqn:Hgone;
      [rewrite filter_cons_True by done | rewrite filter_cons_False by congruence];
      simpl length; lia.
  - rewrite He', He.
    destruct (expired_entry now_ms ttl_ms t0 (key, value)) eqn:Hgone;
      [rewrite filter_cons_True by done | rewrite filter_cons_False by congruence];
      simpl length; lia.
Qed.

(** One tick of the cleaner removes from the task table exactly the ids
    whose context is expired when it is visited, and keeps every other id
    with its context.  It moves each removed task from the gauge
    [AliveTask] to the counter [ExpireTasks], so their sum does not change.
    It touches no context: no channel is closed and nothing is sent. *)
Theorem cleaner_tick_removes_expired (now_ms : string → Z) (ttl_ms : Z) t :
  let t' := cleaner_tick now_ms ttl_ms t in
  let gone := Z.of_nat (length (filter (λ e, expired_entry now_ms ttl_ms t e = true)
                                       (map_to_list (tasks t)))) in
  (∀ id, tasks t' !! id =
         match tasks t !! id with
         | Some p => if expired_entry now_ms ttl_ms t (id, p) then None else Some p
         | None => None
         end) ∧
  heap t' = heap t ∧
  AliveTask (statistics t') = AliveTask (statistics t) - gone ∧
  ExpireTasks (statistics t') = ExpireTasks (statistics t) + gone ∧
  AliveTask (statistics t') + ExpireTasks (statistics t') =
    AliveTask (statistics t) + ExpireTasks (statistics t) ∧
  CreatedTasks (statistics t') = CreatedTasks (statistics t) ∧
  wire t' = wire t.
Proof.
  destruct (cleaner_fold_spec now_ms ttl_ms t (map_to_list (tasks t))
              (NoDup_fst_map_to_list _)) as (Hh & Hyes & Hno & Ha & He & Hc & Hw & _).
  cbv zeta. unfold cleaner_tick. split_and!; try done; [|lia].
  intros id.
  destruct (tasks t !! id) as [p|] eqn:Hid.
  - destruct (expired_entry now_ms ttl_ms t (id, p)) eqn:Hgone.
    + apply Hyes. exists p. split; [|done]. by apply elem_of_map_to_list.
    + rewrite Hno, Hid; [done|].
      intros (p' & Hin & Hexp). apply elem_of_map_to_list in Hin.
      rewrite Hid in Hin. injection Hin as <-. congruence.
  - rewrite Hno, Hid; [done|].
    intros (p' & Hin & _). apply elem_of_map_to_list in Hin. congruence.
Qed.

End Cleaner.

(** ** Registration and delivery *)

Section Registration.
Context `{Collaborators}.

Implicit Types (t : taskManager).

(** [SubmitIntermediateMetricTask] registers, under the task id of the
    root, a metric context of type intermediate whose parent is the root
    node of the plan and which expects one response per leaf; it sends
    nothing.  From then on a response for that task id is accepted by
    [Receive] and handed to the worker pool with that context, instead of
    being dropped as the response of an unknown task.  A context registered
    before under the same id is replaced. *)
Theorem SubmitIntermediateMetricTask_registers (now_ms now_ns : Z) (plan : PhysicalPlan)
    (q : Query) (parentTaskID : string) t :
  let r := SubmitIntermediateMetricTask now_ms now_ns plan q parentTaskID t in
  let taskCtx :=
    newMetricTaskContext now_ms now_ns parentTaskID IntermediateTask parentTaskID
      (root_Indicator (plan_Root plan)) q (Int.wrap32 (Z.of_nat (length (Leaves plan)))) [] in
  wire r.1 = wire t ∧
  tasks r.1 !! parentTaskID = Some r.2 ∧
  heap r.1 !! r.2 = Some (MetricCtx taskCtx) ∧
  (Z.of_nat (length (Leaves plan)) <= Int.max_int32 →
     expectResults (base taskCtx) = Z.of_nat (length (Leaves plan)) ∧
     tolerantNotFounds taskCtx = Z.of_nat (length (Leaves plan))) ∧
  (∀ resp targetNode, TaskID resp = parentTaskID →
     (Receive resp targetNode r.1).2 = None ∧
     workerPool (Receive resp targetNode r.1).1 =
       workerPool t ++ [{| rt_taskCtx := r.2; rt_resp := resp; rt_targetNode := targetNode |}] ∧
     OmitResponse (statistics (Receive resp targetNode r.1).1) = OmitResponse (statistics t)) ∧
  (∀ id, id ≠ parentTaskID → tasks r.1 !! id = tasks t !! id).
Proof.
  cbv zeta. unfold SubmitIntermediateMetricTask. simpl.
  split_and!.
  - done.
  - apply lookup_insert_eq.
  - by apply list_lookup_middle.
  - intros Hmax. rewrite wrap32_id; [done|].
    unfold Int.in_int32, Int.min_int32. lia.
  - intros resp targetNode Hid. unfold Receive, Get. simpl.
    rewrite Hid, lookup_insert_eq. done.
  - intros id Hne. by apply lookup_insert_ne.
Qed.

(** [SubmitMetaDataTask] allocates one task id, registers one metadata
    context that expects [Root.NumOfTask] responses, and calls
    [SendRequest] exactly once per leaf of the plan, each time with the
    same request of type Metadata that names the new task id.  The calls
    are handed to the worker pool, which decides their order: they are
    stated as a permutation of one call per leaf, in no particular order.
    The channel is returned in every case.  The task stays registered and
    no error is returned exactly when every send succeeded; as soon as one
    send fails, an error is returned and the task is evicted. *)
Theorem SubmitMetaDataTask_fanout (now_ms : Z) (plan : PhysicalPlan)
    (suggestMarshalData : bytes) t :
  let f := taskClientFactory t in
  let taskID := (AllocTaskID t).2 in
  let req := metaDataRequest taskID plan suggestMarshalData in
  let all_ok := forallb (send_ok f req) (Leaves plan) in
  let r := SubmitMetaDataTask now_ms plan suggestMarshalData t in
  seq r.1.1 = Int.inc64 (seq t) ∧
  (∃ calls, wire r.1.1 = wire t ++ calls ∧ calls ≡ₚ fanout_calls f (Leaves plan) req) ∧
  req_RequestType req = RequestType_Metadata ∧
  heap r.1.1 !! r.1.2 =
    Some (MetaDataCtx (newMetaDataTaskContext now_ms taskID RootTask "" ""
                         (NumOfTask (plan_Root plan)) [])) ∧
  (all_ok = true → r.2 = None ∧ tasks r.1.1 !! taskID = Some r.1.2) ∧
  (all_ok = false → is_Some r.2 ∧ tasks r.1.1 !! taskID = None).
Proof.
  cbv zeta. unfold SubmitMetaDataTask.
  destruct (AllocTaskID t) as [t1 taskID] eqn:Halloc. cbn [fst snd].
  assert (Hf1 : taskClientFactory t1 = taskClientFactory t) by (by injection Halloc as <- _).
  assert (Hw1 : wire t1 = wire t) by (by injection Halloc as <- _).
  assert (Hs1 : seq t1 = Int.inc64 (seq t)) by (by injection Halloc as <- _).
  set (req := metaDataRequest _ _ _).
  set (taskCtx := MetaDataCtx _).
  destruct (fanout_spec (Leaves plan) req None (storeTask taskID taskCtx t1))
    as (Hw & Hs & Hall & Hsome).
  destruct (fanout (Leaves plan) req None (storeTask taskID taskCtx t1)) as [t3 sendError].
  simpl in Hw, Hs, Hall, Hsome. rewrite Hf1 in Hw, Hall, Hsome. rewrite Hw1 in Hw.
  destruct Hs as (_ & Hq & _ & _ & Ht & Hh). simpl in Hq.
  assert (Hlookup : tasks t3 !! taskID = Some (length (heap t1))).
  { rewrite Ht. apply lookup_insert_eq. }
  assert (Hheap : heap t3 !! length (heap t1) = Some taskCtx).
  { rewrite Hh. by apply list_lookup_middle. }
  assert (Hevict : ∀ t0, wire (evictTask taskID t0) = wire t0 ∧
                         heap (evictTask taskID t0) = heap t0 ∧
                         seq (evictTask taskID t0) = seq t0).
  { intros t0. unfold evictTask. by destruct (tasks t0 !! taskID). }
  destruct sendError as [e|]; cbn [fst snd].
  - destruct (Hevict t3) as (-> & -> & ->).
    split_and!; try done; try congruence.
    + by eexists.
    + intros Hok. by specialize (Hall Hok).
    + intros _. split; [done|]. unfold evictTask. rewrite Hlookup. apply lookup_delete_eq.
  - split_and!; try done; try congruence.
    + by eexists.
    + intros Hbad. by destruct (Hsome Hbad).
Qed.

(** [SubmitMetricTask] for a plan without intermediates: the calls of
    [SendRequest] are exactly one per leaf of the plan, each with the same
    request of type Leaf that carries the new task id and the request id of
    the caller.  The calls are handed to the worker pool, which decides
    their order: they are stated as a permutation of one call per leaf, in
    no particular order.  One task id is allocated and one context created,
    which expects [Root.NumOfTask] responses whatever the number of
    leaves. *)
Theorem SubmitMetricTask_without_intermediates (env : SubmitEnv) (plan : PhysicalPlan)
    (q : Query) t (Hnone : Intermediates plan = []) :
  let f := taskClientFactory t in
  let rootTaskID := (AllocTaskID t).2 in
  let req := leafRequest (se_requestID env) rootTaskID plan q in
  let r := SubmitMetricTask env plan q t in
  seq r.1.1 = Int.inc64 (seq t) ∧
  (∃ calls, wire r.1.1 = wire t ++ calls ∧ calls ≡ₚ fanout_calls f (Leaves plan) req) ∧
  CreatedTasks (statistics r.1.1) = CreatedTasks (statistics t) + 1 ∧
  heap r.1.1 =
    heap t ++ [MetricCtx (newMetricTaskContext (se_now_ms env) (se_now_ns env) rootTaskID
                            RootTask "" "" q (NumOfTask (plan_Root plan)) [])] ∧
  r.1.2 = Some (length (heap t)).
Proof.
  cbv zeta. unfold SubmitMetricTask.
  destruct (AllocTaskID t) as [t1 rootTaskID] eqn:Halloc. cbn [fst snd].
  assert (Hf1 : taskClientFactory t1 = taskClientFactory t) by (by injection Halloc as <- _).
  assert (Hw1 : wire t1 = wire t) by (by injection Halloc as <- _).
  assert (Hs1 : seq t1 = Int.inc64 (seq t)) by (by injection Halloc as <- _).
  assert (Hh1 : heap t1 = heap t) by (by injection Halloc as <- _).
  assert (Hc1 : statistics t1 = statistics t) by (by injection Halloc as <- _).
  rewrite Hnone. simpl length. simpl negb. cbv iota.
  set (req := leafRequest _ _ _ _).
  set (taskCtx := MetricCtx _).
  destruct (fanout_spec (Leaves plan) req None (storeTask rootTaskID taskCtx t1))
    as (Hw & Hs & _).
  destruct (fanout_statistics (Leaves plan) req None (storeTask rootTaskID taskCtx t1))
    as (_ & _ & Hcr & _).
  destruct (fanout (Leaves plan) req None (storeTask rootTaskID taskCtx t1)) as [t3 sendError].
  simpl in Hw, Hs, Hcr. rewrite Hf1 in Hw. rewrite Hw1 in Hw. rewrite Hc1 in Hcr.
  destruct Hs as (_ & Hq & _ & _ & Ht & Hh). simpl in Hq, Hh. rewrite Hh1 in Hh.
  assert (Hevict : ∀ t0, wire (evictTask rootTaskID t0) = wire t0 ∧
                         heap (evictTask rootTaskID t0) = heap t0 ∧
                         seq (evictTask rootTaskID t0) = seq t0 ∧
                         CreatedTasks (statistics (evictTask rootTaskID t0))
                           = CreatedTasks (statistics t0)).
  { intros t0. unfold evictTask. by destruct (tasks t0 !! rootTaskID). }
  destruct sendError as [e|]; cbn [fst snd].
  - destruct (Hevict t3) as (-> & -> & -> & ->). rewrite Hh1.
    split_and!; try done; try congruence. by eexists.
  - rewrite Hh1. split_and!; try done; try congruence. by eexists.
Qed.

End Registration.

Lemma SubmitMetricTask_without_intermediates_witness :
  let r := @SubmitMetricTask Mock.collaborators (Mock.submitEnv (AckEvent None))
             (Mock.plan 2 [] ["up"; "nowhere"]) tt Mock.manager in
  (λ c, (sc_target c, sc_outcome c)) <$> wire r.1.1
    ≡ₚ [("up", SendOk); ("nowhere", NoSendStream)] ∧
  CreatedTasks (statistics r.1.1) = 1.
Proof.
  intros r.
  destruct (@SubmitMetricTask_without_intermediates Mock.collaborators
              (Mock.submitEnv (AckEvent None)) (Mock.plan 2 [] ["up"; "nowhere"]) tt
              Mock.manager eq_refl) as (_ & (calls & Hw & Hp) & Hc & _).
  fold r in Hw, Hc. rewrite Hw, Hc. split; [|reflexivity].
  simpl app. rewrite Hp. reflexivity.
Defined.

Lemma SubmitIntermediateMetricTask_registers_witness :
  let r := @SubmitIntermediateMetricTask Mock.collaborators 0 0
             (Mock.plan 1 ["mid"] ["up"; "up2"]) tt "root-7" Mock.manager in
  (Receive (Mock.response "" []) "up" Mock.manager).2 ≠ None ∧
  ∀ resp, TaskID resp = "root-7" → (Receive resp "up" r.1).2 = None.
Proof.
  intros r. split; [discriminate|].
  intros resp Hid.
  destruct (@SubmitIntermediateMetricTask_registers Mock.collaborators 0 0
              (Mock.plan 1 ["mid"] ["up"; "up2"]) tt "root-7" Mock.manager)
    as (_ & _ & _ & _ & Hrecv & _).
  destruct (Hrecv resp "up" Hid) as [Hnil _]. exact Hnil.
Defined.

Lemma SubmitMetaDataTask_fanout_witness :
  let r := @SubmitMetaDataTask Mock.collaborators 0 (Mock.plan 2 [] ["up"; "down"]) []
             Mock.manager in
  is_Some r.2 ∧ tasks r.1.1 !! "broker-1" = None ∧
  (λ c, (sc_target c, sc_outcome c)) <$> wire r.1.1 ≡ₚ [("up", SendOk); ("down", SendFailed)].
Proof.
  intros r.
  destruct (@SubmitMetaDataTask_fanout Mock.collaborators 0 (Mock.plan 2 [] ["up"; "down"]) []
              Mock.manager) as (_ & (calls & Hw & Hp) & _ & _ & _ & Hfail).
  destruct (Hfail eq_refl) as [Herr Htask].
  fold r in Hw. split; [exact Herr|]. split; [exact Htask|].
  rewrite Hw. simpl app. rewrite Hp. reflexivity.
Defined.

Section Delivery.
Context `{Collaborators}.

Implicit Types (t : taskManager).

Lemma evictTask_frame id t :
  heap (evictTask id t) = heap t ∧ workerPool (evictTask id t) = workerPool t ∧
  EmitResponse (statistics (evictTask id t)) = EmitResponse (statistics t) ∧
  OmitResponse (statistics (evictTask id t)) = OmitResponse (statistics t) ∧
  tasks (evictTask id t) = delete id (tasks t).
Proof.
  unfold evictTask. destruct (tasks t !! id) eqn:Hid; simpl; split_and!; try done.
  symmetry. by apply delete_id.
Qed.

(** One response for a registered task, from [Receive] to the end of its
    closure. *)
Lemma deliver_spec (a : Arrival) t (p : ptr) (c : TaskContext) :
  workerPool t = [] →
  tasks t !! TaskID (a_resp a) = Some p →
  heap t !! p = Some c →
  let c' := WriteResponse (a_resp a) (a_fromNode a) (a_env a) c in
  let t' := deliver a t in
  workerPool t' = [] ∧
  heap t' = <[p := c']> (heap t) ∧
  tasks t' = (if Done c' then delete (TaskID (a_resp a)) (tasks t) else tasks t) ∧
  EmitResponse (statistics t') = EmitResponse (statistics t) + 1 ∧
  OmitResponse (statistics t') = OmitResponse (statistics t).
Proof.
  intros Hpool Hid Hp. cbv zeta. unfold deliver, Receive, Get. rewrite Hid. simpl.
  rewrite Hpool. unfold runNext. simpl. unfold runReceiveTask. simpl. rewrite Hp.
  destruct (Done _).
  - match goal with |- context [evictTask ?i ?x] =>
      destruct (evictTask_frame i x) as (-> & -> & -> & -> & ->) end.
    simpl. split_and!; done.
  - simpl. split_and!; done.
Qed.

(** A registered task whose context expects [k >= 1] responses, and [k]
    responses for its task id that arrive one after the other, each run by
    the pool before the next arrives.  Every response is accepted and
    written to the context, in arrival order; the task stays in the table
    until the [k]-th response has been written and is evicted then; the
    responses are counted as emitted and none as omitted.  A response for
    that task id that arrives afterwards is refused by [Receive] and counted
    as omitted, and the context is not written again. *)
Theorem deliver_until_done (id : string) (p : ptr) (c : TaskContext) (rs : list Arrival) t
    (Hpool : workerPool t = [])
    (Hid : tasks t !! id = Some p)
    (Hp : heap t !! p = Some c)
    (Hk : 1 <= expectResults (ctx_base c) <= Int.max_int32)
    (Hlen : Z.of_nat (length rs) = expectResults (ctx_base c))
    (Hrs : Forall (λ a, TaskID (a_resp a) = id) rs) :
  let t' := deliverAll rs t in
  heap t' !! p = Some (writeAll rs c) ∧
  tasks t' !! id = None ∧
  (∀ n, (n < length rs)%nat → tasks (deliverAll (take n rs) t) !! id = Some p) ∧
  EmitResponse (statistics t') = EmitResponse (statistics t) + Z.of_nat (length rs) ∧
  OmitResponse (statistics t') = OmitResponse (statistics t) ∧
  (∀ resp targetNode, TaskID resp = id →
     is_Some (Receive resp targetNode t').2 ∧
     heap (Receive resp targetNode t').1 = heap t' ∧
     workerPool (Receive resp targetNode t').1 = [] ∧
     OmitResponse (statistics (Receive resp targetNode t').1)
       = OmitResponse (statistics t) + 1).
Proof.
  assert (Hprefix : ∀ n, (n < length rs)%nat →
            let t1 := deliverAll (take n rs) t in
            workerPool t1 = [] ∧
            tasks t1 = tasks t ∧
            heap t1 !! p = Some (writeAll (take n rs) c) ∧
            length (heap t1) = length (heap t) ∧
            EmitResponse (statistics t1) = EmitResponse (statistics t) + Z.of_nat n ∧
            OmitResponse (statistics t1) = OmitResponse (statistics t)).
  { induction n as [|n IH]; intros Hn.
    { rewrite take_0. simpl. split_and!; try done; lia. }
    destruct (lookup_lt_is_Some_2 rs n ltac:(lia)) as [a Ha].
    destruct IH as (Hpool1 & Ht1 & Hh1 & Hl1 & He1 & Ho1); [lia|].
    cbv zeta. rewrite (take_S_r _ _ _ Ha).
    unfold deliverAll. rewrite fold_left_app. simpl.
    fold (deliverAll (take n rs) t). set (t1 := deliverAll (take n rs) t) in *.
    assert (Haid : TaskID (a_resp a) = id).
    { rewrite Forall_forall in Hrs. apply Hrs. eapply list_elem_of_lookup_2, Ha. }
    destruct (deliver_spec a t1 p (writeAll (take n rs) c)) as (Hpool2 & Hh2 & Ht2 & He2 & Ho2);
      [done|by rewrite Haid, Ht1|done|].
    rewrite <- writeAll_snoc in Hh2, Ht2.
    assert (Hnd : Done (writeAll (take n rs ++ [a]) c) = false).
    { unfold Done, base_Done. rewrite writeAll_expectResults.
      - rewrite length_app, length_take. simpl. apply Z.leb_gt. lia.
      - rewrite length_app, length_take. simpl. unfold Int.min_int32, Int.max_int32 in *. lia. }
    rewrite Hnd in Ht2.
    split_and!; try congruence.
    - rewrite Hh2. apply list_lookup_insert_eq. by eapply lookup_lt_Some.
    - rewrite Hh2, length_insert. done.
    - lia. }
  destruct rs as [|a0 rs0] using rev_ind; [simpl in Hlen; lia|]. clear IHrs0.
  rename a0 into a, rs0 into pre.
  destruct (Hprefix (length pre)) as (Hpool1 & Ht1 & Hh1 & Hl1 & He1 & Ho1).
  { rewrite length_app. simpl. lia. }
  rewrite take_app_length in Hpool1, Ht1, Hh1, Hl1, He1, Ho1.
  apply Forall_app in Hrs as [_ Ha]. rewrite Forall_singleton in Ha.
  assert (Hfinal : let t' := deliverAll (pre ++ [a]) t in
            workerPool t' = [] ∧
            heap t' !! p = Some (writeAll (pre ++ [a]) c) ∧
            tasks t' = delete id (tasks t) ∧
            EmitResponse (statistics t') =
              EmitResponse (statistics t) + Z.of_nat (length (pre ++ [a])) ∧
            OmitResponse (statistics t') = OmitResponse (statistics t)).
  { cbv zeta. unfold deliverAll. rewrite fold_left_app. simpl.
    fold (deliverAll pre t). set (t1 := deliverAll pre t) in *.
    destruct (deliver_spec a t1 p (writeAll pre c)) as (Hpool2 & Hh2 & Ht2 & He2 & Ho2);
      [done|by rewrite Ha, Ht1|done|].
    rewrite <- writeAll_snoc in Hh2, Ht2.
    assert (Hd : Done (writeAll (pre ++ [a]) c) = true).
    { unfold Done, base_Done. rewrite writeAll_expectResults.
      - apply Z.leb_le. lia.
      - unfold Int.min_int32, Int.max_int32 in *. lia. }
    rewrite Hd, Ha, Ht1 in Ht2.
    split_and!; try congruence.
    - rewrite Hh2. apply list_lookup_insert_eq. by eapply lookup_lt_Some.
    - rewrite length_app. simpl. lia. }
  destruct Hfinal as (Hpool2 & Hh2 & Ht2 & He2 & Ho2).
  cbv zeta. split_and!; try done.
  - rewrite Ht2. apply lookup_delete_eq.
  - intros n Hn. destruct (Hprefix n Hn) as (_ & -> & _). done.
  - intros resp targetNode Hresp. unfold Receive, Get.
    rewrite Hresp, Ht2, lookup_delete_eq. simpl. split_and!; [by eexists|done|done|lia].
Qed.

End Delivery.

(** Two responses for a task that expects two, then a straggler. *)
Lemma deliver_until_done_witness :
  let c := MetricCtx (Mock.metricCtx 2) in
  let t := storeTask "broker-1" c Mock.manager in
  let rs := [Mock.arrival "" [Byte.x01]; Mock.arrival "" [Byte.x02]] in
  let t' := deliverAll rs t in
  tasks t' !! "broker-1" = None ∧
  (EmitResponse (statistics t'), OmitResponse (statistics t')) = (2, 0) ∧
  OmitResponse (statistics (Receive (Mock.response "" [Byte.x03]) "leaf" t').1) = 1.
Proof.
  intros c t rs t'.
  destruct (@deliver_until_done Mock.collaborators "broker-1" 0%nat c rs t)
    as (_ & Htask & _ & Hemit & Homit & Hlate).
  - reflexivity.
  - reflexivity.
  - reflexivity.
  - vm_compute. split; discriminate.
  - reflexivity.
  - repeat constructor.
  - fold t' in Htask, Hemit, Homit, Hlate.
    destruct (Hlate (Mock.response "" [Byte.x03]) "leaf" eq_refl) as (_ & _ & _ & Hom).
    split; [exact Htask|]. split; [|exact Hom].
    rewrite Hemit, Homit. reflexivity.
Defined.

(** ** Function types and field types *)

Section Enums.

Local Ltac by_cases_on t :=
  repeat match goal with
         | |- context [t =? ?k] =>
             let E := fresh "E" in destruct (t =? k) eqn:E;
             [apply Z.eqb_eq in E | apply Z.eqb_neq in E]
         end.

(** The names of the function types: the ten declared types have ten
    different names, none of them "unknown", and every other value of the
    type is named "unknown". *)
Theorem FuncType_String_names (a b : Z) :
  (function.String a = "unknown" ↔ ¬ (1 <= a <= 10)) ∧
  (function.String a = function.String b → function.String a ≠ "unknown" → a = b).
Proof.
  unfold function.String, function.Sum, function.Min, function.Max, function.Count,
    function.Avg, function.Last, function.First, function.Quantile, function.Stddev,
    function.Rate.
  split.
  - by_cases_on a; split; intros; first [discriminate | reflexivity | lia | exfalso; lia].
  - by_cases_on a; by_cases_on b; intros; first [discriminate | lia | done].
Qed.

(** Whatever the field type, also an undeclared one, the function that
    [GetOrderByFunc] picks for it is one that [IsSupportOrderBy] accepts. *)
Theorem GetOrderByFunc_is_supported (t : Z) :
  function.IsSupportOrderBy (field.GetOrderByFunc t) = true.
Proof.
  unfold field.GetOrderByFunc. by_cases_on t; reflexivity.
Qed.

(** For each of the six declared field types the down-sampling function is
    one the field type supports, and it has the name of the field type,
    except for the histogram field, which down-samples with sum.  An
    undeclared field type supports no function, down-samples with the
    unknown function, has no aggregate type and no field parameters. *)
Theorem DownSamplingFunc_is_supported (t funcType : Z) :
  (field.is_known t = true →
     field.IsFuncSupported t (field.DownSamplingFunc t) = true ∧
     is_Some (field.AggType t) ∧
     (t ≠ field.HistogramField →
        function.String (field.DownSamplingFunc t) = field.String t)) ∧
  (field.is_known t = false →
     field.IsFuncSupported t funcType = false ∧
     field.DownSamplingFunc t = function.Unknown ∧
     field.AggType t = None ∧
     field.GetFuncFieldParams t funcType = None ∧
     field.String t = "unknown").
Proof.
  unfold field.is_known. split; intros Hk.
  - assert (Hcases : t = 1 ∨ t = 2 ∨ t = 3 ∨ t = 4 ∨ t = 5 ∨ t = 6) by lia.
    destruct Hcases as [-> | [-> | [-> | [-> | [-> | ->]]]]];
      (split; [reflexivity|]); (split; [by eexists|]); intros Hne; done.
  - unfold field.IsFuncSupported, field.DownSamplingFunc, field.AggType,
      field.GetFuncFieldParams, field.String, field.SumField, field.MinField, field.MaxField,
      field.LastField, field.HistogramField, field.FirstField.
    by_cases_on t; first [lia | done].
Qed.

(** The default field parameters of a field type are its aggregate type
    alone, and they are what [GetFuncFieldParams] returns for the
    down-sampling function of the field type; for an undeclared field type
    both are nil, where [AggType] panics. *)
Theorem GetDefaultFuncFieldParams_is_AggType (t : Z) :
  field.GetDefaultFuncFieldParams t = (λ aggType, [aggType]) <$> field.AggType t ∧
  field.GetFuncFieldParams t (field.DownSamplingFunc t) = field.GetDefaultFuncFieldParams t.
Proof.
  unfold field.GetDefaultFuncFieldParams, field.AggType, field.GetFuncFieldParams,
    field.DownSamplingFunc, field.SumField, field.MinField, field.MaxField,
    field.LastField, field.HistogramField, field.FirstField.
  by_cases_on t; subst; first [lia | split; reflexivity].
Qed.

End Enums.

Lemma DownSamplingFunc_is_supported_witness :
  field.IsFuncSupported field.LastField (field.DownSamplingFunc field.LastField) = true ∧
  field.IsFuncSupported 9 function.Sum = false.
Proof.
  split.
  - apply (DownSamplingFunc_is_supported field.LastField 0). reflexivity.
  - apply (DownSamplingFunc_is_supported 9 function.Sum). reflexivity.
Defined.

Lemma FuncType_String_names_witness :
  function.String function.Quantile ≠ "unknown" ∧ function.String 11 = "unknown".
Proof.
  destruct (FuncType_String_names function.Quantile 0) as [Hq _].
  destruct (FuncType_String_names 11 0) as [H11 _].
  split.
  - intros Heq. apply Hq in Heq. apply Heq. vm_compute. split; discriminate.
  - apply H11. vm_compute. intros [_ Hle]. apply Hle. reflexivity.
Defined.

(** ** Every path out of [ensureIntermediateAckTasks] *)

Section EnsurePaths.
Context `{Collaborators}.

(** [ensureIntermediateAckTasks] calls [SendRequest] once per intermediate
    and, on every path out of it, leaves its task id out of the task table
    with the gauge [AliveTask] back at the value it had on entry; one
    context was created.  When a send fails, the send error is returned
    without waiting for acknowledgements: the result does not depend on what
    the wait would have observed.  When all sends succeed the result is the
    value received from the channel, "missing acks" if the channel was
    closed without a value, and [ErrTimeout] if the context was done
    first. *)
Theorem ensureIntermediateAckTasks_every_path (now_ms : Z) (wait : AckWait)
    (plan : PhysicalPlan) (req : TaskRequest) (t : taskManager) :
  let f := taskClientFactory t in
  let all_ok := forallb (send_ok f req) (Intermediates plan) in
  let r := ensureIntermediateAckTasks now_ms wait plan req t in
  tasks r.1 = delete (req_ParentTaskID req) (tasks t) ∧
  AliveTask (statistics r.1) = AliveTask (statistics t) ∧
  CreatedTasks (statistics r.1) = CreatedTasks (statistics t) + 1 ∧
  wire r.1 = wire t ++ fanout_calls f (Intermediates plan) req ∧
  (all_ok = false →
     is_Some r.2 ∧
     ∀ wait', (ensureIntermediateAckTasks now_ms wait' plan req t).2 = r.2) ∧
  (all_ok = true →
     r.2 = match wait with
           | AckEvent event => event
           | AckClosed => Some (errors_New "missing acks from intermdiate nodes")
           | CtxDone => Some (Sentinel ErrTimeout)
           end).
Proof.
  cbv zeta.
  destruct (ensureIntermediateAckTasks_spec now_ms wait plan req t)
    as (Hw & Ht & _ & Hbad & Hok).
  split_and!; try done.
  - unfold ensureIntermediateAckTasks. set (t0 := storeTask _ _ t).
    destruct (fanout_spec (Intermediates plan) req None t0) as (_ & Hs & _).
    destruct (fanout_statistics (Intermediates plan) req None t0) as (_ & _ & _ & Ha & _).
    destruct (fanout (Intermediates plan) req None t0) as [t1 sendError].
    simpl in Hs, Ha. destruct Hs as (_ & _ & _ & _ & Hts & _).
    cbn [fst]. unfold evictTask. rewrite Hts. subst t0. simpl.
    rewrite lookup_insert_eq. simpl. rewrite Ha. simpl. lia.
  - unfold ensureIntermediateAckTasks. set (t0 := storeTask _ _ t).
    destruct (fanout_statistics (Intermediates plan) req None t0) as (_ & _ & Hc & _).
    destruct (fanout (Intermediates plan) req None t0) as [t1 sendError].
    simpl in Hc. cbn [fst]. unfold evictTask.
    destruct (tasks t1 !! req_ParentTaskID req); simpl; rewrite Hc; done.
  - intros Hfalse. split; [by apply Hbad|].
    intros wait'. unfold ensureIntermediateAckTasks. set (t0 := storeTask _ _ t).
    destruct (fanout_spec (Intermediates plan) req None t0) as (_ & _ & _ & Hsome).
    destruct (fanout (Intermediates plan) req None t0) as [t1 sendError].
    simpl in Hsome. destruct (Hsome Hfalse) as [e ->]. done.
Qed.

End EnsurePaths.

Lemma ensureIntermediateAckTasks_every_path_witness :
  let req := @intermediateRequest Mock.collaborators "broker-1"
               (Mock.plan 1 ["up"; "down"] []) tt in
  let r := @ensureIntermediateAckTasks Mock.collaborators 0 (AckEvent None)
             (Mock.plan 1 ["up"; "down"] []) req Mock.manager in
  is_Some r.2 ∧ tasks r.1 !! "broker-1" = None ∧ AliveTask (statistics r.1) = 0.
Proof.
  intros req r.
  destruct (@ensureIntermediateAckTasks_every_path Mock.collaborators 0 (AckEvent None)
              (Mock.plan 1 ["up"; "down"] []) req Mock.manager)
    as (Ht & Ha & _ & _ & Hfail & _).
  destruct (Hfail eq_refl) as [Herr _].
  fold r in Ht, Ha, Herr. split; [exact Herr|]. split; [|exact Ha].
  rewrite Ht. reflexivity.
Defined.
